(** * flopy.mf6.mfpackage: block headers, blocks and packages of MODFLOW 6 input files

    A shallow embedding of [flopy/mf6/mfpackage.py] (classes [MFBlockHeader],
    [MFBlock] and [MFPackage]) and the properties of its parsing and writing
    engine.

    Python objects are records, mutation is explicit state passing, and a
    raised exception is a value of [result]: a method of the source becomes a
    function from a state to an outcome and the state it leaves behind, so
    what a method had already changed when it raised stays changed, as in
    Python.  The collaborators that live in other modules of the package
    ([mfstructure], [mfdata], [mfdatautil], the dataset classes) are taken as
    the record [Externals]. *)

From Stdlib Require Import ZArith List String Ascii Bool Arith Lia.
From Stdlib Require Import DecimalString DecimalZ.
Import ListNotations.
Local Open Scope string_scope.
Local Open Scope list_scope.

Set Implicit Arguments.
Set Warnings "-register-all".

(* ================================================================== *)
(** ** Python values, exceptions and outcomes *)
(* ================================================================== *)

(** The exceptions the module raises or lets through. *)
Inductive exn : Type :=
| AttributeError (cls attr : string)
| IndexError (what : string)
| KeyError (what : string)
| NameError (name : string)
| TypeError (what : string)
| ValueError (what : string)
| StopIteration
| AssertionError
| OSError (what : string)
| MFFileParseException (msg : string)
| MFFileWriteException (msg : string)
| MFDataException (msg : string)
| ReadAsArraysException (msg : string)
| MFInvalidTransientBlockHeaderException (msg : string)
| OtherException (what : string).

(** The outcome of a call: a value, a raised exception, or [Timeout] when the
    fuel given to a [while] loop ran out before the loop ended. *)
Inductive result (A : Type) : Type :=
| Ok (a : A)
| Raise (e : exn)
| Timeout.

Arguments Ok {A} a.
Arguments Raise {A} e.
Arguments Timeout {A}.

(** A computation over a mutable state [S]. *)
Definition M (S A : Type) : Type := S -> result A * S.

Definition ret {S A} (a : A) : M S A := fun s => (Ok a, s).

Definition bind {S A B} (m : M S A) (k : A -> M S B) : M S B :=
  fun s =>
    match m s with
    | (Ok a, s') => k a s'
    | (Raise e, s') => (Raise e, s')
    | (Timeout, s') => (Timeout, s')
    end.

Definition raise {S A} (e : exn) : M S A := fun s => (Raise e, s).
Definition timeout {S A} : M S A := fun s => (Timeout, s).
Definition get {S} : M S S := fun s => (Ok s, s).
Definition gets {S A} (f : S -> A) : M S A := fun s => (Ok (f s), s).
Definition put {S} (s : S) : M S unit := fun _ => (Ok tt, s).
Definition modify {S} (f : S -> S) : M S unit := fun s => (Ok tt, f s).

(** [try: m except <the exceptions h answers>: h e]. *)
Definition try_except {S A} (m : M S A) (h : exn -> option (M S A)) : M S A :=
  fun s =>
    match m s with
    | (Raise e, s') =>
        match h e with
        | Some k => k s'
        | None => (Raise e, s')
        end
    | r => r
    end.

(** A pure step that may raise. *)
Definition lift_result {S A} (r : result A) : M S A := fun s => (r, s).

Declare Scope py_scope.
Delimit Scope py_scope with py.
Notation "x <- m ;; k" := (bind m (fun x => k))
  (at level 61, m at next level, right associativity) : py_scope.
Notation "' pat <- m ;; k" := (bind m (fun x => match x with pat => k end))
  (at level 61, pat pattern, m at next level, right associativity) : py_scope.
Notation "m ;;; k" := (bind m (fun _ => k))
  (at level 61, right associativity) : py_scope.
Local Open Scope py_scope.

(** [for x in xs: body x], left to right; a raising body ends the loop. *)
Fixpoint for_each {S A} (xs : list A) (body : A -> M S unit) : M S unit :=
  match xs with
  | [] => ret tt
  | x :: xs' => body x ;;; for_each xs' body
  end.

(** Values that flow through the module as dataset contents and keys. A
    [numpy.recarray] is [VRecarray] of its rows, each a [VTuple]; a [dict] is
    [VDict] of its items, each a [VTuple] of key and value; [VOpaque] is an
    object this module only passes on. *)
Inductive PyVal : Type :=
| VNone
| VInt (z : Z)
| VStr (s : string)
| VTuple (xs : list PyVal)
| VList (xs : list PyVal)
| VDict (items : list PyVal)
| VRecarray (rows : list PyVal)
| VOpaque (what : string).

(** Python's [==] on these values. *)
Fixpoint val_eqb (a b : PyVal) {struct a} : bool :=
  let fix all_eqb (xs ys : list PyVal) {struct xs} : bool :=
    match xs, ys with
    | [], [] => true
    | x :: xs', y :: ys' => val_eqb x y && all_eqb xs' ys'
    | _, _ => false
    end in
  match a, b with
  | VNone, VNone => true
  | VInt x, VInt y => Z.eqb x y
  | VStr x, VStr y => String.eqb x y
  | VTuple xs, VTuple ys => all_eqb xs ys
  | VList xs, VList ys => all_eqb xs ys
  | VDict xs, VDict ys => all_eqb xs ys
  | VRecarray xs, VRecarray ys => all_eqb xs ys
  | VOpaque x, VOpaque y => String.eqb x y
  | _, _ => false
  end.

Definition is_none (v : PyVal) : bool :=
  match v with VNone => true | _ => false end.

(* ================================================================== *)
(** ** Strings *)
(* ================================================================== *)

Definition nl : string := String (ascii_of_nat 10) EmptyString.

(** The characters [str.strip] and [str.split] treat as blanks. Strings
    hold ASCII text: the blank, the controls 9 to 13 (tab, line feed,
    vertical tab, form feed, carriage return) and the separators 28 to 31
    (file, group, record and unit separator). *)
Definition is_space (c : ascii) : bool :=
  let n := nat_of_ascii c in
  Nat.eqb n 32 || (Nat.leb 9 n && Nat.leb n 13) || (Nat.leb 28 n && Nat.leb n 31).

Definition lower_char (c : ascii) : ascii :=
  let n := nat_of_ascii c in
  if Nat.leb 65 n && Nat.leb n 90 then ascii_of_nat (n + 32) else c.

Definition upper_char (c : ascii) : ascii :=
  let n := nat_of_ascii c in
  if Nat.leb 97 n && Nat.leb n 122 then ascii_of_nat (n - 32) else c.

Fixpoint map_string (f : ascii -> ascii) (s : string) : string :=
  match s with
  | EmptyString => EmptyString
  | String c s' => String (f c) (map_string f s')
  end.

Definition lower : string -> string := map_string lower_char.
Definition upper : string -> string := map_string upper_char.

(** [s[:n]]. *)
Fixpoint prefix_of (n : nat) (s : string) : string :=
  match n, s with
  | S n', String c s' => String c (prefix_of n' s')
  | _, _ => EmptyString
  end.

Fixpoint lstrip (s : string) : string :=
  match s with
  | String c s' => if is_space c then lstrip s' else s
  | EmptyString => EmptyString
  end.

Fixpoint rstrip (s : string) : string :=
  match s with
  | EmptyString => EmptyString
  | String c s' =>
      match rstrip s' with
      | EmptyString => if is_space c then EmptyString else String c EmptyString
      | r => String c r
      end
  end.

Definition strip (s : string) : string := rstrip (lstrip s).

(** [s.split()]: the maximal runs of non-blank characters. *)
Fixpoint split_from (cur : string) (s : string) : list string :=
  match s with
  | EmptyString => match cur with EmptyString => [] | _ => [cur] end
  | String c s' =>
      if is_space c then
        match cur with
        | EmptyString => split_from EmptyString s'
        | _ => cur :: split_from EmptyString s'
        end
      else split_from (cur ++ String c EmptyString) s'
  end.

Definition split : string -> list string := split_from EmptyString.

(** [sep.join(xs)]. *)
Fixpoint join (sep : string) (xs : list string) : string :=
  match xs with
  | [] => EmptyString
  | [x] => x
  | x :: xs' => x ++ sep ++ join sep xs'
  end.

Definition str_nonempty (s : string) : bool :=
  match s with EmptyString => false | _ => true end.

(** The double quote, for the messages that quote a name. *)
Definition dq : string := String (ascii_of_nat 34) EmptyString.

(** [s[:-1]]. *)
Fixpoint drop_last_char (s : string) : string :=
  match s with
  | EmptyString => EmptyString
  | String _ EmptyString => EmptyString
  | String c s' => String c (drop_last_char s')
  end.

(** [str(z)] for an [int]. *)
Definition str_of_int (z : Z) : string := NilZero.string_of_int (Z.to_int z).

(** [repr(s)] for a [str] of ASCII text: single quotes, or double quotes
    when the text has a single quote and no double quote; the backslash
    and the quote in use are escaped, line feed, carriage return and tab are
    written with their letters, and the other control characters as [\xNN]. *)
Definition sq_char : ascii := ascii_of_nat 39.
Definition dq_char : ascii := ascii_of_nat 34.
Definition backslash : ascii := ascii_of_nat 92.

Fixpoint has_char (c : ascii) (s : string) : bool :=
  match s with
  | EmptyString => false
  | String c' s' => Ascii.eqb c c' || has_char c s'
  end.

Definition hex_digit (n : nat) : ascii :=
  ascii_of_nat (if Nat.ltb n 10 then 48 + n else 87 + n).

Definition repr_char (quote : ascii) (c : ascii) : string :=
  let n := nat_of_ascii c in
  if Ascii.eqb c backslash then String backslash (String backslash EmptyString)
  else if Ascii.eqb c quote then String backslash (String quote EmptyString)
  else if Nat.eqb n 10 then String backslash "n"
  else if Nat.eqb n 13 then String backslash "r"
  else if Nat.eqb n 9 then String backslash "t"
  else if Nat.ltb n 32 || Nat.eqb n 127
  then String backslash
         (String "x" (String (hex_digit (n / 16)) (String (hex_digit (n mod 16)) EmptyString)))
  else String c EmptyString.

Fixpoint repr_chars (quote : ascii) (s : string) : string :=
  match s with
  | EmptyString => EmptyString
  | String c s' => (repr_char quote c ++ repr_chars quote s')%string
  end.

Definition py_repr (s : string) : string :=
  let quote := if has_char sq_char s && negb (has_char dq_char s) then dq_char else sq_char in
  String quote (repr_chars quote s ++ String quote EmptyString).

Definition is_digit (c : ascii) : bool :=
  let n := nat_of_ascii c in Nat.leb 48 n && Nat.leb n 57.

(** Decimal digits in groups, one underscore between two groups;
    [after_digit] tells whether the character before was a digit. *)
Fixpoint digit_groups (after_digit : bool) (s : string) : bool :=
  match s with
  | EmptyString => after_digit
  | String c s' =>
      if is_digit c then digit_groups true s'
      else Ascii.eqb c "_" && after_digit && digit_groups false s'
  end.

Fixpoint without_underscores (s : string) : string :=
  match s with
  | EmptyString => EmptyString
  | String c s' =>
      if Ascii.eqb c "_" then without_underscores s' else String c (without_underscores s')
  end.

(** [int(s)] for a [str] of ASCII text: blanks around the number are
    stripped, then come one optional sign and decimal digits, in which single
    underscores may stand between digits; anything else raises
    [ValueError]. *)
Definition py_int (s : string) : result Z :=
  let t := strip s in
  let signed :=
    match t with
    | String c t' =>
        if Ascii.eqb c "+" then (false, t')
        else if Ascii.eqb c "-" then (true, t')
        else (false, t)
    | EmptyString => (false, t)
    end in
  let invalid :=
    Raise (ValueError ("invalid literal for int() with base 10: " ++ py_repr s)) in
  if digit_groups false (snd signed) then
    match NilEmpty.uint_of_string (without_underscores (snd signed)) with
    | Some d => Ok (Z.of_int (if fst signed then Decimal.Neg d else Decimal.Pos d))
    | None => invalid
    end
  else invalid.

(** [xs[i]], raising [IndexError] out of range. *)
Definition index {A} (what : string) (xs : list A) (i : nat) : result A :=
  match nth_error xs i with
  | Some x => Ok x
  | None => Raise (IndexError what)
  end.

(** [xs[-1]]. *)
Definition index_last {A} (what : string) (xs : list A) : result A :=
  match rev xs with
  | x :: _ => Ok x
  | [] => Raise (IndexError what)
  end.

(** [xs[-2]]. *)
Definition index_last2 {A} (what : string) (xs : list A) : result A :=
  match rev xs with
  | _ :: x :: _ => Ok x
  | _ => Raise (IndexError what)
  end.

(** [os.path.split] and [os.path.join] on POSIX paths. *)
Fixpoint cut_last_slash (s : string) : option (string * string) :=
  match s with
  | EmptyString => None
  | String c s' =>
      match cut_last_slash s' with
      | Some (h, t) => Some (String c h, t)
      | None => if Ascii.eqb c "/" then Some (EmptyString, s') else None
      end
  end.

Fixpoint rstrip_slashes (s : string) : string :=
  match s with
  | EmptyString => EmptyString
  | String c s' =>
      match rstrip_slashes s' with
      | EmptyString => if Ascii.eqb c "/" then EmptyString else String c EmptyString
      | r => String c r
      end
  end.

Definition os_path_split (p : string) : string * string :=
  match cut_last_slash p with
  | None => (EmptyString, p)
  | Some (h, t) =>
      match rstrip_slashes h with
      | EmptyString => ((h ++ "/")%string, t)
      | h' => (h', t)
      end
  end.

Fixpoint ends_with_slash (s : string) : bool :=
  match s with
  | EmptyString => false
  | String c EmptyString => Ascii.eqb c "/"
  | String _ s' => ends_with_slash s'
  end.

Definition os_path_join (a b : string) : string :=
  match b with
  | String c _ =>
      if Ascii.eqb c "/" then b
      else match a with
           | EmptyString => b
           | _ => if ends_with_slash a then (a ++ b)%string else (a ++ "/" ++ b)%string
           end
  | EmptyString =>
      match a with
      | EmptyString => EmptyString
      | _ => if ends_with_slash a then a else (a ++ "/")%string
      end
  end.

(* ================================================================== *)
(** ** The schema ([mfstructure]), read-only *)
(* ================================================================== *)

(** [type_obj] of a data item: the Python type its values are converted to. *)
Inductive PyType : Type := ty_int | ty_float | ty_str | ty_other.

Definition PyType_eqb (a b : PyType) : bool :=
  match a, b with
  | ty_int, ty_int | ty_float, ty_float | ty_str, ty_str | ty_other, ty_other => true
  | _, _ => false
  end.

(** [mfstructure.DataType]: the nine members [mfpackage.py] names, and
    [dt_other] for any other value [get_datatype()] may return. *)
Inductive DataType : Type :=
| dt_scalar_keyword
| dt_scalar
| dt_scalar_keyword_transient
| dt_scalar_transient
| dt_array
| dt_array_transient
| dt_list
| dt_list_transient
| dt_list_multiple
| dt_other (tag : nat).

(** A key of [datasets_keyword]: a tuple of keyword tokens, or the bare
    string an attribute [keyword] may hold. *)
Inductive PyKey : Type :=
| KTuple (ks : list string)
| KStr (s : string).

Definition PyKey_eqb (a b : PyKey) : bool :=
  match a, b with
  | KTuple xs, KTuple ys =>
      if list_eq_dec string_dec xs ys then true else false
  | KStr x, KStr y => String.eqb x y
  | _, _ => false
  end.

Record MFDataItemStructure : Type := {
  dis_name : string;
  dis_type : string;
  dis_type_obj : PyType
}.

(** One dataset (or block-header variable) of the schema. The fields that are
    methods in [mfstructure] hold what the method returns. *)
Record MFDataStructure : Type := {
  ds_name : string;
  ds_type : string;
  ds_optional : bool;
  ds_datatype : DataType;                          (* get_datatype() *)
  ds_data_item_structures : list MFDataItemStructure;
  ds_record_size : list Z;                         (* get_record_size() *)
  ds_keywords : list PyKey;                        (* get_keywords() *)
  ds_keyword : option PyKey;                       (* keyword *)
  ds_file_data : bool;
  ds_first_non_keyword_index : option nat          (* first_non_keyword_index() *)
}.

Record MFBlockStructure : Type := {
  bs_name : string;
  bs_data_structures : list (string * MFDataStructure);
  bs_block_header_structure : list MFDataStructure;
  bs_number_non_optional_data : nat;               (* number_non_optional_data() *)
  bs_number_non_optional_block_header_data : nat;  (* number_non_optional_block_header_data() *)
  bs_repeating : bool;                             (* repeating() *)
  bs_all_recarrays : list MFDataStructure;         (* get_all_recarrays() *)
  bs_variable_dependant_path : list string;
  bs_variable_value_when_active : list string
}.

Record MFPackageStructure : Type := {
  ps_blocks : list (string * MFBlockStructure);
  ps_read_as_arrays : bool;
  ps_file_type : string
}.

(* ================================================================== *)
(** ** Paths, comments, datasets and the shared store *)
(* ================================================================== *)

(** A path is a tuple of names; block-header paths end in a number. *)
Inductive Seg : Type := SegS (s : string) | SegI (n : nat).
Definition Path : Type := list Seg.

Definition Seg_eqb (a b : Seg) : bool :=
  match a, b with
  | SegS x, SegS y => String.eqb x y
  | SegI x, SegI y => Nat.eqb x y
  | _, _ => false
  end.

Fixpoint Path_eqb (p q : Path) : bool :=
  match p, q with
  | [], [] => true
  | a :: p', b :: q' => Seg_eqb a b && Path_eqb p' q'
  | _, _ => false
  end.

(** The [text] of an [MFComment]: a string, or the list [MFBlock.load]
    assigns to the block-trailing comment (token lists and newlines). *)
Inductive CommentItem : Type :=
| CI_str (s : string)
| CI_tokens (toks : list string).

Inductive CommentText : Type :=
| TStr (s : string)
| TItems (items : list CommentItem).

Definition text_truthy (t : CommentText) : bool :=
  match t with
  | TStr s => str_nonempty s
  | TItems [] => false
  | TItems _ => true
  end.

Record MFComment : Type := { c_text : CommentText }.

(** The dataset classes of [mfdatascalar], [mfdataarray] and [mfdatalist]. *)
Inductive DataClass : Type :=
| MFScalar
| MFScalarTransient
| MFArray
| MFTransientArray
| MFList
| MFTransientList
| MFMultipleList.

(** A dataset object: what its constructor was given, the
    [set_data(data, key=..., autofill=...)] calls made on it since, and the
    comment object [MFBlock.load] attaches as [post_data_comments]. *)
Record MFData : Type := {
  d_class : DataClass;
  d_structure : MFDataStructure;
  d_enabled : bool;
  d_path : Path;
  d_data : PyVal;
  d_keyed : list (PyVal * PyVal * bool);
  d_post_data_comments : option nat
}.

(** Modelled from the spec: the dataset constructors are not under src/;
    section 4.1 has them hold the initial value they are given. *)
Definition new_data (c : DataClass) (structure : MFDataStructure) (data : PyVal)
    (enable : bool) (path : Path) : MFData :=
  {| d_class := c; d_structure := structure; d_enabled := enable;
     d_path := path; d_data := data; d_keyed := [];
     d_post_data_comments := None |}.

(** Modelled from the spec: [set_data] is not under src/; section 4.1: for
    the transient and multi-instance kinds an initial value is stored under
    the key it is given (key 0 at construction). *)
Definition set_data (d : MFData) (data key : PyVal) (autofill : bool) : MFData :=
  {| d_class := d_class d; d_structure := d_structure d; d_enabled := d_enabled d;
     d_path := d_path d; d_data := d_data d;
     d_keyed := d_keyed d ++ [(key, data, autofill)];
     d_post_data_comments := d_post_data_comments d |}.

Definition set_d_post_data_comments (c : nat) (d : MFData) : MFData :=
  {| d_class := d_class d; d_structure := d_structure d; d_enabled := d_enabled d;
     d_path := d_path d; d_data := d_data d; d_keyed := d_keyed d;
     d_post_data_comments := Some c |}.

(** An object of [simulation_data.mfdata]: a comment (by reference), a
    dataset, or something this module never looks into. *)
Inductive StoreObj : Type :=
| SComment (ref : nat)
| SData (d : MFData)
| SOther (what : string).

(** A file object. [f_unread] are the lines [readline] has not returned yet,
    each without its newline; [f_written] are the strings written so far. *)
Record File : Type := {
  f_name : string;
  f_unread : list string;
  f_written : list string;
  f_closed : bool
}.

(** Calls made to collaborators outside this module, oldest first. *)
Inductive Call : Type :=
| call_dataset_load (path : Path) (line : string) (fd : nat)
| call_load_package (ptype fname : string) (third : option string) (fpath dict_name : string).

(** Everything a method can reach besides [self]: the shared store
    ([simulation_data.mfdata]) with the comment objects it refers to, the
    settings of [simulation_data], the files on disk, the file objects opened
    so far (a file object is its position in [w_files]), and standard output. *)
Record World : Type := {
  w_mfdata : list (Path * StoreObj);
  w_comments : list MFComment;
  w_comments_on : bool;
  w_indent_string : string;
  w_disk : list (string * list string);
  w_files : list File;
  w_stdout : list string;
  w_calls : list Call
}.

Definition set_w_mfdata (v : list (Path * StoreObj)) (w : World) : World :=
  {| w_mfdata := v; w_comments := w_comments w; w_comments_on := w_comments_on w;
     w_indent_string := w_indent_string w; w_disk := w_disk w; w_files := w_files w;
     w_stdout := w_stdout w; w_calls := w_calls w |}.

Definition set_w_comments (v : list MFComment) (w : World) : World :=
  {| w_mfdata := w_mfdata w; w_comments := v; w_comments_on := w_comments_on w;
     w_indent_string := w_indent_string w; w_disk := w_disk w; w_files := w_files w;
     w_stdout := w_stdout w; w_calls := w_calls w |}.

Definition set_w_disk (v : list (string * list string)) (w : World) : World :=
  {| w_mfdata := w_mfdata w; w_comments := w_comments w; w_comments_on := w_comments_on w;
     w_indent_string := w_indent_string w; w_disk := v; w_files := w_files w;
     w_stdout := w_stdout w; w_calls := w_calls w |}.

Definition set_w_files (v : list File) (w : World) : World :=
  {| w_mfdata := w_mfdata w; w_comments := w_comments w; w_comments_on := w_comments_on w;
     w_indent_string := w_indent_string w; w_disk := w_disk w; w_files := v;
     w_stdout := w_stdout w; w_calls := w_calls w |}.

Definition set_w_stdout (v : list string) (w : World) : World :=
  {| w_mfdata := w_mfdata w; w_comments := w_comments w; w_comments_on := w_comments_on w;
     w_indent_string := w_indent_string w; w_disk := w_disk w; w_files := w_files w;
     w_stdout := v; w_calls := w_calls w |}.

Definition set_w_calls (v : list Call) (w : World) : World :=
  {| w_mfdata := w_mfdata w; w_comments := w_comments w; w_comments_on := w_comments_on w;
     w_indent_string := w_indent_string w; w_disk := w_disk w; w_files := w_files w;
     w_stdout := w_stdout w; w_calls := v |}.

(* ------------------------------------------------------------------ *)
(** *** Dictionaries and the store *)

Fixpoint assoc_lookup {K V} (eqb : K -> K -> bool) (k : K) (l : list (K * V)) : option V :=
  match l with
  | [] => None
  | (k', v) :: l' => if eqb k k' then Some v else assoc_lookup eqb k l'
  end.

(** [d[k] = v]: an existing key keeps its place, a new one goes last. *)
Fixpoint assoc_set {K V} (eqb : K -> K -> bool) (k : K) (v : V) (l : list (K * V)) : list (K * V) :=
  match l with
  | [] => [(k, v)]
  | (k', v') :: l' => if eqb k k' then (k, v) :: l' else (k', v') :: assoc_set eqb k v l'
  end.

Definition assoc_mem {K V} (eqb : K -> K -> bool) (k : K) (l : list (K * V)) : bool :=
  match assoc_lookup eqb k l with Some _ => true | None => false end.

Fixpoint replace_nth {A} (n : nat) (x : A) (l : list A) : list A :=
  match n, l with
  | O, _ :: l' => x :: l'
  | S n', y :: l' => y :: replace_nth n' x l'
  | _, [] => []
  end.

(** [xs[-1] = x] on a non-empty list. *)
Definition replace_last {A} (x : A) (l : list A) : list A :=
  replace_nth (List.length l - 1) x l.

Definition mfdata_mem (p : Path) : M World bool :=
  gets (fun w => assoc_mem Path_eqb p (w_mfdata w)).

Definition mfdata_get (p : Path) : M World StoreObj :=
  fun w =>
    match assoc_lookup Path_eqb p (w_mfdata w) with
    | Some o => (Ok o, w)
    | None => (Raise (KeyError "mfdata"), w)
    end.

Definition mfdata_set (p : Path) (o : StoreObj) : M World unit :=
  modify (fun w => set_w_mfdata (assoc_set Path_eqb p o (w_mfdata w)) w).

(** [mfdata.MFComment(text, ...)]: a new comment object. *)
Definition MFComment_new (t : CommentText) : M World nat :=
  fun w => (Ok (List.length (w_comments w)),
            set_w_comments (w_comments w ++ [{| c_text := t |}]) w).

Definition comment_text (r : nat) : M World CommentText :=
  fun w =>
    match nth_error (w_comments w) r with
    | Some c => (Ok (c_text c), w)
    | None => (Raise (OtherException "no such comment object"), w)
    end.

Definition comment_set_text (r : nat) (t : CommentText) : M World unit :=
  modify (fun w => set_w_comments (replace_nth r {| c_text := t |} (w_comments w)) w).

(** [obj.text] for an object taken out of the store, or [None]. *)
Definition comment_of (o : option StoreObj) : M World nat :=
  match o with
  | Some (SComment r) => ret r
  | Some (SData _) => raise (AttributeError "MFData" "text")
  | Some (SOther what) => raise (AttributeError what "text")
  | None => raise (AttributeError "NoneType" "text")
  end.

Definition print (s : string) : M World unit :=
  modify (fun w => set_w_stdout (w_stdout w ++ [s]) w).

(* ------------------------------------------------------------------ *)
(** *** Files *)

(** [open(path, 'r')]. *)
Definition open_r (path : string) : M World nat :=
  fun w =>
    match assoc_lookup String.eqb path (w_disk w) with
    | Some lines =>
        (Ok (List.length (w_files w)),
         set_w_files (w_files w ++ [{| f_name := path; f_unread := lines;
                                       f_written := []; f_closed := false |}]) w)
    | None => (Raise (OSError path), w)
    end.

(** [open(path, 'w')]: the file is created or emptied. What is written
    afterwards is kept in the file object. *)
Definition open_w (path : string) : M World nat :=
  fun w =>
    (Ok (List.length (w_files w)),
     set_w_files (w_files w ++ [{| f_name := path; f_unread := [];
                                   f_written := []; f_closed := false |}])
       (set_w_disk (assoc_set String.eqb path [] (w_disk w)) w)).

Definition file_of (fd : nat) : M World File :=
  fun w =>
    match nth_error (w_files w) fd with
    | Some f => (Ok f, w)
    | None => (Raise (OtherException "no such file object"), w)
    end.

Definition set_file (fd : nat) (f : File) : M World unit :=
  modify (fun w => set_w_files (replace_nth fd f (w_files w)) w).

(** [fd.readline()]: the next line with its newline, [''] at the end. *)
Definition readline (fd : nat) : M World string :=
  f <- file_of fd ;;
  if f_closed f then raise (ValueError "I/O operation on closed file")
  else match f_unread f with
       | [] => ret EmptyString
       | l :: rest =>
           set_file fd {| f_name := f_name f; f_unread := rest;
                          f_written := f_written f; f_closed := false |} ;;;
           ret (l ++ nl)%string
       end.

(** [fd.write(s)]. *)
Definition fd_write (fd : nat) (s : string) : M World unit :=
  f <- file_of fd ;;
  if f_closed f then raise (ValueError "I/O operation on closed file")
  else set_file fd {| f_name := f_name f; f_unread := f_unread f;
                      f_written := f_written f ++ [s]; f_closed := false |}.

(** [fd.close()]. *)
Definition fd_close (fd : nat) : M World unit :=
  f <- file_of fd ;;
  set_file fd {| f_name := f_name f; f_unread := f_unread f;
                 f_written := f_written f; f_closed := true |}.

Definition fd_name (fd : nat) : M World string :=
  f <- file_of fd ;; ret (f_name f).

(** Run a computation on the world from a method whose state is [self] and
    the world. *)
Definition in_world {T A} (m : M World A) : M (T * World) A :=
  fun s => let '(r, w') := m (snd s) in (r, (fst s, w')).

Definition self {T} : M (T * World) T := gets fst.

Definition update_self {T} (f : T -> T) : M (T * World) unit :=
  modify (fun s => (f (fst s), snd s)).

(** Run a method of an object [T] held by the caller and give back the
    object as the method left it. *)
Definition call_on {T A} (obj : T) (m : M (T * World) A) : M World (A * T) :=
  fun w =>
    match m (obj, w) with
    | (Ok a, (obj', w')) => (Ok (a, obj'), w')
    | (Raise e, (_, w')) => (Raise e, w')
    | (Timeout, (_, w')) => (Timeout, w')
    end.

(* ================================================================== *)
(** ** The objects of this module *)
(* ================================================================== *)

(** [MFBlockHeader]. [bh_comment] is the attribute [comment]; a header
    connected to the store ([simulation_data] not [None]) has
    [bh_comment_path] and keeps its comment in the store. A data item is
    [None] when [data_factory] returned [None] for it. *)
Record MFBlockHeader : Type := {
  bh_name : string;
  bh_variable_strings : list string;
  bh_comment : option nat;
  bh_comment_path : option Path;
  bh_data_items : list (option MFData)
}.

Definition set_bh_data_items (v : list (option MFData)) (h : MFBlockHeader) : MFBlockHeader :=
  {| bh_name := bh_name h; bh_variable_strings := bh_variable_strings h;
     bh_comment := bh_comment h; bh_comment_path := bh_comment_path h;
     bh_data_items := v |}.

(** What a block reads of the package that contains it
    ([_container_package]): [structure.read_as_arrays],
    [auxiliary.get_data()] (rows of names, or [None]) and [aux.structure]. *)
Record ContainerPackage : Type := {
  cp_read_as_arrays : bool;
  cp_auxiliary_data : option (list (list string));
  cp_aux_structure : MFDataStructure
}.

(** [MFBlock]. [b_model_type] is [_model_or_sim.structure.model_type]. *)
Record MFBlock : Type := {
  b_structure : MFBlockStructure;
  b_path : Path;
  b_block_headers : list MFBlockHeader;
  b_datasets : list (Seg * option MFData);
  b_datasets_keyword : list (PyKey * MFDataStructure);
  b_blk_trailing_comment_path : Path;
  b_blk_post_comment_path : Path;
  b_enabled : bool;
  b_loaded : bool;
  b_external_file_name : option string;
  b_container_package : option ContainerPackage;
  b_model_type : string
}.

Definition set_b_block_headers (v : list MFBlockHeader) (b : MFBlock) : MFBlock :=
  {| b_structure := b_structure b; b_path := b_path b; b_block_headers := v;
     b_datasets := b_datasets b; b_datasets_keyword := b_datasets_keyword b;
     b_blk_trailing_comment_path := b_blk_trailing_comment_path b;
     b_blk_post_comment_path := b_blk_post_comment_path b;
     b_enabled := b_enabled b; b_loaded := b_loaded b;
     b_external_file_name := b_external_file_name b;
     b_container_package := b_container_package b; b_model_type := b_model_type b |}.

Definition set_b_datasets (v : list (Seg * option MFData)) (b : MFBlock) : MFBlock :=
  {| b_structure := b_structure b; b_path := b_path b; b_block_headers := b_block_headers b;
     b_datasets := v; b_datasets_keyword := b_datasets_keyword b;
     b_blk_trailing_comment_path := b_blk_trailing_comment_path b;
     b_blk_post_comment_path := b_blk_post_comment_path b;
     b_enabled := b_enabled b; b_loaded := b_loaded b;
     b_external_file_name := b_external_file_name b;
     b_container_package := b_container_package b; b_model_type := b_model_type b |}.

Definition set_b_datasets_keyword (v : list (PyKey * MFDataStructure)) (b : MFBlock) : MFBlock :=
  {| b_structure := b_structure b; b_path := b_path b; b_block_headers := b_block_headers b;
     b_datasets := b_datasets b; b_datasets_keyword := v;
     b_blk_trailing_comment_path := b_blk_trailing_comment_path b;
     b_blk_post_comment_path := b_blk_post_comment_path b;
     b_enabled := b_enabled b; b_loaded := b_loaded b;
     b_external_file_name := b_external_file_name b;
     b_container_package := b_container_package b; b_model_type := b_model_type b |}.

Definition set_b_enabled (v : bool) (b : MFBlock) : MFBlock :=
  {| b_structure := b_structure b; b_path := b_path b; b_block_headers := b_block_headers b;
     b_datasets := b_datasets b; b_datasets_keyword := b_datasets_keyword b;
     b_blk_trailing_comment_path := b_blk_trailing_comment_path b;
     b_blk_post_comment_path := b_blk_post_comment_path b;
     b_enabled := v; b_loaded := b_loaded b;
     b_external_file_name := b_external_file_name b;
     b_container_package := b_container_package b; b_model_type := b_model_type b |}.

Definition set_b_loaded (v : bool) (b : MFBlock) : MFBlock :=
  {| b_structure := b_structure b; b_path := b_path b; b_block_headers := b_block_headers b;
     b_datasets := b_datasets b; b_datasets_keyword := b_datasets_keyword b;
     b_blk_trailing_comment_path := b_blk_trailing_comment_path b;
     b_blk_post_comment_path := b_blk_post_comment_path b;
     b_enabled := b_enabled b; b_loaded := v;
     b_external_file_name := b_external_file_name b;
     b_container_package := b_container_package b; b_model_type := b_model_type b |}.

Definition set_b_external_file_name (v : option string) (b : MFBlock) : MFBlock :=
  {| b_structure := b_structure b; b_path := b_path b; b_block_headers := b_block_headers b;
     b_datasets := b_datasets b; b_datasets_keyword := b_datasets_keyword b;
     b_blk_trailing_comment_path := b_blk_trailing_comment_path b;
     b_blk_post_comment_path := b_blk_post_comment_path b;
     b_enabled := b_enabled b; b_loaded := b_loaded b;
     b_external_file_name := v;
     b_container_package := b_container_package b; b_model_type := b_model_type b |}.

(** [mfbase.ExtFileAction]. *)
Inductive ExtFileAction : Type :=
| copy_relative_paths
| ext_file_action_other (tag : nat).

(** The arguments of a dataset's [get_file_entry]. *)
Record FileEntryArgs : Type := {
  fe_key : option PyVal;
  fe_values_only : bool;
  fe_one_based : bool;
  fe_ext_file_action : option ExtFileAction
}.

(** The argument of [MFComment.is_comment]: a string, or the key
    [_find_data_by_keyword] returned. *)
Inductive CommentArg : Type :=
| CA_str (s : string)
| CA_key (k : option PyKey).

(** The collaborators of [mfpackage.py] that live in other modules. Each
    field is what the named function or method answers; a dataset method
    gets the dataset object it is called on. *)
Record Externals : Type := {
  (* mfdatautil.ArrayUtil.split_data_line(line) *)
  split_data_line : string -> list string;
  (* mfdata.MFComment.is_comment(text, include_empty_line=False) *)
  is_comment : CommentArg -> bool -> bool;
  (* mfdatautil.find_keyword(arr_line, datasets_keyword) *)
  find_keyword : list string -> list (PyKey * MFDataStructure) -> option PyKey;
  (* MFComment.add_text(text) *)
  comment_add_text : CommentText -> string -> CommentText;
  (* what MFComment.write(fd[, eoln_suffix]) writes, given comments_on *)
  comment_render : bool -> CommentText -> option bool -> string;
  (* dataset.load(first_line, fd, block_header, pre_data_comments):
     the list [continue, next unconsumed line], the dataset afterwards *)
  data_load : MFData -> string -> nat -> MFBlockHeader -> CommentText -> World ->
              result (bool * option string) * MFData * World;
  (* dataset.get_data() *)
  data_get_data : MFData -> PyVal;
  (* dataset.has_data() *)
  data_has_data : MFData -> option bool;
  (* dataset.is_valid() *)
  data_is_valid : MFData -> bool;
  (* dataset.repeating *)
  data_repeating : MFData -> bool;
  (* dataset.get_file_entry(...) *)
  data_get_file_entry : MFData -> FileEntryArgs -> result string;
  (* dataset.get_active_key_list() *)
  data_get_active_key_list : MFData -> list (list PyVal);
  (* whether the class derives from mfdatascalar.MFScalar *)
  derives_MFScalar : DataClass -> bool;
  (* PackageContainer.package_factory(package_type, model_type) is not None *)
  package_factory : string -> string -> bool;
  (* _model_or_sim.load_package(...) *)
  load_package : Call -> World -> result unit * World;
  (* os.path.realpath *)
  realpath : string -> string;
  (* truth value of an object of the store, and its comparison with
     float(text) in MFBlock.is_allowed *)
  store_truthy : StoreObj -> bool;
  store_gt : StoreObj -> string -> result bool;
  store_lt : StoreObj -> string -> result bool
}.

(** The text a file object was given, in one piece. *)
Definition file_text (f : File) : string := String.concat EmptyString (f_written f).

(* ================================================================== *)
(** ** MFBlock.data_factory *)
(* ================================================================== *)

(** [MFBlock.data_factory(sim_data, structure, enable, path, dimensions,
    data=None)]. [sim_data] and [dimensions] are only handed to the
    constructors. The chain of [if]/[elif] has no [else]: for any other kind
    the function ends without a [return], and the caller gets [None]. *)
Definition MFBlock_data_factory (structure : MFDataStructure) (enable : bool)
    (path : Path) (data : PyVal) : option MFData :=
  match ds_datatype structure with
  | dt_scalar_keyword | dt_scalar =>
      Some (new_data MFScalar structure data enable path)
  | dt_scalar_keyword_transient | dt_scalar_transient =>
      let trans_scalar := new_data MFScalarTransient structure VNone enable path in
      Some (if is_none data then trans_scalar
            else set_data trans_scalar data (VInt 0) false)
  | dt_array =>
      Some (new_data MFArray structure data enable path)
  | dt_array_transient =>
      let trans_array := new_data MFTransientArray structure VNone enable path in
      Some (if is_none data then trans_array
            else set_data trans_array data (VInt 0) false)
  | dt_list =>
      Some (new_data MFList structure data enable path)
  | dt_list_transient =>
      let trans_list := new_data MFTransientList structure VNone enable path in
      Some (if is_none data then trans_list
            else set_data trans_list data (VInt 0) true)
  | dt_list_multiple =>
      let mult_list := new_data MFMultipleList structure VNone enable path in
      Some (if is_none data then mult_list
            else set_data mult_list data (VInt 0) true)
  | dt_other _ => None
  end.

(** The kinds [data_factory] has a branch for. *)
Definition supported_kind (k : DataType) : bool :=
  match k with dt_other _ => false | _ => true end.

(* ================================================================== *)
(** ** MFBlockHeader *)
(* ================================================================== *)

(** [MFBlockHeader.__init__(name, variable_strings, comment,
    simulation_data=None, path=None)]; [path] is given exactly when
    [simulation_data] is, as the assertion asks, and then
    [connect_to_dict] moves the comment into the store. *)
Definition MFBlockHeader_init (name : string) (variable_strings : list string)
    (comment : option nat) (path : option Path) : M World MFBlockHeader :=
  match path with
  | None =>
      ret {| bh_name := name; bh_variable_strings := variable_strings;
             bh_comment := comment; bh_comment_path := None; bh_data_items := [] |}
  | Some p =>
      let comment_path := p ++ [SegS "blk_hdr_comment"] in
      match comment with
      | None => raise (AttributeError "MFBlockHeader" "comment")
      | Some c =>
          mfdata_set comment_path (SComment c) ;;;
          ret {| bh_name := name; bh_variable_strings := variable_strings;
                 bh_comment := None; bh_comment_path := Some comment_path;
                 bh_data_items := [] |}
      end
  end.

(** [get_comment()], followed by the attribute access every caller makes
    on its result. *)
Definition MFBlockHeader_get_comment (h : MFBlockHeader) : M World nat :=
  match bh_comment_path h with
  | None =>
      match bh_comment h with
      | Some c => ret c
      | None => raise (AttributeError "NoneType" "text")
      end
  | Some p => o <- mfdata_get p ;; comment_of (Some o)
  end.

(** [build_header_variables(simulation_data, block_header_structure,
    block_path, data, dimensions)], on the header as state. *)
Definition MFBlockHeader_build_header_variables
    (block_header_structure : list MFDataStructure) (block_path : Path)
    (data : PyVal) : M MFBlockHeader unit :=
  modify (set_bh_data_items []) ;;;
  s0 <- lift_result (index "block_header_structure" block_header_structure 0) ;;
  let var_path := block_path ++ [SegS (ds_name s0)] in
  dis0 <- lift_result (index "data_item_structures" (ds_data_item_structures s0) 0) ;;
  let fixed_data :=
    if String.eqb (dis_type dis0) "keyword" then [VStr (dis_name dis0)] else [] in
  let data := match data with VTuple xs => VList xs | _ => data end in
  let fixed_data :=
    match data with
    | VList xs => fixed_data ++ xs
    | _ => fixed_data ++ [data]
    end in
  let fixed_data :=
    match fixed_data with
    | [] => VList []
    | _ => VList [VTuple fixed_data]
    end in
  let new_data := MFBlock_data_factory s0 true var_path fixed_data in
  modify (fun h => set_bh_data_items (bh_data_items h ++ [new_data]) h).

(** [self.is_same_header(block_header)]. *)
Definition MFBlockHeader_is_same_header (self_ block_header : MFBlockHeader) : result bool :=
  match bh_data_items self_, bh_variable_strings block_header with
  | [], _ => Ok true
  | _, [] => Ok true
  | None :: _, _ :: _ => Raise (AttributeError "NoneType" "structure")
  | Some d :: _, other0 :: _ =>
      match ds_data_item_structures (d_structure d) with
      | [] => Raise (IndexError "data_item_structures")
      | dis0 :: _ =>
          if PyType_eqb (dis_type_obj dis0) ty_int
             || PyType_eqb (dis_type_obj dis0) ty_float then
            match bh_variable_strings self_ with
            | [] => Raise (IndexError "variable_strings")
            | self0 :: _ => if String.eqb self0 other0 then Ok true else Ok false
            end
          else Ok true
      end
  end.

Definition values_only_args (one_based : bool) : FileEntryArgs :=
  {| fe_key := None; fe_values_only := true; fe_one_based := one_based;
     fe_ext_file_action := None |}.

Definition default_args : FileEntryArgs :=
  {| fe_key := None; fe_values_only := false; fe_one_based := false;
     fe_ext_file_action := None |}.

Section Methods.

Context (X : Externals).

(** [isinstance(d, mfdatascalar.MFScalar)]. *)
Definition is_MFScalar (d : MFData) : bool :=
  match d_class d with
  | MFScalar => true
  | c => derives_MFScalar X c
  end.

(** [comment.write(fd)] and [comment.write(fd, eoln_suffix)]. *)
Definition MFComment_write (c : nat) (fd : nat) (eoln_suffix : option bool) : M World unit :=
  t <- comment_text c ;;
  on <- gets w_comments_on ;;
  fd_write fd (comment_render X on t eoln_suffix).

(** [write_header(fd)]. *)
Definition MFBlockHeader_write_header (h : MFBlockHeader) (fd : nat) : M World unit :=
  fd_write fd ("BEGIN " ++ bh_name h) ;;;
  match bh_data_items h with
  | [] => ret tt
  | first :: others =>
      match first with
      | Some d =>
          if is_MFScalar d then
            let is_one_based := String.eqb (ds_type (d_structure d)) "integer" in
            e <- lift_result (data_get_file_entry X d (values_only_args is_one_based)) ;;
            fd_write fd (rstrip e)
          else
            e <- lift_result (data_get_file_entry X d default_args) ;;
            fd_write fd (rstrip e)
      | None => raise (AttributeError "NoneType" "get_file_entry")
      end ;;;
      for_each others (fun data_item =>
        match data_item with
        | Some d =>
            e <- lift_result (data_get_file_entry X d (values_only_args false)) ;;
            fd_write fd (rstrip e)
        | None => raise (AttributeError "NoneType" "get_file_entry")
        end)
  end ;;;
  c <- MFBlockHeader_get_comment h ;;
  t <- comment_text c ;;
  (if text_truthy t then
     fd_write fd " " ;;;
     c <- MFBlockHeader_get_comment h ;;
     MFComment_write c fd None
   else ret tt) ;;;
  fd_write fd nl.

(** [write_footer(fd)]. *)
Definition MFBlockHeader_write_footer (h : MFBlockHeader) (fd : nat) : M World unit :=
  fd_write fd ("END " ++ bh_name h) ;;;
  match bh_data_items h with
  | [] => ret tt
  | None :: _ => raise (AttributeError "NoneType" "structure")
  | Some d :: _ =>
      let is_one_based := String.eqb (ds_type (d_structure d)) "integer" in
      if is_MFScalar d then
        e <- lift_result (data_get_file_entry X d (values_only_args is_one_based)) ;;
        fd_write fd e
      else
        e <- lift_result (data_get_file_entry X d default_args) ;;
        fd_write fd (rstrip e)
  end ;;;
  fd_write fd nl.

(** [get_transient_key()]: the loop over [data_items] stops at the first
    item whose structure is not a keyword. *)
Fixpoint transient_key_of (data_items : list (option MFData)) : result PyVal :=
  match data_items with
  | [] => Ok VNone
  | None :: _ => Raise (AttributeError "NoneType" "structure")
  | Some d :: rest =>
      if negb (String.eqb (ds_type (d_structure d)) "keyword") then
        match data_get_data X d with
        | VRecarray rows =>
            match ds_first_non_keyword_index (d_structure d) with
            | None => Raise AssertionError
            | Some key_index =>
                match rows with
                | [] => Raise (IndexError "transient_key")
                | (VTuple fields | VList fields) :: _ =>
                    match nth_error fields key_index with
                    | Some v => Ok v
                    | None => Raise AssertionError
                    end
                | _ :: _ => Raise (TypeError "len() of a row")
                end
            end
        | transient_key => Ok transient_key
        end
      else transient_key_of rest
  end.

Definition MFBlockHeader_get_transient_key (h : MFBlockHeader) : result PyVal :=
  transient_key_of (bh_data_items h).

End Methods.

(* ================================================================== *)
(** ** MFBlock *)
(* ================================================================== *)

(** ['{}'.format(seg)]. *)
Definition show_seg (s : Seg) : string :=
  match s with
  | SegS x => x
  | SegI n => str_of_int (Z.of_nat n)
  end.

(** [repr(seg)], and ['{}'.format(path)], which is [str] of a tuple: the
    [repr] of each segment, with a comma after a lone one. *)
Definition repr_seg (s : Seg) : string :=
  match s with
  | SegS x => py_repr x
  | SegI n => str_of_int (Z.of_nat n)
  end.

Definition show_path (p : Path) : string :=
  match p with
  | [] => "()"
  | [seg] => ("(" ++ repr_seg seg ++ ",)")%string
  | _ => ("(" ++ join ", " (map repr_seg p) ++ ")")%string
  end.

(** The value [_new_dataset] hands to [data_factory] for a block-header
    variable: the first token minus one for a one-field integer record
    ("stress periods are stored 0 based"), the tokens as one row otherwise. *)
Definition header_initial_val (dataset_struct : MFDataStructure)
    (initial_val : option (list string)) : result PyVal :=
  match initial_val with
  | None => Ok VNone
  | Some toks =>
      let as_row := Ok (VList [VTuple (map VStr toks)]) in
      if String.eqb (ds_type dataset_struct) "integer" then
        match toks with
        | [] => as_row
        | first :: _ =>
            match ds_record_size dataset_struct with
            | [] => Raise (IndexError "get_record_size()")
            | size0 :: _ =>
                if Z.eqb size0 1 then
                  match py_int first with
                  | Ok z => Ok (VInt (z - 1))
                  | Raise e => Raise e
                  | Timeout => Timeout
                  end
                else as_row
            end
        end
      else as_row
  end.

(** [self.block_headers[-1] = f(self.block_headers[-1])], on a non-empty list. *)
Definition update_last_header (f : MFBlockHeader -> MFBlockHeader) (b : MFBlock) : MFBlock :=
  match rev (b_block_headers b) with
  | [] => b
  | h :: before => set_b_block_headers (rev before ++ [f h]) b
  end.

(** [_new_dataset(key, dataset_struct, block_header=False, initial_val=None)].
    In the branch for an ordinary dataset the source passes [initial_val]
    where [data_factory] expects [dimensions] and [self._dimensions] where it
    expects [data]. *)
Definition MFBlock__new_dataset (key : string) (dataset_struct : MFDataStructure)
    (block_header : bool) (initial_val : option (list string)) : M (MFBlock * World) unit :=
  b <- self ;;
  let dataset_path := b_path b ++ [SegS key] in
  (if block_header then
     initial_val <- lift_result (header_initial_val dataset_struct initial_val) ;;
     let new_data := MFBlock_data_factory dataset_struct true dataset_path initial_val in
     _ <- lift_result (index_last "block_headers" (b_block_headers b)) ;;
     update_self (update_last_header
                    (fun h => set_bh_data_items (bh_data_items h ++ [new_data]) h))
   else
     update_self (fun b =>
       set_b_datasets
         (assoc_set Seg_eqb (SegS key)
            (MFBlock_data_factory dataset_struct true dataset_path (VOpaque "dimensions"))
            (b_datasets b)) b)) ;;;
  for_each (ds_keywords dataset_struct) (fun keyword =>
    update_self (fun b =>
      set_b_datasets_keyword
        (assoc_set PyKey_eqb keyword dataset_struct (b_datasets_keyword b)) b)).

(** [_structure_init()]. *)
Definition MFBlock__structure_init : M (MFBlock * World) unit :=
  b <- self ;;
  for_each (bs_data_structures (b_structure b)) (fun kv =>
    for_each (ds_keywords (snd kv)) (fun keyword =>
      update_self (fun b =>
        set_b_datasets_keyword
          (assoc_set PyKey_eqb keyword (snd kv) (b_datasets_keyword b)) b))) ;;;
  for_each (bs_block_header_structure (b_structure b)) (fun dataset =>
    MFBlock__new_dataset (ds_name dataset) dataset true None).

(** [MFBlock.__init__(simulation_data, dimensions, structure, path,
    model_or_sim, container_package=None)]. *)
Definition MFBlock_init (structure : MFBlockStructure) (path : Path)
    (model_type : string) (container_package : option ContainerPackage) : M World MFBlock :=
  c <- MFComment_new (TStr "") ;;
  h <- MFBlockHeader_init (bs_name structure) [] (Some c) (Some path) ;;
  let trailing := path ++ [SegS "blk_trailing_comment"] in
  let post := path ++ [SegS "blk_post_comment"] in
  known <- mfdata_mem trailing ;;
  (if known then ret tt
   else c <- MFComment_new (TStr "") ;; mfdata_set trailing (SComment c)) ;;;
  known <- mfdata_mem post ;;
  (if known then ret tt
   else c <- MFComment_new (TStr nl) ;; mfdata_set post (SComment c)) ;;;
  r <- call_on
         {| b_structure := structure; b_path := path; b_block_headers := [h];
            b_datasets := []; b_datasets_keyword := [];
            b_blk_trailing_comment_path := trailing;
            b_blk_post_comment_path := post;
            b_enabled := Nat.ltb 0 (bs_number_non_optional_data structure);
            b_loaded := false; b_external_file_name := None;
            b_container_package := container_package; b_model_type := model_type |}
         MFBlock__structure_init ;;
  ret (snd r).

Section BlockHeaders.

Context (X : Externals).

(** [_header_exists(key)]. *)
Fixpoint header_exists_in (block_headers : list MFBlockHeader) (comp_key_list : list PyVal)
    : result bool :=
  match block_headers with
  | [] => Ok false
  | block_header :: rest =>
      match MFBlockHeader_get_transient_key X block_header with
      | Ok transient_key =>
          if existsb (fun comp_key => negb (is_none transient_key)
                                      && val_eqb transient_key comp_key) comp_key_list
          then Ok true
          else header_exists_in rest comp_key_list
      | Raise e => Raise e
      | Timeout => Timeout
      end
  end.

Definition MFBlock__header_exists (b : MFBlock) (key : PyVal) : result bool :=
  header_exists_in (b_block_headers b)
    (match key with VList xs => xs | _ => [key] end).

(** Run a method of the last block header; the header keeps what the method
    did to it, also when it raised. *)
Definition on_last_header {A} (m : M MFBlockHeader A) : M (MFBlock * World) A :=
  fun s =>
    match rev (b_block_headers (fst s)) with
    | [] => (Raise (IndexError "block_headers"), s)
    | h :: _ =>
        let '(r, h') := m h in
        (r, (update_last_header (fun _ => h') (fst s), snd s))
    end.

(** [_build_repeating_header(header_data)]. *)
Definition MFBlock__build_repeating_header (header_data : list PyVal) : M (MFBlock * World) unit :=
  b <- self ;;
  key <- lift_result (index "header_data" header_data 0) ;;
  found <- lift_result (MFBlock__header_exists b key) ;;
  if found then ret tt
  else
    last <- lift_result (index_last "block_headers" (b_block_headers b)) ;;
    has_value <-
      match bh_data_items last with
      | [None] => raise (AttributeError "NoneType" "get_data")
      | [Some d] => ret (negb (is_none (data_get_data X d)))
      | _ => ret false
      end ;;
    block_header_path <-
      (if has_value : bool then
         let block_header_path := b_path b ++ [SegI (List.length (b_block_headers b) + 1)] in
         c <- in_world (MFComment_new (TStr "")) ;;
         h <- in_world (MFBlockHeader_init (bs_name (b_structure b)) [] (Some c)
                          (Some block_header_path)) ;;
         update_self (fun b => set_b_block_headers (b_block_headers b ++ [h]) b) ;;;
         ret block_header_path
       else ret (b_path b ++ [SegI (List.length (b_block_headers b))])) ;;
    on_last_header
      (MFBlockHeader_build_header_variables
         (bs_block_header_structure (b_structure b)) block_header_path (VList header_data)).

(** [add_dataset(dataset_struct, data, var_path)]. *)
Definition MFBlock_add_dataset (dataset_struct : MFDataStructure) (data : PyVal)
    (var_path : Path) : M (MFBlock * World) (option MFData) :=
  name <- lift_result (index_last "var_path" var_path) ;;
  let dataset := MFBlock_data_factory dataset_struct true var_path data in
  update_self (fun b => set_b_datasets (assoc_set Seg_eqb name dataset (b_datasets b)) b) ;;;
  in_world (mfdata_set var_path
              (match dataset with Some d => SData d | None => SOther "NoneType" end)) ;;;
  match ds_datatype dataset_struct with
  | dt_list_transient | dt_list_multiple | dt_array_transient =>
      match data with
      | VDict items =>
          for_each items (fun item =>
            match item with
            | VTuple (index :: _) => MFBlock__build_repeating_header [index]
            | _ => ret tt
            end)
      | VList _ => MFBlock__build_repeating_header [VInt 0]
      | VNone => ret tt
      | _ =>
          match ds_datatype dataset_struct with
          | dt_list_multiple => ret tt
          | _ => MFBlock__build_repeating_header [VList [VInt 0]]
          end
      end
  | _ => ret tt
  end ;;;
  ret dataset.

(** [is_empty()]. *)
Fixpoint is_empty_from (datasets : list (Seg * option MFData)) : result bool :=
  match datasets with
  | [] => Ok true
  | (_, None) :: _ => Raise (AttributeError "NoneType" "has_data")
  | (_, Some dataset) :: rest =>
      match data_has_data X dataset with
      | Some true => Ok false
      | _ => is_empty_from rest
      end
  end.

Definition MFBlock_is_empty (b : MFBlock) : result bool := is_empty_from (b_datasets b).

End BlockHeaders.

Section BlockLoad.

Context (X : Externals).

(** The tuples of [_get_package_info]:
    (package_type, file_name, file_path, dict_package_name). *)
Definition PackageInfo : Type := (string * string * string * string)%type.

Fixpoint first_file_item (items : list MFDataItemStructure) (index : nat)
    : option (nat * MFDataItemStructure) :=
  match items with
  | [] => None
  | it :: rest =>
      if String.eqb (dis_type it) "keyword" || String.eqb (dis_type it) "string"
      then Some (index, it)
      else first_file_item rest (S index)
  end.

Fixpoint package_infos (package_type dict_package_name : string)
    (file_locations : list PyVal) : result (list PackageInfo) :=
  match file_locations with
  | [] => Ok []
  | VStr file_location :: rest =>
      let '(file_path, file_name) := os_path_split file_location in
      match package_infos package_type dict_package_name rest with
      | Ok l => Ok ((package_type, file_name, file_path, dict_package_name) :: l)
      | r => r
      end
  | _ :: _ => Raise (TypeError "os.path.split")
  end.

Fixpoint column (index : nat) (rows : list PyVal) : result (list PyVal) :=
  match rows with
  | [] => Ok []
  | (VTuple fields | VList fields) :: rest =>
      match nth_error fields index with
      | None => Raise (IndexError "entry")
      | Some v =>
          match column index rest with
          | Ok l => Ok (v :: l)
          | r => r
          end
      end
  | _ :: _ => Raise (TypeError "entry[index]")
  end.

(** [_get_package_info(dataset)]. *)
Definition MFBlock__get_package_info (b : MFBlock) (dataset : MFData)
    : result (option (list PackageInfo)) :=
  if negb (ds_file_data (d_structure dataset)) then Ok None
  else
    match first_file_item (ds_data_item_structures (d_structure dataset)) 0 with
    | None => Ok None
    | Some (index, item) =>
        let package_type := drop_last_char (dis_name item) in
        if package_factory X package_type (b_model_type b) then
          let data := data_get_data X dataset in
          match (match data with
                 | VRecarray rows => column index rows
                 | _ => Ok [data]
                 end) with
          | Ok [] => Ok (Some [])
          | Ok file_locations =>
              match index_last2 "path" (b_path b) with
              | Ok seg =>
                  match package_infos package_type
                          (package_type ++ "_" ++ show_seg seg) file_locations with
                  | Ok l => Ok (Some l)
                  | Raise e => Raise e
                  | Timeout => Timeout
                  end
              | Raise e => Raise e
              | Timeout => Timeout
              end
          | Raise e => Raise e
          | Timeout => Timeout
          end
        else Ok None
    end.

(** The calls [_model_or_sim.load_package(info[0], info[1], third, True,
    info[2], info[3], self._container_package)] for a package info list;
    [third] is [info[1]] or [None]. *)
Definition load_packages (third_is_file_name : bool)
    (package_info_list : option (list PackageInfo)) : M World unit :=
  match package_info_list with
  | None => ret tt
  | Some l =>
      for_each l (fun info =>
        let '(package_type, file_name, file_path, dict_package_name) := info in
        let call := call_load_package package_type file_name
                      (if third_is_file_name then Some file_name else None)
                      file_path dict_package_name in
        modify (fun w => set_w_calls (w_calls w ++ [call]) w) ;;;
        load_package X call)
  end.

(** [self.datasets[name].load(line, fd, self.block_headers[-1],
    initial_comment)], then the package references of the dataset. The
    dataset keeps what the loader did to it. *)
Definition load_dataset (name : Seg) (line : string) (fd : nat)
    (initial_comment : CommentText) (third_is_file_name : bool)
    : M (MFBlock * World) (bool * option string) :=
  b <- self ;;
  match assoc_lookup Seg_eqb name (b_datasets b) with
  | None => raise (KeyError (show_seg name))
  | Some None => raise (AttributeError "NoneType" "load")
  | Some (Some dataset) =>
      block_header <- lift_result (index_last "block_headers" (b_block_headers b)) ;;
      in_world (modify (fun w =>
        set_w_calls (w_calls w ++ [call_dataset_load (d_path dataset) line fd]) w)) ;;;
      next_line <-
        (fun s =>
           let '(r, dataset', w') :=
             data_load X dataset line fd block_header initial_comment (snd s) in
           (r, (set_b_datasets (assoc_set Seg_eqb name (Some dataset')
                                  (b_datasets (fst s))) (fst s), w'))) ;;
      b <- self ;;
      match assoc_lookup Seg_eqb name (b_datasets b) with
      | Some (Some dataset) =>
          package_info_list <- lift_result (MFBlock__get_package_info b dataset) ;;
          in_world (load_packages third_is_file_name package_info_list) ;;;
          ret next_line
      | _ => ret next_line
      end
  end.

Definition is_END (s : string) : bool := String.eqb (upper (prefix_of 3 s)) "END".

(** The [while next_line[0] and not nothing_found] loop of
    [_find_data_by_keyword], entered with [next_line[0]] true. It yields
    [first_key], the last [key] and [next_line]. *)
Fixpoint find_loop (fuel : nat) (fd : nat) (initial_comment : CommentText)
    (first_key : option PyKey) (next_line1 : option string)
    : M (MFBlock * World) (option PyKey * option PyKey * (bool * option string)) :=
  match fuel with
  | O => timeout
  | S fuel' =>
      b <- self ;;
      line <- match next_line1 with
              | Some l => ret l
              | None => raise (TypeError "split_data_line(None)")
              end ;;
      let arr_line := split_data_line X line in
      match find_keyword X arr_line (b_datasets_keyword b) with
      | Some key =>
          dataset_struct <-
            match assoc_lookup PyKey_eqb key (b_datasets_keyword b) with
            | Some s => ret s
            | None => raise (KeyError "datasets_keyword")
            end ;;
          next_line <- load_dataset (SegS (ds_name dataset_struct)) line fd
                         initial_comment true ;;
          let first_key := match first_key with None => Some key | _ => first_key end in
          if fst next_line then find_loop fuel' fd initial_comment first_key (snd next_line)
          else ret (first_key, Some key, next_line)
      | None =>
          first <- lift_result (index "arr_line" arr_line 0) ;;
          guard <-
            (if String.eqb (lower first) "readasarrays" then
               last <- lift_result (index_last "path" (b_path b)) ;;
               match last with
               | SegI _ => raise (AttributeError "int" "lower")
               | SegS name =>
                   if String.eqb (lower name) "options" then
                     match b_container_package b with
                     | None => raise (AttributeError "NoneType" "structure")
                     | Some cp => ret (negb (cp_read_as_arrays cp))
                     end
                   else ret false
               end
             else ret false) ;;
          if guard : bool then
            raise (ReadAsArraysException
                     ("ERROR: Attempting to read a ReadAsArrays package as a non-ReadAsArrays package "
                      ++ show_path (b_path b)))
          else ret (first_key, None, (true, next_line1))
      end
  end.

(** [_find_data_by_keyword(line, fd, initial_comment)]: the key and the
    list [results]. *)
Definition MFBlock__find_data_by_keyword (fuel : nat) (line : string) (fd : nat)
    (initial_comment : CommentText)
    : M (MFBlock * World) (option PyKey * (option bool * option string)) :=
  found <- find_loop fuel fd initial_comment None (Some line) ;;
  let '(first_key, key, next_line) := found in
  match first_key with
  | None =>
      b <- self ;;
      match bs_all_recarrays (b_structure b) with
      | [recarray] =>
          ds_result <- load_dataset (SegS (ds_name recarray)) line fd initial_comment false ;;
          ret (ds_keyword recarray, (Some (fst ds_result), snd ds_result))
      | _ => ret (key, (None, None))
      end
  | Some _ => ret (first_key, (Some (fst next_line), snd next_line))
  end.

(** [_save_comments(arr_line, line, key, comments)]: the list [comments]
    afterwards. *)
Definition MFBlock__save_comments (b : MFBlock) (arr_line : list string) (line : string)
    (key : option PyKey) (comments : list CommentItem) : list CommentItem :=
  let known := match key with
               | Some k => assoc_mem PyKey_eqb k (b_datasets_keyword b)
               | None => false
               end in
  if negb known then
    if is_comment X (CA_key key) true then
      match comments with
      | [] => [CI_tokens arr_line]
      | _ => comments ++ [CI_str nl; CI_tokens arr_line]
      end
    else comments
  else comments.

(** [is_valid()] of a block. The first loop tests the bound method
    [dataset.is_valid] (never called, always true); the second calls
    [dataset.is_valid()]. No path returns [True]: the method returns [False]
    or ends without a [return], which is [None]. *)
Fixpoint datasets_check (datasets : list (Seg * option MFData)) : result (option bool) :=
  match datasets with
  | [] => Ok None
  | (_, None) :: _ => Raise (AttributeError "NoneType" "structure")
  | (_, Some dataset) :: rest =>
      if negb (ds_optional (d_structure dataset)) && negb (d_enabled dataset)
      then Ok (Some false)
      else if d_enabled dataset && negb true
      then Ok (Some false)
      else datasets_check rest
  end.

Fixpoint data_items_check (data_items : list (option MFData)) : result (option bool) :=
  match data_items with
  | [] => Ok None
  | None :: _ => Raise (AttributeError "NoneType" "structure")
  | Some dataset :: rest =>
      if negb (ds_optional (d_structure dataset)) && negb (d_enabled dataset)
      then Ok (Some false)
      else if d_enabled dataset && negb (data_is_valid X dataset)
      then Ok (Some false)
      else data_items_check rest
  end.

Fixpoint headers_check (block_headers : list MFBlockHeader) : result (option bool) :=
  match block_headers with
  | [] => Ok None
  | block_header :: rest =>
      match data_items_check (bh_data_items block_header) with
      | Ok None => headers_check rest
      | r => r
      end
  end.

Definition MFBlock_is_valid (b : MFBlock) : result (option bool) :=
  match datasets_check (b_datasets b) with
  | Ok None => headers_check (b_block_headers b)
  | r => r
  end.

(** The truth value of what [is_valid()] returned. *)
Definition truthy (v : option bool) : bool :=
  match v with Some true => true | _ => false end.

End BlockLoad.

Section BlockLoadWrite.

Context (X : Externals).

(** The duplicate scan of [load]: [for bh_current in self.block_headers: if
    bh_current.is_same_header(block_header): ... return]. *)
Fixpoint same_header_in (block_headers : list MFBlockHeader) (block_header : MFBlockHeader)
    : result bool :=
  match block_headers with
  | [] => Ok false
  | bh_current :: rest =>
      match MFBlockHeader_is_same_header bh_current block_header with
      | Ok true => Ok true
      | Ok false => same_header_in rest block_header
      | r => r
      end
  end.

Definition short_header_warning (block_header : MFBlockHeader) (b : MFBlock) : string :=
  ("WARNING: Block header for block " ++ dq ++ bh_name block_header ++ dq
   ++ " does not contain the correct number of variables " ++ show_path (b_path b))%string.

Definition duplicate_header_warning (block_header : MFBlockHeader) (b : MFBlock) : string :=
  ("WARNING: Block header for block " ++ dq ++ bh_name block_header ++ dq
   ++ " is not a unique block header " ++ show_path (b_path b))%string.

(** [while mfdata.MFComment.is_comment(line, True): ...]: the leading
    comment lines of a block; yields the first other line. *)
Fixpoint skip_initial_comments (fuel : nat) (fd : nat) (line : string)
    (initial_comment : CommentText) : M World (string * CommentText) :=
  match fuel with
  | O => timeout
  | S fuel' =>
      if is_comment X (CA_str line) true then
        next <- readline fd ;;
        skip_initial_comments fuel' fd next (comment_add_text X initial_comment line)
      else ret (line, initial_comment)
  end.

Definition more_post_data (next_line1 : string) (arr_line : list string) : bool :=
  match arr_line with
  | [] => false
  | first :: _ =>
      Nat.leb (String.length next_line1) 2 || negb (is_END first)
  end.

(** The loop after a single dataset: the lines up to [END] are added to
    the comment object [post_data_comments]. *)
Fixpoint post_data_loop (fuel : nat) (fd : nat) (post_data_comments : nat)
    (next_line1 : string) (arr_line : list string) : M World unit :=
  match fuel with
  | O => timeout
  | S fuel' =>
      if more_post_data next_line1 arr_line then
        l <- readline fd ;;
        let next_line1 := strip l in
        let arr_line := split_data_line X next_line1 in
        (if more_post_data next_line1 arr_line then
           t <- comment_text post_data_comments ;;
           comment_set_text post_data_comments (comment_add_text X t (join " " arr_line))
         else ret tt) ;;;
        post_data_loop fuel' fd post_data_comments next_line1 arr_line
      else ret tt
  end.

(** [len(arr_line[0]) > 2 and arr_line[0][:3].upper() == 'END']. *)
Definition starts_END (first : string) : bool :=
  Nat.ltb 2 (String.length first) && is_END first.

(** [results[1] is not None and results[1][:3].upper() == 'END']. *)
Definition result_is_END (results1 : option string) : bool :=
  match results1 with
  | Some l => is_END l
  | None => false
  end.

(** The [while line != ''] loop over the lines of a block of several
    datasets; yields the comments gathered. *)
Fixpoint unordered_loop (fuel : nat) (fd : nat) (initial_comment : CommentText)
    (comments : list CommentItem) : M (MFBlock * World) (list CommentItem) :=
  match fuel with
  | O => timeout
  | S fuel' =>
      line <- in_world (readline fd) ;;
      match split_data_line X line with
      | [] =>
          if str_nonempty line
          then unordered_loop fuel' fd initial_comment comments
          else ret comments
      | (first :: _) as arr_line =>
          if starts_END first then ret comments
          else
            found <- MFBlock__find_data_by_keyword X fuel' line fd initial_comment ;;
            b <- self ;;
            let comments := MFBlock__save_comments X b arr_line line (fst found) comments in
            if result_is_END (snd (snd found)) then ret comments
            else if str_nonempty line
            then unordered_loop fuel' fd initial_comment comments
            else ret comments
      end
  end.

(** The body of a block that holds one dataset at most. *)
Definition load_single (fuel : nat) (fd_block : nat) (line : string)
    (initial_comment : CommentText) : M (MFBlock * World) unit :=
  b <- self ;;
  match b_datasets b with
  | [] => raise StopIteration
  | (name, _) :: _ =>
      next_line <- load_dataset X name line fd_block initial_comment true ;;
      post_data_comments <- in_world (MFComment_new (TStr "")) ;;
      update_self (fun b =>
        match assoc_lookup Seg_eqb name (b_datasets b) with
        | Some (Some dataset) =>
            set_b_datasets
              (assoc_set Seg_eqb name
                 (Some (set_d_post_data_comments post_data_comments dataset))
                 (b_datasets b)) b
        | _ => b
        end) ;;;
      match snd next_line with
      | Some next_line1 =>
          in_world (post_data_loop fuel fd_block post_data_comments next_line1
                      (split_data_line X next_line1))
      | None => ret tt
      end
  end.

(** The body of a block of several datasets. [None] is the [return] of the
    [except] clause, which leaves [load] at once. *)
Definition load_unordered (fuel : nat) (fd_block : nat) (line : string)
    (arr_line : list string) (initial_comment : CommentText)
    : M (MFBlock * World) (option (list CommentItem)) :=
  found <-
    try_except
      (r <- MFBlock__find_data_by_keyword X fuel line fd_block initial_comment ;;
       ret (Some r))
      (fun e =>
         match e with
         | MFInvalidTransientBlockHeaderException msg =>
             Some (in_world (print ("WARNING: " ++ msg)) ;;;
                   update_self (fun b =>
                     set_b_block_headers (removelast (b_block_headers b)) b) ;;;
                   ret None)
         | _ => None
         end) ;;
  match found with
  | None => ret None
  | Some (key, results) =>
      b <- self ;;
      let comments := MFBlock__save_comments X b arr_line line key [] in
      if result_is_END (snd results) then ret (Some comments)
      else
        comments <- unordered_loop fuel fd_block initial_comment comments ;;
        ret (Some comments)
  end.

(** What [load] does once the header is accepted, from "capture any
    initial comments" on. [None]: the [except] clause returned. *)
Definition load_body (fuel : nat) (fd : nat)
    : M (MFBlock * World) (option (list CommentItem)) :=
  first_line <- in_world (readline fd) ;;
  skipped <- in_world (skip_initial_comments fuel fd first_line (TStr "")) ;;
  let '(line, initial_comment) := skipped in
  let arr_line := split_data_line X line in
  first <- lift_result (index "arr_line" arr_line 0) ;;
  if starts_END first then ret (Some [])
  else
    opened <-
      (if String.eqb (lower first) "open/close" then
         in_world (readline fd) ;;;
         name <- in_world (fd_name fd) ;;
         let fd_path := fst (os_path_split (realpath X name)) in
         external_file_name <- lift_result (index "arr_line" arr_line 1) ;;
         update_self (set_b_external_file_name (Some external_file_name)) ;;;
         fd_block <- in_world (open_r (os_path_join fd_path external_file_name)) ;;
         line <- in_world (readline fd_block) ;;
         ret (fd_block, line, split_data_line X line)
       else ret (fd, line, arr_line)) ;;
    let '(fd_block, line, arr_line) := opened in
    b <- self ;;
    if Nat.leb (List.length (bs_data_structures (b_structure b))) 1 then
      load_single fuel fd_block line initial_comment ;;;
      ret (Some [])
    else load_unordered fuel fd_block line arr_line initial_comment.

(** [load(block_header, fd, strict=True)]. *)
Definition MFBlock_load (fuel : nat) (block_header : MFBlockHeader) (fd : nat)
    : M (MFBlock * World) unit :=
  b <- self ;;
  if Nat.ltb (List.length (bh_variable_strings block_header))
             (bs_number_non_optional_block_header_data (b_structure b))
  then in_world (print (short_header_warning block_header b))
  else
    duplicate <-
      (if b_loaded b
       then lift_result (same_header_in (b_block_headers b) block_header)
       else ret false) ;;
    if duplicate : bool
    then in_world (print (duplicate_header_warning block_header b))
    else
      update_self (set_b_enabled true) ;;;
      (if b_loaded b then ret tt else update_self (set_b_block_headers [])) ;;;
      update_self (fun b => set_b_block_headers (b_block_headers b ++ [block_header]) b) ;;;
      match bs_block_header_structure (b_structure b) with
      | [] => ret tt
      | dataset :: _ =>
          MFBlock__new_dataset (ds_name dataset) dataset true
            (Some (bh_variable_strings block_header))
      end ;;;
      match b_container_package b with
      | None => raise (AttributeError "NoneType" "structure")
      | Some cp =>
          if cp_read_as_arrays cp then
            match cp_auxiliary_data cp with
            | None => ret tt
            | Some aux_vars =>
                row <- lift_result (index "aux_vars" aux_vars 0) ;;
                for_each (tl row) (fun var_name =>
                  update_self (fun b =>
                    set_b_datasets_keyword
                      (assoc_set PyKey_eqb (KTuple [var_name]) (cp_aux_structure cp)
                         (b_datasets_keyword b)) b))
            end
          else ret tt
      end ;;;
      body <- load_body fuel fd ;;
      match body with
      | None => ret tt
      | Some comments =>
          b <- self ;;
          trailing <- in_world (mfdata_get (b_blk_trailing_comment_path b)) ;;
          match trailing with
          | SComment c => in_world (comment_set_text c (TItems comments))
          | _ => ret tt
          end ;;;
          update_self (set_b_loaded true) ;;;
          _ <- lift_result (MFBlock_is_valid X b) ;;
          ret tt
      end.

End BlockLoadWrite.

Section BlockWrite.

Context (X : Externals).

(** [_find_repeating_datasets()]. *)
Fixpoint repeating_in (datasets : list (Seg * option MFData)) : result (list MFData) :=
  match datasets with
  | [] => Ok []
  | (_, None) :: _ => Raise (AttributeError "NoneType" "repeating")
  | (_, Some dataset) :: rest =>
      match repeating_in rest with
      | Ok l => Ok (if data_repeating X dataset then dataset :: l else l)
      | r => r
      end
  end.

Definition MFBlock__find_repeating_datasets (b : MFBlock) : result (list MFData) :=
  repeating_in (b_datasets b).

(** [_add_missing_block_headers(repeating_dataset)]. *)
Definition MFBlock__add_missing_block_headers (repeating_dataset : MFData)
    : M (MFBlock * World) unit :=
  for_each (data_get_active_key_list X repeating_dataset) (fun key =>
    key0 <- lift_result (index "key" key 0) ;;
    b <- self ;;
    found <- lift_result (MFBlock__header_exists X b key0) ;;
    if found : bool then ret tt else MFBlock__build_repeating_header X [key0]).

Definition entry_args (key : option PyVal) (ext_file_action : ExtFileAction) : FileEntryArgs :=
  {| fe_key := key; fe_values_only := false; fe_one_based := false;
     fe_ext_file_action := Some ext_file_action |}.

(** [obj.write(fd)] for the object the store has at [path]. *)
Definition write_stored_comment (path : Path) (fd : nat) (eoln_suffix : option bool)
    : M World unit :=
  o <- mfdata_get path ;;
  match o with
  | SComment c => MFComment_write X c fd eoln_suffix
  | SData _ => raise (AttributeError "MFData" "write")
  | SOther what => raise (AttributeError what "write")
  end.

(** [_write_block(fd, block_header, ext_file_action)]. The block itself is
    only read. With an external file name the datasets and the trailing
    comment go to a file opened here, which is closed before the footer is
    written; an exception raised in between leaves it open. *)
Definition MFBlock__write_block (b : MFBlock) (fd : nat) (block_header : MFBlockHeader)
    (ext_file_action : ExtFileAction) : M World unit :=
  MFBlockHeader_write_header X block_header fd ;;;
  transient_key <-
    match bh_data_items block_header with
    | [] => ret VNone
    | _ => lift_result (MFBlockHeader_get_transient_key X block_header)
    end ;;
  fd_data <-
    match b_external_file_name b with
    | Some external_file_name =>
        indent <- gets w_indent_string ;;
        fd_write fd (indent ++ "open/close " ++ external_file_name ++ nl) ;;;
        name <- fd_name fd ;;
        let fd_path := fst (os_path_split (realpath X name)) in
        open_w (os_path_join fd_path external_file_name)
    | None => ret fd
    end ;;
  for_each (b_datasets b) (fun kv =>
    match snd kv with
    | None =>
        raise (AttributeError "NoneType"
                 (if is_none transient_key then "get_file_entry" else "repeating"))
    | Some dataset =>
        let key := if is_none transient_key then None
                   else if data_repeating X dataset then Some transient_key
                   else None in
        e <- lift_result (data_get_file_entry X dataset (entry_args key ext_file_action)) ;;
        fd_write fd_data e
    end) ;;;
  write_stored_comment (b_blk_trailing_comment_path b) fd_data None ;;;
  match b_external_file_name b with
  | Some _ => fd_close fd_data
  | None => ret tt
  end ;;;
  MFBlockHeader_write_footer X block_header fd ;;;
  write_stored_comment (b_blk_post_comment_path b) fd None ;;;
  comments_on <- gets w_comments_on ;;
  if comments_on : bool then ret tt else fd_write fd nl.

(** [write(fd, ext_file_action=ExtFileAction.copy_relative_paths)]. *)
Definition MFBlock_write (fd : nat) (ext_file_action : ExtFileAction)
    : M (MFBlock * World) unit :=
  b <- self ;;
  is_empty <- lift_result (MFBlock_is_empty X b) ;;
  let name := lower (bs_name (b_structure b)) in
  if (is_empty : bool) && negb (String.eqb name "exchanges") && negb (String.eqb name "options")
  then ret tt
  else
    let write_first :=
      b <- self ;;
      h <- lift_result (index "block_headers" (b_block_headers b) 0) ;;
      in_world (MFBlock__write_block b fd h ext_file_action) in
    if bs_repeating (b_structure b) then
      repeating_datasets <- lift_result (MFBlock__find_repeating_datasets b) ;;
      for_each repeating_datasets MFBlock__add_missing_block_headers ;;;
      match repeating_datasets with
      | [] => write_first
      | _ =>
          b <- self ;;
          for_each (b_block_headers b) (fun block_header =>
            in_world (MFBlock__write_block b fd block_header ext_file_action))
      end
    else write_first.

(** [is_allowed()]: the block's conditional-activation rule, resolved
    against the store. *)
Definition MFBlock_is_allowed (b : MFBlock) (w : World) : result bool :=
  let structure := b_structure b in
  match bs_variable_dependant_path structure with
  | [] => Ok true
  | vdp =>
      let segs := map SegS vdp in
      let need := 4 - List.length vdp in
      let dependant_var_path :=
        match List.length vdp with
        | 1 | 2 | 3 =>
            if Nat.leb need (List.length (b_path b))
            then Ok (Some (firstn need (b_path b) ++ segs))
            else Raise (IndexError "path")
        | _ => Ok None
        end in
      match dependant_var_path with
      | Raise e => Raise e
      | Timeout => Timeout
      | Ok dvp =>
          let dependant_var :=
            match dvp with
            | Some p => assoc_lookup Path_eqb p (w_mfdata w)
            | None => None
            end in
          let is_true := match dependant_var with
                         | Some o => store_truthy X o
                         | None => false
                         end in
          match bs_variable_value_when_active structure with
          | [] => Raise (IndexError "variable_value_when_active")
          | op :: args =>
              if String.eqb op "Exists" then
                match args with
                | [] => Raise (IndexError "variable_value_when_active")
                | value :: _ =>
                    if is_true && String.eqb (lower value) "true" then Ok true
                    else if negb is_true && String.eqb (lower value) "false" then Ok true
                    else Ok false
                end
              else
                match dependant_var with
                | Some o =>
                    if negb is_true then Ok false
                    else if String.eqb op ">" then
                      match args with
                      | [] => Raise (IndexError "variable_value_when_active")
                      | value :: _ => store_gt X o value
                      end
                    else if String.eqb op "<" then
                      match args with
                      | [] => Raise (IndexError "variable_value_when_active")
                      | value :: _ => store_lt X o value
                      end
                    else Ok true
                | None => Ok false
                end
          end
      end
  end.

End BlockWrite.

(* ================================================================== *)
(** ** MFPackage *)
(* ================================================================== *)

(** [MFPackage]. [pk_file_path] is what [get_file_path()] answers;
    [pk_post_block_comments] refers to the comment object
    [post_block_comments], [None] until [_load_blocks] makes one. *)
Record MFPackage : Type := {
  pk_package_type : string;
  pk_filename : string;
  pk_file_path : string;
  pk_path : Path;
  pk_structure : MFPackageStructure;
  pk_blocks : list (string * MFBlock);
  pk_last_error : option string;
  pk_post_block_comments : option nat
}.

Definition set_pk_blocks (v : list (string * MFBlock)) (p : MFPackage) : MFPackage :=
  {| pk_package_type := pk_package_type p; pk_filename := pk_filename p;
     pk_file_path := pk_file_path p; pk_path := pk_path p;
     pk_structure := pk_structure p; pk_blocks := v;
     pk_last_error := pk_last_error p;
     pk_post_block_comments := pk_post_block_comments p |}.

Definition set_pk_last_error (v : option string) (p : MFPackage) : MFPackage :=
  {| pk_package_type := pk_package_type p; pk_filename := pk_filename p;
     pk_file_path := pk_file_path p; pk_path := pk_path p;
     pk_structure := pk_structure p; pk_blocks := pk_blocks p;
     pk_last_error := v;
     pk_post_block_comments := pk_post_block_comments p |}.

Definition set_pk_post_block_comments (v : option nat) (p : MFPackage) : MFPackage :=
  {| pk_package_type := pk_package_type p; pk_filename := pk_filename p;
     pk_file_path := pk_file_path p; pk_path := pk_path p;
     pk_structure := pk_structure p; pk_blocks := pk_blocks p;
     pk_last_error := pk_last_error p;
     pk_post_block_comments := v |}.

(** What an attribute of an [MFBlock] instance holds. *)
Inductive BlockAttr : Type :=
| attr_block_headers (v : list MFBlockHeader)
| attr_structure (v : MFBlockStructure)
| attr_path (v : Path)
| attr_datasets (v : list (Seg * option MFData))
| attr_datasets_keyword (v : list (PyKey * MFDataStructure))
| attr_flag (v : bool)
| attr_external_file_name (v : option string)
| attr_private (name : string)
| attr_method (name : string).

(** The instance attributes [MFBlock.__init__] sets that are not modelled
    as data, and the methods of the class. *)
Definition MFBlock_private_attributes : list string :=
  ["_simulation_data"; "_dimensions"; "_model_or_sim"; "_container_package"].

Definition MFBlock_methods : list string :=
  ["data_factory"; "_structure_init"; "_structure_clear"; "add_dataset";
   "_build_repeating_header"; "_new_dataset"; "is_empty"; "load";
   "_find_data_by_keyword"; "_get_package_info"; "_save_comments"; "write";
   "_add_missing_block_headers"; "_header_exists"; "_find_repeating_datasets";
   "_write_block"; "is_allowed"; "is_valid"].

(** [getattr(block, name)]: the attributes of an [MFBlock] are the ones
    [__init__] assigns and the methods of the class; the class defines no
    [__getattr__], so any other name raises [AttributeError]. *)
Definition MFBlock_getattr (b : MFBlock) (name : string) : result BlockAttr :=
  if String.eqb name "block_headers" then Ok (attr_block_headers (b_block_headers b))
  else if String.eqb name "structure" then Ok (attr_structure (b_structure b))
  else if String.eqb name "path" then Ok (attr_path (b_path b))
  else if String.eqb name "datasets" then Ok (attr_datasets (b_datasets b))
  else if String.eqb name "datasets_keyword"
  then Ok (attr_datasets_keyword (b_datasets_keyword b))
  else if String.eqb name "blk_trailing_comment_path"
  then Ok (attr_path (b_blk_trailing_comment_path b))
  else if String.eqb name "blk_post_comment_path"
  then Ok (attr_path (b_blk_post_comment_path b))
  else if String.eqb name "enabled" then Ok (attr_flag (b_enabled b))
  else if String.eqb name "loaded" then Ok (attr_flag (b_loaded b))
  else if String.eqb name "external_file_name"
  then Ok (attr_external_file_name (b_external_file_name b))
  else if existsb (String.eqb name) MFBlock_private_attributes then Ok (attr_private name)
  else if existsb (String.eqb name) MFBlock_methods then Ok (attr_method name)
  else Raise (AttributeError "MFBlock" name).

(** The truth value of an attribute. *)
Definition attr_truthy (a : BlockAttr) : bool :=
  match a with
  | attr_block_headers v => negb (Nat.eqb (List.length v) 0)
  | attr_path v => negb (Nat.eqb (List.length v) 0)
  | attr_datasets v => negb (Nat.eqb (List.length v) 0)
  | attr_datasets_keyword v => negb (Nat.eqb (List.length v) 0)
  | attr_flag v => v
  | attr_external_file_name (Some s) => str_nonempty s
  | attr_external_file_name None => false
  | attr_structure _ | attr_private _ | attr_method _ => true
  end.

(** [block.block_header.name], as [MFPackage.is_valid] writes it. *)
Definition block_header_name (block : MFBlock) : result string :=
  match MFBlock_getattr block "block_header" with
  | Ok (attr_block_headers _) => Raise (AttributeError "list" "name")
  | Ok _ => Raise (AttributeError "object" "name")
  | Raise e => Raise e
  | Timeout => Timeout
  end.

Section Package.

Context (X : Externals).

(** [is_valid()] of a package, over [self.blocks.items()]. The second test
    reads [block.is_valid], the bound method, and does not call it. *)
Fixpoint blocks_valid (blocks : list (string * MFBlock)) : M (MFPackage * World) bool :=
  match blocks with
  | [] => ret true
  | (_, block) :: rest =>
      missing <-
        (if Nat.ltb 0 (bs_number_non_optional_data (b_structure block))
            && negb (b_enabled block)
         then w <- gets snd ;; lift_result (MFBlock_is_allowed X block w)
         else ret false) ;;
      if missing : bool then
        name <- lift_result (block_header_name block) ;;
        update_self (set_pk_last_error
                       (Some ("Required block " ++ dq ++ name ++ dq ++ " not enabled")%string)) ;;;
        ret false
      else
        is_valid <- lift_result (MFBlock_getattr block "is_valid") ;;
        if b_enabled block && negb (attr_truthy is_valid) then
          name <- lift_result (block_header_name block) ;;
          update_self (set_pk_last_error
                         (Some ("Invalid block " ++ dq ++ name ++ dq)%string)) ;;;
          ret false
        else blocks_valid rest
  end.

Definition MFPackage_is_valid : M (MFPackage * World) bool :=
  p <- self ;; blocks_valid (pk_blocks p).

(** [self.post_block_comments.text += line] and the same for a comment of
    the store. *)
Definition append_text (t : CommentText) (line : string) : CommentText :=
  match t with
  | TStr s => TStr (s ++ line)%string
  | TItems l =>
      TItems (l ++ map (fun c => CI_str (String c EmptyString)) (list_ascii_of_string line))
  end.

(** [_store_comment(line, found_first_block)]. *)
Definition MFPackage__store_comment (line : string) (found_first_block : bool)
    : M (MFPackage * World) unit :=
  p <- self ;;
  c <- (if found_first_block then
          match pk_post_block_comments p with
          | Some c => ret c
          | None => raise (AttributeError "NoneType" "text")
          end
        else
          o <- in_world (mfdata_get (pk_path p ++ [SegS "pkg_hdr_comments"])) ;;
          in_world (comment_of (Some o))) ;;
  t <- in_world (comment_text c) ;;
  in_world (comment_set_text c (append_text t line)).

(** The loop of [_get_block_header_info] over the entries after the block
    name: the variable strings, and the comment text. *)
Fixpoint header_entries (entries : list string) (comment : bool)
    (header_variable_strs : list string) (text : string) : result (list string * string) :=
  match entries with
  | [] => Ok (header_variable_strs, text)
  | entry :: rest =>
      match strip entry with
      | EmptyString => Raise (IndexError "entry.strip()[0]")
      | String c _ =>
          let comment := comment || is_comment X (CA_str (String c EmptyString)) false in
          if comment
          then header_entries rest comment header_variable_strs (join " " [text; entry])
          else header_entries rest comment (header_variable_strs ++ [entry]) text
      end
  end.

(** [_get_block_header_info(line, path)]. The comment object is built from
    [arr_clean_line[1]] before the length of [arr_clean_line] is tested. *)
Definition MFPackage__get_block_header_info (line : string) (path : Path)
    : M World MFBlockHeader :=
  let arr_clean_line := split (strip line) in
  name <- lift_result (index "arr_clean_line" arr_clean_line 1) ;;
  header_comment <- MFComment_new (TStr "") ;;
  match arr_clean_line with
  | [] | [_] =>
      print ("ERROR: Block header does not contain a name " ++ line)%string ;;;
      raise (MFFileParseException
               ("ERROR: Block header does not contain a name " ++ line)%string)
  | [_; _] => MFBlockHeader_init name [] (Some header_comment) None
  | _ :: _ :: entries =>
      parsed <- lift_result (header_entries entries false [] "") ;;
      comment_set_text header_comment (TStr (snd parsed)) ;;;
      MFBlockHeader_init name (fst parsed) (Some header_comment) None
  end.

Definition blocks_mem (key : string) (p : MFPackage) : bool :=
  assoc_mem String.eqb key (pk_blocks p).

(** [while block_key in self.blocks and not
    self.blocks[block_key].is_allowed(): ...]. *)
Fixpoint resolve_block_key (fuel : nat) (name : string) (block_key : string) (block_num : nat)
    : M (MFPackage * World) string :=
  match fuel with
  | O => timeout
  | S fuel' =>
      p <- self ;;
      match assoc_lookup String.eqb block_key (pk_blocks p) with
      | None => ret block_key
      | Some block =>
          w <- gets snd ;;
          allowed <- lift_result (MFBlock_is_allowed X block w) ;;
          if allowed : bool then ret block_key
          else resolve_block_key fuel' name
                 (name ++ "-" ++ str_of_int (Z.of_nat block_num))%string (S block_num)
      end
  end.

(** The inner loop for a block whose name the package does not know: its
    lines are stored as comments, up to a line whose first token is [END]
    (or has two characters at most). *)
Fixpoint swallow_block (fuel : nat) (fd : nat) (found_first_block : bool)
    : M (MFPackage * World) string :=
  match fuel with
  | O => timeout
  | S fuel' =>
      line <- in_world (readline fd) ;;
      MFPackage__store_comment line found_first_block ;;;
      match split_data_line X line with
      | first :: _ =>
          if Nat.leb (String.length first) 2 || is_END first then ret line
          else if str_nonempty line then swallow_block fuel' fd found_first_block
          else ret line
      | [] =>
          if str_nonempty line then swallow_block fuel' fd found_first_block
          else ret line
      end
  end.

(** Call a method of the block stored under [block_key]; the package keeps
    the block as the method left it, also when it raised. *)
Definition on_block {A} (block_key : string) (m : M (MFBlock * World) A)
    : M (MFPackage * World) A :=
  fun s =>
    match assoc_lookup String.eqb block_key (pk_blocks (fst s)) with
    | None => (Raise (KeyError block_key), s)
    | Some block =>
        let '(r, (block', w')) := m (block, snd s) in
        (r, (set_pk_blocks (assoc_set String.eqb block_key block' (pk_blocks (fst s)))
               (fst s), w'))
    end.

(** The [while line != ''] loop of [_load_blocks]. *)
Fixpoint load_blocks_loop (fuel : nat) (fd : nat) (max_blocks : option nat)
    (blocks_read : nat) (found_first_block : bool) : M (MFPackage * World) unit :=
  match fuel with
  | O => timeout
  | S fuel' =>
      line <- in_world (readline fd) ;;
      let clean_line := strip line in
      let continue found_first_block blocks_read line :=
        if str_nonempty line
        then load_blocks_loop fuel' fd max_blocks blocks_read found_first_block
        else ret tt in
      if is_comment X (CA_str clean_line) true then
        MFPackage__store_comment line found_first_block ;;;
        continue found_first_block blocks_read line
      else if Nat.ltb 4 (String.length clean_line)
              && String.eqb (upper (prefix_of 5 clean_line)) "BEGIN" then
        p <- self ;;
        block_header_info <-
          try_except (in_world (MFPackage__get_block_header_info line (pk_path p)))
            (fun e =>
               match e with
               | MFFileParseException _ =>
                   Some (raise (MFFileParseException
                                  ("Invalid block header " ++ line ++ " ("
                                   ++ pk_package_type p ++ ")")%string))
               | _ => None
               end) ;;
        let name := lower (bh_name block_header_info) in
        block_key <-
          (if blocks_mem (name ++ "-1")%string p
           then resolve_block_key fuel' name (name ++ "-1")%string 1
           else ret name) ;;
        p <- self ;;
        match assoc_lookup String.eqb block_key (pk_blocks p) with
        | None =>
            in_world (print ("WARNING: Block " ++ dq ++ block_key ++ dq
                             ++ " is not a valid block name for file type "
                             ++ pk_package_type p ++ ".")%string) ;;;
            MFPackage__store_comment line found_first_block ;;;
            line <- (if str_nonempty line
                     then swallow_block fuel' fd found_first_block
                     else ret line) ;;
            continue found_first_block blocks_read line
        | Some block =>
            c <- in_world (MFComment_new (TStr "")) ;;
            update_self (set_pk_post_block_comments (Some c)) ;;;
            skip_block <-
              (if b_loaded block then
                 match assoc_lookup String.eqb name (ps_blocks (pk_structure p)) with
                 | None => raise (KeyError name)
                 | Some s =>
                     if bs_repeating s then ret false
                     else
                       in_world (print ("WARNING: Block " ++ dq ++ bh_name block_header_info
                                        ++ dq ++ " has multiple entries and is not intended to be a repeating block ("
                                        ++ pk_package_type p ++ " package)")%string) ;;;
                       ret true
                 end
               else ret false) ;;
            if skip_block : bool then continue true blocks_read line
            else
              on_block block_key (MFBlock_load X fuel' block_header_info fd) ;;;
              in_world (mfdata_set (b_blk_post_comment_path block) (SComment c)) ;;;
              let blocks_read := S blocks_read in
              match max_blocks with
              | Some m =>
                  if Nat.leb m blocks_read then ret tt
                  else continue true blocks_read line
              | None => continue true blocks_read line
              end
        end
      else
        (if negb (Nat.eqb (String.length clean_line) 0
                  || (Nat.ltb 2 (String.length line) && is_END line))
         then MFPackage__store_comment line found_first_block
         else ret tt) ;;;
        continue found_first_block blocks_read line
  end.

(** [_load_blocks(fd_input_file, strict=True, max_blocks=sys.maxsize)];
    [max_blocks = None] stands for [sys.maxsize]. *)
Definition MFPackage__load_blocks (fuel : nat) (fd_input_file : nat) (max_blocks : option nat)
    : M (MFPackage * World) unit :=
  p <- self ;;
  c <- in_world (MFComment_new (TStr "")) ;;
  in_world (mfdata_set (pk_path p ++ [SegS "pkg_hdr_comments"]) (SComment c)) ;;;
  c <- in_world (MFComment_new (TStr "")) ;;
  update_self (set_pk_post_block_comments (Some c)) ;;;
  load_blocks_loop fuel fd_input_file max_blocks 0 false.

(** [load(strict=True)]. The module never imports [errno], so the handler
    of [OSError] raises [NameError] when it evaluates [errno.ENOENT]. *)
Definition MFPackage_load (fuel : nat) : M (MFPackage * World) bool :=
  p <- self ;;
  fd_input_file <-
    try_except (in_world (open_r (pk_file_path p)))
      (fun e =>
         match e with
         | OSError _ => Some (raise (NameError "errno"))
         | _ => None
         end) ;;
  try_except (MFPackage__load_blocks fuel fd_input_file None)
    (fun e =>
       match e with
       | ReadAsArraysException err =>
           Some (in_world (fd_close fd_input_file) ;;;
                 raise (ReadAsArraysException err))
       | _ => None
       end) ;;;
  in_world (fd_close fd_input_file) ;;;
  MFPackage_is_valid.

(** [for index, block in self.blocks.items(): block.write(fd, ...)]. *)
Definition write_each_block (fd : nat) (ext_file_action : ExtFileAction)
    : M (MFPackage * World) unit :=
  p <- self ;;
  for_each (map fst (pk_blocks p)) (fun key =>
    on_block key (MFBlock_write X fd ext_file_action)).

(** [_write_blocks(fd, ext_file_action)]. *)
Definition MFPackage__write_blocks (fd : nat) (ext_file_action : ExtFileAction)
    : M (MFPackage * World) unit :=
  valid <- MFPackage_is_valid ;;
  if valid : bool then
    p <- self ;;
    let pkg_hdr_comments_path := pk_path p ++ [SegS "pkg_hdr_comments"] in
    known <- in_world (mfdata_mem pkg_hdr_comments_path) ;;
    (if known : bool
     then in_world (write_stored_comment X pkg_hdr_comments_path fd (Some false))
     else ret tt) ;;;
    write_each_block fd ext_file_action
  else
    p <- self ;;
    let excpt_str :=
      ("Unable to write out model file " ++ dq ++ pk_filename p ++ dq
       ++ " due to the following error: "
       ++ match pk_last_error p with Some e => e | None => "None" end
       ++ " (" ++ show_path (pk_path p) ++ ")")%string in
    in_world (print excpt_str) ;;;
    raise (MFFileWriteException excpt_str).

(** [write(ext_file_action=ExtFileAction.copy_relative_paths)]. Creating
    the folders of the path is left out: directories are not modelled. *)
Definition MFPackage_write (ext_file_action : ExtFileAction) : M (MFPackage * World) unit :=
  p <- self ;;
  fd <- in_world (open_w (pk_file_path p)) ;;
  MFPackage__write_blocks fd ext_file_action ;;;
  in_world (fd_close fd).

End Package.

(* ================================================================== *)
(** ** The collaborators, as the specification describes them *)
(* ================================================================== *)

(** Modelled from the spec: [mfdatautil.ArrayUtil.split_data_line] is not
    under src/; section 4.2 has lines tokenized on whitespace. *)
Definition spec_split_data_line (line : string) : list string := split line.

Definition starts_with_marker (s : string) : bool :=
  match s with
  | String c rest =>
      Ascii.eqb c "#" || Ascii.eqb c "!"
      || (Ascii.eqb c "/" && match rest with
                             | String c' _ => Ascii.eqb c' "/"
                             | EmptyString => false
                             end)
  | EmptyString => false
  end.

(** Modelled from the spec: [mfdata.MFComment.is_comment] is not under
    src/; section 6: a line that starts with one of the comment markers
    [#], [!], [//] is comment text; a blank line, or no text at all, counts
    when empty lines are included. *)
Definition spec_is_comment (text : CommentArg) (include_empty_line : bool) : bool :=
  match text with
  | CA_key None => include_empty_line
  | CA_key (Some (KStr s)) | CA_str s =>
      match strip s with
      | EmptyString => include_empty_line
      | t => starts_with_marker t
      end
  | CA_key (Some (KTuple _)) => false
  end.

(** Modelled from the spec: [mfdatautil.find_keyword] is not under src/;
    section 4.3, step 7: the first match against [datasets_keyword],
    case-insensitive, scanning a line's tokens left to right. *)
Fixpoint spec_find_keyword (arr_line : list string)
    (datasets_keyword : list (PyKey * MFDataStructure)) : option PyKey :=
  match arr_line with
  | [] => None
  | tok :: rest =>
      if assoc_mem PyKey_eqb (KTuple [lower tok]) datasets_keyword
      then Some (KTuple [lower tok])
      else spec_find_keyword rest datasets_keyword
  end.

(** Modelled from the spec: [MFComment.add_text] is not under src/; section
    4.3, step 5, buffers comment lines by adding them to the text. *)
Definition spec_comment_add_text (t : CommentText) (text : string) : CommentText :=
  match t with
  | TStr s => TStr (s ++ text)%string
  | TItems l => TItems (l ++ [CI_str text])
  end.

Definition show_item (i : CommentItem) : string :=
  match i with
  | CI_str s => s
  | CI_tokens toks => join " " toks
  end.

(** Modelled from the spec: [MFComment.write] is not under src/; comments
    are written back as their text when comments are on. *)
Definition spec_comment_render (comments_on : bool) (t : CommentText)
    (eoln_suffix : option bool) : string :=
  if comments_on then
    let body := match t with
                | TStr s => s
                | TItems l => String.concat EmptyString (map show_item l)
                end in
    match eoln_suffix with
    | Some false => body
    | _ => (body ++ nl)%string
    end
  else EmptyString.

Definition set_d_data (v : PyVal) (d : MFData) : MFData :=
  {| d_class := d_class d; d_structure := d_structure d; d_enabled := d_enabled d;
     d_path := d_path d; d_data := v; d_keyed := d_keyed d;
     d_post_data_comments := d_post_data_comments d |}.

(** Modelled from the spec: the loaders of the dataset classes are not under
    src/; section 6 gives their contract: a loader takes the first line and
    the file and answers whether to go on and the next unconsumed line. This
    one consumes the line it is given and nothing else. *)
Definition spec_data_load (d : MFData) (line : string) (fd : nat)
    (block_header : MFBlockHeader) (pre_data_comments : CommentText) (w : World)
    : result (bool * option string) * MFData * World :=
  (Ok (false, None), set_d_data (VStr (strip line)) d, w).

(** The first field of a row that is not the value of a keyword item. *)
Fixpoint first_non_keyword (items : list MFDataItemStructure) (fields : list PyVal) : PyVal :=
  match fields with
  | [] => VNone
  | f :: fs =>
      match items with
      | item :: items' =>
          if String.eqb (dis_type item) "keyword" then first_non_keyword items' fs else f
      | [] => f
      end
  end.

(** The value of a scalar: of the one row that [build_header_variables]
    wraps the header arguments in, the first non-keyword field. *)
Definition scalar_value (s : MFDataStructure) (v : PyVal) : PyVal :=
  match v with
  | VList [VTuple fields] => first_non_keyword (ds_data_item_structures s) fields
  | _ => v
  end.

(** Modelled from the spec: [get_data] is not under src/; section 3: a
    dataset owns its parsed value, a transient one a value per key; section
    4.2: the value of a scalar header argument is the first non-keyword
    header argument. *)
Definition spec_data_get_data (d : MFData) : PyVal :=
  match d_class d with
  | MFScalar => scalar_value (d_structure d) (d_data d)
  | MFArray | MFList => d_data d
  | c =>
      let v := match rev (d_keyed d) with
               | (_, v, _) :: _ => v
               | [] => VNone
               end in
      match c with
      | MFScalarTransient => scalar_value (d_structure d) v
      | _ => v
      end
  end.

(** Modelled from the spec: [MFScalar.get_file_entry] is not under src/;
    section 4.2: the header's serialized arguments follow the block name,
    and scalars render one-based when their declared type is integer. An
    entry is a blank, the value, and a newline. *)
Definition spec_data_get_file_entry (d : MFData) (args : FileEntryArgs) : result string :=
  match spec_data_get_data d with
  | VInt z =>
      Ok (" " ++ str_of_int (if fe_one_based args then z + 1 else z) ++ nl)%string
  | VStr s => Ok (" " ++ s ++ nl)%string
  | _ => Ok EmptyString
  end.

(** Modelled from the spec: the transient and multi-instance kinds of
    section 4.1 are the repeating ones. *)
Definition spec_data_repeating (d : MFData) : bool :=
  match d_class d with
  | MFScalarTransient | MFTransientArray | MFTransientList | MFMultipleList => true
  | _ => false
  end.

Definition spec_data_has_data (d : MFData) : option bool :=
  Some (negb (is_none (spec_data_get_data d))).

Definition spec_externals : Externals :=
  {| split_data_line := spec_split_data_line;
     is_comment := spec_is_comment;
     find_keyword := spec_find_keyword;
     comment_add_text := spec_comment_add_text;
     comment_render := spec_comment_render;
     data_load := spec_data_load;
     data_get_data := spec_data_get_data;
     data_has_data := spec_data_has_data;
     data_is_valid := fun _ => true;
     data_repeating := spec_data_repeating;
     data_get_file_entry := spec_data_get_file_entry;
     data_get_active_key_list := fun d => map (fun e => [fst (fst e)]) (d_keyed d);
     derives_MFScalar := fun c => match c with MFScalarTransient => true | _ => false end;
     package_factory := fun _ _ => false;
     load_package := fun _ w => (Ok tt, w);
     realpath := fun p => p;
     store_truthy := fun _ => true;
     store_gt := fun _ _ => Ok false;
     store_lt := fun _ _ => Ok false |}.

(* ================================================================== *)
(** ** Sample schemas, blocks and files *)
(* ================================================================== *)

Definition empty_world : World :=
  {| w_mfdata := []; w_comments := []; w_comments_on := true;
     w_indent_string := "  "; w_disk := []; w_files := [];
     w_stdout := []; w_calls := [] |}.

Definition with_file (name : string) (lines : list string) (w : World) : World :=
  set_w_disk (assoc_set String.eqb name lines (w_disk w)) w.

Definition plain_aux : MFDataStructure :=
  {| ds_name := "aux"; ds_type := "string"; ds_optional := true;
     ds_datatype := dt_array; ds_data_item_structures := [];
     ds_record_size := []; ds_keywords := []; ds_keyword := None;
     ds_file_data := false; ds_first_non_keyword_index := None |}.

(** A package that does not read its arrays as arrays. *)
Definition plain_container : ContainerPackage :=
  {| cp_read_as_arrays := false; cp_auxiliary_data := None;
     cp_aux_structure := plain_aux |}.

(** The block-header variable of a stress-period block: one integer, the
    1-based period number. *)
Definition iper : MFDataStructure :=
  {| ds_name := "iper"; ds_type := "integer"; ds_optional := false;
     ds_datatype := dt_scalar;
     ds_data_item_structures :=
       [{| dis_name := "iper"; dis_type := "integer"; dis_type_obj := ty_int |}];
     ds_record_size := [1%Z]; ds_keywords := []; ds_keyword := None;
     ds_file_data := false; ds_first_non_keyword_index := Some 0 |}.

Definition stress_period_data : MFDataStructure :=
  {| ds_name := "stress_period_data"; ds_type := "recarray"; ds_optional := true;
     ds_datatype := dt_list_transient;
     ds_data_item_structures :=
       [{| dis_name := "cellid"; dis_type := "integer"; dis_type_obj := ty_int |}];
     ds_record_size := [2%Z]; ds_keywords := []; ds_keyword := None;
     ds_file_data := false; ds_first_non_keyword_index := Some 0 |}.

(** A repeating block [period] with the header variable [iper]. *)
Definition period_structure : MFBlockStructure :=
  {| bs_name := "period";
     bs_data_structures := [("stress_period_data", stress_period_data)];
     bs_block_header_structure := [iper];
     bs_number_non_optional_data := 0;
     bs_number_non_optional_block_header_data := 1;
     bs_repeating := true;
     bs_all_recarrays := [stress_period_data];
     bs_variable_dependant_path := [];
     bs_variable_value_when_active := [] |}.

Definition period_path : Path := [SegS "sim"; SegS "wel"; SegS "period"].

(** The block as [build_mfdata] makes it: constructed, then given its
    dataset with no data. *)
Definition period_block_in (w : World) : result MFBlock * World :=
  (b <- MFBlock_init period_structure period_path "gwf" (Some plain_container) ;;
   r <- call_on b (MFBlock_add_dataset spec_externals stress_period_data VNone
                     (period_path ++ [SegS "stress_period_data"])) ;;
   ret (snd r)) w.

Definition package_of (package_type file : string) (structure : MFPackageStructure)
    (blocks : list (string * MFBlock)) : MFPackage :=
  {| pk_package_type := package_type; pk_filename := file; pk_file_path := file;
     pk_path := [SegS "sim"; SegS package_type]; pk_structure := structure;
     pk_blocks := blocks; pk_last_error := None; pk_post_block_comments := None |}.

Definition wel_structure : MFPackageStructure :=
  {| ps_blocks := [("period", period_structure)]; ps_read_as_arrays := false;
     ps_file_type := "wel" |}.

(** A file with two stress-period blocks whose keys read [1] and [01]. *)
Definition two_periods_file : list string :=
  ["BEGIN period 1"; "END period"; "BEGIN period 01"; "END period"].

(** The package of [two_periods_file] after [load]: the outcome, the
    package and the world. *)
Definition two_periods_loaded : result bool * (MFPackage * World) :=
  match period_block_in (with_file "model.wel" two_periods_file empty_world) with
  | (Ok block, w) =>
      MFPackage_load spec_externals 100
        (package_of "wel" "model.wel" wel_structure [("period", block)], w)
  | (Raise e, w) => (Raise e, (package_of "wel" "model.wel" wel_structure [], w))
  | (Timeout, w) => (Timeout, (package_of "wel" "model.wel" wel_structure [], w))
  end.

(** The transient keys of the headers of a block. *)
Definition transient_keys (X : Externals) (b : MFBlock) : list (result PyVal) :=
  map (MFBlockHeader_get_transient_key X) (b_block_headers b).

Definition block_of (key : string) (s : result bool * (MFPackage * World)) : option MFBlock :=
  assoc_lookup String.eqb key (pk_blocks (fst (snd s))).

(** A dataset recognized by one keyword. *)
Definition keyword_scalar (name : string) : MFDataStructure :=
  {| ds_name := name; ds_type := "keyword"; ds_optional := true;
     ds_datatype := dt_scalar_keyword;
     ds_data_item_structures :=
       [{| dis_name := name; dis_type := "keyword"; dis_type_obj := ty_other |}];
     ds_record_size := [1%Z]; ds_keywords := [KTuple [name]];
     ds_keyword := Some (KTuple [name]);
     ds_file_data := false; ds_first_non_keyword_index := None |}.

(** A bare table: rows with no keyword in front. *)
Definition bare_table (name : string) : MFDataStructure :=
  {| ds_name := name; ds_type := "recarray"; ds_optional := true;
     ds_datatype := dt_list;
     ds_data_item_structures :=
       [{| dis_name := "cellid"; dis_type := "integer"; dis_type_obj := ty_int |}];
     ds_record_size := [3%Z]; ds_keywords := [KTuple [name]];
     ds_keyword := Some (KTuple [name]);
     ds_file_data := false; ds_first_non_keyword_index := Some 0 |}.

(** A block with no header variable that holds the given datasets. *)
Definition plain_block_structure (name : string) (datasets recarrays : list MFDataStructure)
    (required : nat) : MFBlockStructure :=
  {| bs_name := name;
     bs_data_structures := map (fun s => (ds_name s, s)) datasets;
     bs_block_header_structure := [];
     bs_number_non_optional_data := required;
     bs_number_non_optional_block_header_data := 0;
     bs_repeating := false;
     bs_all_recarrays := recarrays;
     bs_variable_dependant_path := [];
     bs_variable_value_when_active := [] |}.

(** A block as [build_mfdata] makes it: constructed, then given each
    dataset of its structure with no data. *)
Definition build_block (structure : MFBlockStructure) (path : Path) : M World MFBlock :=
  b <- MFBlock_init structure path "gwf" (Some plain_container) ;;
  r <- call_on b
         (for_each (bs_data_structures structure) (fun kv =>
            _ <- MFBlock_add_dataset spec_externals (snd kv) VNone
                   (path ++ [SegS (fst kv)]) ;;
            ret tt)) ;;
  ret (snd r).

(** A package of one block, made in a world with the given files, and the
    world after the block was made. *)
Definition one_block_package (package_type file : string) (structure : MFBlockStructure)
    (w : World) : MFPackage * World :=
  let pstruct := {| ps_blocks := [(bs_name structure, structure)];
                    ps_read_as_arrays := false; ps_file_type := package_type |} in
  match build_block structure [SegS "sim"; SegS package_type; SegS (bs_name structure)] w with
  | (Ok block, w') =>
      (package_of package_type file pstruct [(bs_name structure, block)], w')
  | (_, w') => (package_of package_type file pstruct [], w')
  end.

Definition options_structure : MFBlockStructure :=
  plain_block_structure "options"
    [keyword_scalar "print_input"; keyword_scalar "save_flows"] [] 0.


Definition packagedata_structure : MFBlockStructure :=
  plain_block_structure "packagedata"
    [keyword_scalar "maxbound"; bare_table "packagedata"] [bare_table "packagedata"] 0.

Definition dimensions_structure : MFBlockStructure :=
  plain_block_structure "dimensions" [keyword_scalar "nper"] [] 1.

(** An options block with one known keyword and one line of other text. *)
Definition options_file : list string :=
  ["BEGIN options"; "  PRINT_INPUT"; "  some stray text"; "END options"].

Definition options_loaded : result bool * (MFPackage * World) :=
  MFPackage_load spec_externals 100
    (one_block_package "wel" "model.wel" options_structure
       (with_file "model.wel" options_file empty_world)).



(** The read-as-arrays guard in the options block, and in another block. *)
Definition guard_in_options_file : list string :=
  ["BEGIN options"; "  READASARRAYS"; "END options"].

Definition guard_in_options_loaded : result bool * (MFPackage * World) :=
  MFPackage_load spec_externals 100
    (one_block_package "rch" "model.rch" options_structure
       (with_file "model.rch" guard_in_options_file empty_world)).



(** A block whose contents are in another file. *)
Definition external_file : list string :=
  ["BEGIN dimensions"; "  open/close sub.txt"; "END dimensions"].

Definition external_loaded : result bool * (MFPackage * World) :=
  MFPackage_load spec_externals 100
    (one_block_package "dis" "model.dis" dimensions_structure
       (with_file "sub.txt" ["  NPER 3"]
          (with_file "model.dis" external_file empty_world))).

(** Collaborators whose [get_file_entry] raises. *)
Definition raising_externals : Externals :=
  {| split_data_line := spec_split_data_line;
     is_comment := spec_is_comment;
     find_keyword := spec_find_keyword;
     comment_add_text := spec_comment_add_text;
     comment_render := spec_comment_render;
     data_load := spec_data_load;
     data_get_data := spec_data_get_data;
     data_has_data := spec_data_has_data;
     data_is_valid := fun _ => true;
     data_repeating := spec_data_repeating;
     data_get_file_entry := fun _ _ => Raise (MFDataException "get_file_entry");
     data_get_active_key_list := fun d => map (fun e => [fst (fst e)]) (d_keyed d);
     derives_MFScalar := fun c => match c with MFScalarTransient => true | _ => false end;
     package_factory := fun _ _ => false;
     load_package := fun _ w => (Ok tt, w);
     realpath := fun p => p;
     store_truthy := fun _ => true;
     store_gt := fun _ _ => Ok false;
     store_lt := fun _ _ => Ok false |}.

(** Writing the package of [external_loaded] back, with collaborators [X]. *)
Definition external_written (X : Externals) : result unit * (MFPackage * World) :=
  MFPackage_write X copy_relative_paths (snd external_loaded).

(** A package whose required block [dimensions] has been switched off
    ([block.enabled = False]). *)
Definition switched_off : MFPackage * World :=
  let s := one_block_package "dis" "model.dis" dimensions_structure empty_world in
  (set_pk_blocks (map (fun kv => (fst kv, set_b_enabled false (snd kv)))
                      (pk_blocks (fst s))) (fst s), snd s).


(** A header as [_get_block_header_info] makes it, and headers of the
    [period] block as [load] leaves them. *)
Definition parsed_header (name : string) (variable_strings : list string) : MFBlockHeader :=
  {| bh_name := name; bh_variable_strings := variable_strings; bh_comment := None;
     bh_comment_path := None; bh_data_items := [] |}.

Definition period_header (token : string) (key : Z) : MFBlockHeader :=
  set_bh_data_items
    [Some (new_data MFScalar iper (VInt key) true (period_path ++ [SegS "iper"]))]
    (parsed_header "period" [token]).

(** A header variable that is a name, not a number. *)
Definition label : MFDataStructure :=
  {| ds_name := "label"; ds_type := "string"; ds_optional := false;
     ds_datatype := dt_scalar;
     ds_data_item_structures :=
       [{| dis_name := "label"; dis_type := "string"; dis_type_obj := ty_str |}];
     ds_record_size := [1%Z]; ds_keywords := []; ds_keyword := None;
     ds_file_data := false; ds_first_non_keyword_index := Some 0 |}.

Definition labelled_header (token : string) : MFBlockHeader :=
  set_bh_data_items
    [Some (new_data MFScalar label (VList [VTuple [VStr token]]) true
             (period_path ++ [SegS "label"]))]
    (parsed_header "zone" [token]).

(** The [period] block after the periods 1 and 2 were loaded. *)
Definition period_block_loaded : MFBlock :=
  {| b_structure := period_structure; b_path := period_path;
     b_block_headers := [period_header "1" 0; period_header "2" 1];
     b_datasets := []; b_datasets_keyword := [];
     b_blk_trailing_comment_path := period_path ++ [SegS "blk_trailing_comment"];
     b_blk_post_comment_path := period_path ++ [SegS "blk_post_comment"];
     b_enabled := true; b_loaded := true; b_external_file_name := None;
     b_container_package := Some plain_container; b_model_type := "gwf" |}.

(** A schema node of a kind [data_factory] has no branch for. *)
Definition odd_kind : MFDataStructure :=
  {| ds_name := "odd"; ds_type := "string"; ds_optional := true;
     ds_datatype := dt_other 0; ds_data_item_structures := [];
     ds_record_size := []; ds_keywords := []; ds_keyword := None;
     ds_file_data := false; ds_first_non_keyword_index := None |}.

(* ================================================================== *)
(** ** Predicates of the statements *)
(* ================================================================== *)

(** The first argument of a header is typed and numeric: its first data
    item's first field has [type_obj] [int] or [float]. *)
Definition numeric_first_argument (h : MFBlockHeader) : Prop :=
  exists d items dis diss,
    bh_data_items h = Some d :: items /\
    ds_data_item_structures (d_structure d) = dis :: diss /\
    (dis_type_obj dis = ty_int \/ dis_type_obj dis = ty_float).

(** The first argument is typed and not numeric. *)
Definition other_first_argument (h : MFBlockHeader) : Prop :=
  exists d items dis diss,
    bh_data_items h = Some d :: items /\
    ds_data_item_structures (d_structure d) = dis :: diss /\
    dis_type_obj dis <> ty_int /\ dis_type_obj dis <> ty_float.

Definition first_token (h : MFBlockHeader) (t : string) : Prop :=
  exists rest, bh_variable_strings h = t :: rest.

(** Take hypotheses apart and close the goal when they contradict. *)
Ltac break_hyps :=
  repeat match goal with
         | H : exists _, _ |- _ => destruct H
         | H : _ /\ _ |- _ => destruct H
         | H : _ \/ _ |- _ => destruct H
         | H : _ :: _ = _ :: _ |- _ => inversion H; clear H; subst
         | H : Some _ = Some _ |- _ => inversion H; clear H; subst
         end;
  try discriminate; try congruence.


(** A dataset object is there, enabled, and reports itself valid. *)
Definition enabled_and_valid (X : Externals) (d : option MFData) : Prop :=
  exists d', d = Some d' /\ d_enabled d' = true /\ data_is_valid X d' = true.

(** Every dataset of the block and every data item of its headers is
    enabled and valid. *)
Definition all_enabled_and_valid (X : Externals) (b : MFBlock) : Prop :=
  Forall (fun kv => enabled_and_valid X (snd kv)) (b_datasets b) /\
  Forall (fun h => Forall (enabled_and_valid X) (bh_data_items h)) (b_block_headers b).

(** The header carries fewer raw tokens than the schema has non-optional
    header variables. *)
Definition short_header (b : MFBlock) (block_header : MFBlockHeader) : Prop :=
  List.length (bh_variable_strings block_header)
  < bs_number_non_optional_block_header_data (b_structure b).

(** The block was loaded before and the scan of its headers comes to one
    for which [is_same_header] answers [True], the headers before it having
    answered [False]. *)
Definition duplicate_found (b : MFBlock) (block_header : MFBlockHeader) : Prop :=
  b_loaded b = true /\
  exists before h after,
    b_block_headers b = before ++ h :: after /\
    Forall (fun h' => MFBlockHeader_is_same_header h' block_header = Ok false) before /\
    MFBlockHeader_is_same_header h block_header = Ok true.

(** The world after [print(text)]. *)
Definition printed (text : string) (w : World) : World :=
  set_w_stdout (w_stdout w ++ [text]) w.

(** The names of the file objects of a world, each with whether it is
    closed. *)
Definition files_closed (w : World) : list (string * bool) :=
  map (fun f => (f_name f, f_closed f)) (w_files w).

(** The options block of a package that does not read arrays as arrays,
    as [build_mfdata] makes it. *)
Definition options_block : MFBlock :=
  match build_block options_structure [SegS "sim"; SegS "rch"; SegS "options"] empty_world with
  | (Ok b, _) => b
  | _ => period_block_loaded
  end.

(** The block with a lone bare table. *)
Definition packagedata_block : MFBlock :=
  match build_block packagedata_structure [SegS "sim"; SegS "maw"; SegS "packagedata"]
          empty_world with
  | (Ok b, _) => b
  | _ => period_block_loaded
  end.

(** No registered keyword matches the line. *)
Definition no_keyword (X : Externals) (b : MFBlock) (line : string) : Prop :=
  find_keyword X (split_data_line X line) (b_datasets_keyword b) = None.





(** The line matches the registered keyword [key] of the dataset stored
    under [name], an object [d], and [hdr] is the block's last header. *)
Definition keyword_line (X : Externals) (b : MFBlock) (line : string)
    (key : PyKey) (name : Seg) (d : MFData) (hdr : MFBlockHeader) : Prop :=
  find_keyword X (split_data_line X line) (b_datasets_keyword b) = Some key /\
  (exists s, assoc_lookup PyKey_eqb key (b_datasets_keyword b) = Some s
             /\ name = SegS (ds_name s)) /\
  assoc_lookup Seg_eqb name (b_datasets b) = Some (Some d) /\
  (exists before, b_block_headers b = before ++ [hdr]).

(** No keyword matches the line, and its first token is not the
    read-as-arrays guard. *)
Definition other_line (X : Externals) (b : MFBlock) (line : string) : Prop :=
  no_keyword X b line /\
  exists first rest, split_data_line X line = first :: rest
                     /\ String.eqb (lower first) "readasarrays" = false.




(** No character of [s] is one that [rstrip] takes off. *)
Fixpoint no_blank (s : string) : bool :=
  match s with
  | EmptyString => true
  | String c s' => negb (is_space c) && no_blank s'
  end.

(** The schema of a header variable that is an integer record of one field,
    held as a scalar: the 1-based index of a repeating block. *)
Definition one_based_index (s : MFDataStructure) : Prop :=
  ds_type s = "integer" /\
  (exists rest, ds_record_size s = 1%Z :: rest) /\
  (ds_datatype s = dt_scalar \/ ds_datatype s = dt_scalar_keyword).

(** A header as [_get_block_header_info] makes it and [load] appends it:
    its comment [c] is its own, and its variables are not built yet. *)
Definition fresh_header (h : MFBlockHeader) (c : nat) : Prop :=
  bh_comment_path h = None /\ bh_comment h = Some c /\ bh_data_items h = [].

(** The file object after the strings [ss] were written to it. *)
Definition written_more (f : File) (ss : list string) : File :=
  {| f_name := f_name f; f_unread := f_unread f;
     f_written := f_written f ++ ss; f_closed := false |}.

(** What [write_header] writes after the header's arguments: a blank and
    the comment if the comment has text, then the newline. *)
Definition header_tail (X : Externals) (comments_on : bool) (t : CommentText)
    : list string :=
  (if text_truthy t then [" "; comment_render X comments_on t None] else []) ++ [nl].

(** The [period] block at the point where [load] has appended the header
    parsed from [BEGIN period 1] (the block was not loaded before, so the
    header is the only one), in a world that holds the header's comment,
    without text, and a file opened for writing. *)
Definition period_1_appended : MFBlock * World :=
  match period_block_in empty_world with
  | (Ok b, w) =>
      match (c <- MFComment_new (TStr "") ;; open_w "out.wel" ;;; ret c) w with
      | (Ok c, w') =>
          (set_b_block_headers
             [{| bh_name := "period"; bh_variable_strings := ["1"];
                 bh_comment := Some c; bh_comment_path := None;
                 bh_data_items := [] |}] b, w')
      | (_, w') => (b, w')
      end
  | (_, w) => (period_block_loaded, w)
  end.

(* ================================================================== *)
(** ** Further methods *)
(* ================================================================== *)

(** [xs[n:]] and [xs[:n]] for a Python [int] [n]: a negative [n] counts
    from the end, and a bound outside the list is clipped. *)
Definition slice_from {A} (n : Z) (xs : list A) : list A :=
  if (0 <=? n)%Z then skipn (Z.to_nat n) xs
  else skipn (List.length xs - Z.to_nat (- n)) xs.

Definition slice_to {A} (n : Z) (xs : list A) : list A :=
  if (0 <=? n)%Z then firstn (Z.to_nat n) xs
  else firstn (List.length xs - Z.to_nat (- n)) xs.

(** [s + text] for a string [s] and the text of a comment. *)
Definition str_plus_text (s : string) (t : CommentText) : result CommentText :=
  match t with
  | TStr s' => Ok (TStr (s ++ s')%string)
  | TItems _ => Raise (TypeError "can only concatenate str (not list) to str")
  end.

(** [MFBlockHeader.set_number_of_variables(num_variables)]: the header is
    the state beside the world. The right-hand side of the first
    assignment is evaluated before its target. *)
Definition MFBlockHeader_set_number_of_variables (num_variables : Z)
    : M (MFBlockHeader * World) unit :=
  h <- self ;;
  let moved := join " " (slice_from num_variables (bh_variable_strings h)) in
  c <- in_world (MFBlockHeader_get_comment h) ;;
  t <- in_world (comment_text c) ;;
  text <- lift_result (str_plus_text moved t) ;;
  c <- in_world (MFBlockHeader_get_comment h) ;;
  in_world (comment_set_text c text) ;;;
  update_self (fun h =>
    {| bh_name := bh_name h;
       bh_variable_strings := slice_to num_variables (bh_variable_strings h);
       bh_comment := bh_comment h; bh_comment_path := bh_comment_path h;
       bh_data_items := bh_data_items h |}).

Section BuildData.

Context (X : Externals).

(** The package as its blocks see it ([_container_package]): the schema's
    [read_as_arrays], and the attributes [auxiliary] and [aux] of the
    package class, which are given here. *)
Definition container_of (p : MFPackage) (auxiliary_data : option (list (list string)))
    (aux_structure : MFDataStructure) : ContainerPackage :=
  {| cp_read_as_arrays := ps_read_as_arrays (pk_structure p);
     cp_auxiliary_data := auxiliary_data;
     cp_aux_structure := aux_structure |}.

(** The loop of [build_mfdata] over [self.structure.blocks.items()]: the
    first block of the schema that has the variable gets the dataset. The
    block is made when [self.blocks] has none of its name; its path ends in
    the key of the schema, and it is stored under the name of its
    structure. [None] when no block has the variable. *)
Fixpoint build_in (blocks : list (string * MFBlockStructure)) (var_name : string)
    (data : PyVal) (model_type : string) (auxiliary_data : option (list (list string)))
    (aux_structure : MFDataStructure)
    : M (MFPackage * World) (option (option MFData)) :=
  match blocks with
  | [] => ret None
  | (key, block) :: rest =>
      match assoc_lookup String.eqb var_name (bs_data_structures block) with
      | Some dataset_struct =>
          p <- self ;;
          (if blocks_mem (bs_name block) p then ret tt
           else
             b <- in_world (MFBlock_init block (pk_path p ++ [SegS key]) model_type
                              (Some (container_of p auxiliary_data aux_structure))) ;;
             update_self (fun p =>
               set_pk_blocks (assoc_set String.eqb (bs_name block) b (pk_blocks p)) p)) ;;;
          let var_path := pk_path p ++ [SegS key; SegS var_name] in
          d <- on_block (bs_name block) (MFBlock_add_dataset X dataset_struct data var_path) ;;
          ret (Some d)
      | None => build_in rest var_name data model_type auxiliary_data aux_structure
      end
  end.

(** [build_mfdata(var_name, data=None)]. *)
Definition MFPackage_build_mfdata (var_name : string) (data : PyVal) (model_type : string)
    (auxiliary_data : option (list (list string))) (aux_structure : MFDataStructure)
    : M (MFPackage * World) (option MFData) :=
  p <- self ;;
  found <- build_in (ps_blocks (pk_structure p)) var_name data model_type
             auxiliary_data aux_structure ;;
  match found with
  | Some d => ret d
  | None =>
      raise (MFDataException
               ("Unable to find variable " ++ dq ++ var_name ++ dq ++ " in package "
                ++ dq ++ pk_package_type p ++ dq ++ ".")%string)
  end.

End BuildData.

(* ================================================================== *)
(** ** Predicates of the further statements *)
(* ================================================================== *)

(** The entry of a header line starts the comment: [is_comment] accepts its
    first character. *)
Definition opens_comment (X : Externals) (entry : string) : bool :=
  match entry with
  | String c _ => is_comment X (CA_str (String c EmptyString)) false
  | EmptyString => false
  end.

(** The entries before the first one that starts the comment, and the
    entries from that one on. *)
Fixpoint before_comment (X : Externals) (entries : list string) : list string :=
  match entries with
  | [] => []
  | e :: rest => if opens_comment X e then [] else e :: before_comment X rest
  end.

Fixpoint from_comment (X : Externals) (entries : list string) : list string :=
  match entries with
  | [] => []
  | e :: rest => if opens_comment X e then entries else from_comment X rest
  end.

(** The entries in one string, a blank before each. *)
Fixpoint blank_before_each (entries : list string) : string :=
  match entries with
  | [] => EmptyString
  | e :: rest => (" " ++ e ++ blank_before_each rest)%string
  end.

(** The world with one more comment object. *)
Definition with_comment (t : CommentText) (w : World) : World :=
  set_w_comments (w_comments w ++ [{| c_text := t |}]) w.

(** The block is not a required block that is missing: it has no
    non-optional data, it is enabled, or its activation rule does not hold. *)
Definition not_missing (X : Externals) (w : World) (b : MFBlock) : Prop :=
  bs_number_non_optional_data (b_structure b) = 0 \/
  b_enabled b = true \/
  MFBlock_is_allowed X b w = Ok false.

(** The entry of [datasets] is a dataset that does not report data. *)
Definition without_data (X : Externals) (kv : Seg * option MFData) : Prop :=
  exists d, snd kv = Some d /\ data_has_data X d <> Some true.

(** A dataset that must be there. *)
Definition required_scalar (name : string) : MFDataStructure :=
  {| ds_name := name; ds_type := "integer"; ds_optional := false;
     ds_datatype := dt_scalar;
     ds_data_item_structures :=
       [{| dis_name := name; dis_type := "integer"; dis_type_obj := ty_int |}];
     ds_record_size := [1%Z]; ds_keywords := [KTuple [name]];
     ds_keyword := Some (KTuple [name]);
     ds_file_data := false; ds_first_non_keyword_index := Some 0 |}.

(** An enabled block whose required dataset is switched off. *)
Definition block_with_disabled_data : MFBlock :=
  {| b_structure := plain_block_structure "dimensions" [required_scalar "nper"] [] 1;
     b_path := [SegS "sim"; SegS "dis"; SegS "dimensions"];
     b_block_headers := [parsed_header "dimensions" []];
     b_datasets :=
       [(SegS "nper",
         Some (new_data MFScalar (required_scalar "nper") VNone false
                 [SegS "sim"; SegS "dis"; SegS "dimensions"; SegS "nper"]))];
     b_datasets_keyword := [(KTuple ["nper"], required_scalar "nper")];
     b_blk_trailing_comment_path :=
       [SegS "sim"; SegS "dis"; SegS "dimensions"; SegS "blk_trailing_comment"];
     b_blk_post_comment_path :=
       [SegS "sim"; SegS "dis"; SegS "dimensions"; SegS "blk_post_comment"];
     b_enabled := true; b_loaded := true; b_external_file_name := None;
     b_container_package := Some plain_container; b_model_type := "gwf" |}.

(** The keys [_header_exists(key)] compares with: the items of a list, or
    the key itself. *)
Definition comp_keys (key : PyVal) : list PyVal :=
  match key with VList xs => xs | _ => [key] end.

(** The transient keys of the block's headers, in order, are [keys]:
    [get_transient_key()] raises for none of them. *)
Definition header_keys (X : Externals) (b : MFBlock) (keys : list PyVal) : Prop :=
  map (MFBlockHeader_get_transient_key X) (b_block_headers b) = map (@Ok PyVal) keys.

(** The data item is a dataset of type [keyword]. *)
Definition keyword_item (o : option MFData) : Prop :=
  exists d, o = Some d /\ ds_type (d_structure d) = "keyword".

(** [for keyword in s.get_keywords(): datasets_keyword[keyword] = s], on
    the dictionary. *)
Definition with_keywords_of (s : MFDataStructure) (kw : list (PyKey * MFDataStructure))
    : list (PyKey * MFDataStructure) :=
  fold_left (fun acc keyword => assoc_set PyKey_eqb keyword s acc) (ds_keywords s) kw.

(** The dataset structures of a block's schema: those of its datasets and
    those of its header variables. *)
Definition structures_of (st : MFBlockStructure) : list MFDataStructure :=
  map snd (bs_data_structures st) ++ bs_block_header_structure st.

(** The store has at [path] a comment object with the text [t]. *)
Definition comment_at (path : Path) (t : CommentText) (w : World) : Prop :=
  exists c, assoc_lookup Path_eqb path (w_mfdata w) = Some (SComment c)
            /\ nth_error (w_comments w) c = Some {| c_text := t |}.

(** [w'] is [w] with more comment objects and another store; the comment
    objects of [w], the files and the output are as in [w]. *)
Definition more_comments (w w' : World) : Prop :=
  (exists extra, w_comments w' = w_comments w ++ extra) /\
  w_files w' = w_files w /\ w_disk w' = w_disk w /\
  w_stdout w' = w_stdout w /\ w_calls w' = w_calls w.

(** The world after [mfdata[path] = MFComment(t, ...)]. *)
Definition with_stored_comment (path : Path) (t : CommentText) (w : World) : World :=
  set_w_mfdata
    (assoc_set Path_eqb path (SComment (List.length (w_comments w))) (w_mfdata w))
    (with_comment t w).

(** The world after [if not path in mfdata: mfdata[path] = MFComment(t, ...)]. *)
Definition ensure_comment (path : Path) (t : CommentText) (w : World) : World :=
  if assoc_mem Path_eqb path (w_mfdata w) then w else with_stored_comment path t w.

(** The comment of the header is the comment object [c]: the header's own,
    or, for a header connected to the store, the one the store has at the
    header's comment path. *)
Definition header_comment (h : MFBlockHeader) (w : World) (c : nat) : Prop :=
  match bh_comment_path h with
  | None => bh_comment h = Some c
  | Some p => assoc_lookup Path_eqb p (w_mfdata w) = Some (SComment c)
  end.

(** The text of the comment object [c]. *)
Definition text_of (c : nat) (w : World) : option CommentText :=
  option_map c_text (nth_error (w_comments w) c).

(** The file object [fd] is open and has the lines [lines] left to read. *)
Definition unread_lines (fd : nat) (lines : list string) (w : World) : Prop :=
  exists f, nth_error (w_files w) fd = Some f /\ f_closed f = false /\ f_unread f = lines.

(** [load] goes on after its two tests of the header: the header has
    tokens enough, and the block was not loaded before or none of its
    headers is the same header. *)
Definition header_accepted (b : MFBlock) (block_header : MFBlockHeader) : Prop :=
  bs_number_non_optional_block_header_data (b_structure b)
  <= List.length (bh_variable_strings block_header) /\
  (b_loaded b = false \/
   same_header_in (b_block_headers b) block_header = Ok false).

(** A block without header variables in a package that does not read
    arrays as arrays. *)
Definition plain_block (b : MFBlock) : Prop :=
  bs_block_header_structure (b_structure b) = [] /\
  exists cp, b_container_package b = Some cp /\ cp_read_as_arrays cp = false.

(** A world in which the file [model.wel], which is empty, is open for
    reading. *)
Definition at_end_of_file : World :=
  snd (open_r "model.wel" (with_file "model.wel" [] empty_world)).

(** [len(clean_line) > 4 and clean_line[:5].upper() == 'BEGIN']. *)
Definition begins_block (clean_line : string) : bool :=
  Nat.ltb 4 (String.length clean_line)
  && String.eqb (upper (prefix_of 5 clean_line)) "BEGIN".

(** The line, as [readline] gave it, starts no block for [_load_blocks]:
    it is comment text, or it does not start with [BEGIN]. *)
Definition starts_no_block (X : Externals) (line : string) : Prop :=
  is_comment X (CA_str (strip line)) true = true \/ begins_block (strip line) = false.

(** Whether [_load_blocks] stores a line that starts no block: comment
    text is stored, and so is other text unless the line is blank or
    starts with [END]. *)
Definition stored_line (X : Externals) (line : string) : bool :=
  if is_comment X (CA_str (strip line)) true then true
  else negb (Nat.eqb (String.length (strip line)) 0
             || (Nat.ltb 2 (String.length line) && is_END line)).

(** The lines of a file that [_load_blocks] stores, each with its newline,
    in one string. *)
Fixpoint stored_text (X : Externals) (lines : list string) : string :=
  match lines with
  | [] => EmptyString
  | l :: rest =>
      ((if stored_line X (l ++ nl) then l ++ nl else EmptyString)
       ++ stored_text X rest)%string
  end.

(** The block of the schema has no dataset of that name. *)
Definition lacks_variable (var_name : string) (kv : string * MFBlockStructure) : Prop :=
  assoc_lookup String.eqb var_name (bs_data_structures (snd kv)) = None.

(** The first block of the package's schema that has a dataset named
    [var_name] is [st], under the key [key], and [s] is the structure of
    the dataset. *)
Definition first_block_with (p : MFPackage) (var_name key : string)
    (st : MFBlockStructure) (s : MFDataStructure) : Prop :=
  exists pre post,
    ps_blocks (pk_structure p) = pre ++ (key, st) :: post /\
    Forall (lacks_variable var_name) pre /\
    assoc_lookup String.eqb var_name (bs_data_structures st) = Some s.

(** The package has, under [name], a block in which the dataset
    [var_name] is [d] and the datasets of other names are those of
    [before]. *)
Definition block_with_dataset (p : MFPackage) (name var_name : string)
    (d : option MFData) (before : list (Seg * option MFData)) : Prop :=
  exists b,
    assoc_lookup String.eqb name (pk_blocks p) = Some b /\
    assoc_lookup Seg_eqb (SegS var_name) (b_datasets b) = Some d /\
    forall other, other <> SegS var_name ->
                  assoc_lookup Seg_eqb other (b_datasets b) = assoc_lookup Seg_eqb other before.

(** The datasets of the package's block [name]; none when the package has
    no such block. *)
Definition datasets_of_block (p : MFPackage) (name : string) : list (Seg * option MFData) :=
  match assoc_lookup String.eqb name (pk_blocks p) with
  | Some b => b_datasets b
  | None => []
  end.

(** A package with the schema of a well package and no block yet. *)
Definition wel_package : MFPackage := package_of "wel" "model.wel" wel_structure [].

(** The variable a block's activation rule depends on, as [is_allowed]
    finds it: the rule's path, of three segments at most, is completed to
    four segments with the first segments of the block's path and looked up
    in the store; a longer path finds nothing. *)
Definition dependant_variable (b : MFBlock) (w : World) : option StoreObj :=
  let vdp := bs_variable_dependant_path (b_structure b) in
  if Nat.leb (List.length vdp) 3
  then assoc_lookup Path_eqb
         (firstn (4 - List.length vdp) (b_path b) ++ map SegS vdp) (w_mfdata w)
  else None.

(** The truth value of that variable; false when there is none. *)
Definition dependant_truth (X : Externals) (b : MFBlock) (w : World) : bool :=
  match dependant_variable b w with
  | Some o => store_truthy X o
  | None => false
  end.

(** The block has an activation rule whose path can be completed from the
    block's path. *)
Definition has_rule (b : MFBlock) : Prop :=
  bs_variable_dependant_path (b_structure b) <> [] /\
  (4 - List.length (bs_variable_dependant_path (b_structure b)) <= List.length (b_path b)
   \/ 3 < List.length (bs_variable_dependant_path (b_structure b))).

(** A block that is active when the variable [save_flows] of its package's
    options exists. *)
Definition ruled_block (value : string) : MFBlock :=
  {| b_structure :=
       {| bs_name := "budget"; bs_data_structures := [];
          bs_block_header_structure := []; bs_number_non_optional_data := 1;
          bs_number_non_optional_block_header_data := 0; bs_repeating := false;
          bs_all_recarrays := [];
          bs_variable_dependant_path := ["options"; "save_flows"];
          bs_variable_value_when_active := ["Exists"; value] |};
     b_path := [SegS "sim"; SegS "oc"; SegS "budget"];
     b_block_headers := [parsed_header "budget" []];
     b_datasets := []; b_datasets_keyword := [];
     b_blk_trailing_comment_path :=
       [SegS "sim"; SegS "oc"; SegS "budget"; SegS "blk_trailing_comment"];
     b_blk_post_comment_path :=
       [SegS "sim"; SegS "oc"; SegS "budget"; SegS "blk_post_comment"];
     b_enabled := false; b_loaded := false; b_external_file_name := None;
     b_container_package := Some plain_container; b_model_type := "gwf" |}.

(** The warning of [_load_blocks] for another entry of a block that does
    not repeat. *)
Definition multiple_entries_warning (name package_type : string) : string :=
  ("WARNING: Block " ++ dq ++ name ++ dq
   ++ " has multiple entries and is not intended to be a repeating block ("
   ++ package_type ++ " package)")%string.

(** The package has loaded its block of that name, in lower case, the
    schema says the block does not repeat, and the package has no numbered
    block of that name. *)
Definition loaded_once (p : MFPackage) (name : string) : Prop :=
  blocks_mem (lower name ++ "-1")%string p = false /\
  (exists block, assoc_lookup String.eqb (lower name) (pk_blocks p) = Some block
                 /\ b_loaded block = true) /\
  (exists s, assoc_lookup String.eqb (lower name) (ps_blocks (pk_structure p)) = Some s
             /\ bs_repeating s = false).

(** A recharge package that has loaded its options. *)
Definition options_package : MFPackage :=
  package_of "rch" "model.rch"
    {| ps_blocks := [("options", options_structure)]; ps_read_as_arrays := false;
       ps_file_type := "rch" |}
    [("options", set_b_loaded true options_block)].

(** The line, as [readline] gave it, ends the body of a block for [load]:
    it is no comment text, and its first token has more than two characters
    and starts with [END]. *)
Definition ends_block (X : Externals) (line : string) : Prop :=
  is_comment X (CA_str line) true = false /\
  exists first more, split_data_line X line = first :: more /\ starts_END first = true.

(** The outcome of a call whose value is dropped. *)
Definition dropped {A} (r : result A) : result unit :=
  match r with
  | Ok _ => Ok tt
  | Raise e => Raise e
  | Timeout => Timeout
  end.

(** A world in which the options block was made and the file [model.rch],
    whose one line ends the block, is open for reading. *)
Definition at_end_of_options : World :=
  snd (open_r "model.rch"
         (with_file "model.rch" ["END options"]
            (snd (build_block options_structure
                    [SegS "sim"; SegS "rch"; SegS "options"] empty_world)))).








(** [b'] is [b] after loaders ran on some of its datasets: the datasets
    are under the same names with the same structures and paths, and the
    rest of the block that the scan of a line looks at is the same. *)
Definition reloaded (b b' : MFBlock) : Prop :=
  b_structure b' = b_structure b /\ b_path b' = b_path b /\
  b_datasets_keyword b' = b_datasets_keyword b /\
  b_container_package b' = b_container_package b /\
  forall name d,
    assoc_lookup Seg_eqb name (b_datasets b) = Some (Some d) ->
    exists d', assoc_lookup Seg_eqb name (b_datasets b') = Some (Some d')
               /\ d_structure d' = d_structure d /\ d_path d' = d_path d.














(** The data [build_header_variables] hands to [data_factory] for a header
    of the key [k]: one row, the name of the first data item first when that
    item is a keyword. *)
Definition header_row (s0 : MFDataStructure) (k : PyVal) : PyVal :=
  VList [VTuple ((match ds_data_item_structures s0 with
                  | dis0 :: _ =>
                      if String.eqb (dis_type dis0) "keyword"
                      then [VStr (dis_name dis0)] else []
                  | [] => []
                  end) ++ [k])].

(** The header variable [s0] built for the key [k] reports that key: the
    key is a value of its own (not [None], a list or a recarray), the
    variable is of a kind [data_factory] knows and is no keyword, and
    [get_data()] of the dataset made of the row of [k] returns [k]. *)
Definition key_is_reported (X : Externals) (s0 : MFDataStructure) (k : PyVal) : Prop :=
  k <> VNone /\ (forall xs, k <> VList xs) /\
  (forall rows, k <> VRecarray rows) /\
  supported_kind (ds_datatype s0) = true /\ ds_type s0 <> "keyword" /\
  forall path d,
    MFBlock_data_factory s0 true path (header_row s0 k) = Some d ->
    data_get_data X d = k.

(** The loaded [period] block after [_build_repeating_header] was called
    with the key 5, which has no header. *)
Definition period_5_added : result unit * (MFBlock * World) :=
  MFBlock__build_repeating_header spec_externals [VInt 5]
    (period_block_loaded, empty_world).
(* ================================================================== *)
(** ** Properties *)
(* ================================================================== *)

(** *** The dataset factory *)

(** C8 (counterexample): for a schema node of an unsupported kind
    [data_factory] raises nothing; it returns [None]. *)
Lemma data_factory_odd_kind_returns_None :
  supported_kind (ds_datatype odd_kind) = false /\
  MFBlock_data_factory odd_kind true [SegS "sim"; SegS "odd"] VNone = None.
Proof. split; reflexivity. Qed.

Lemma data_factory_supported (s : MFDataStructure) (enable : bool) (path : Path) (data : PyVal) :
  supported_kind (ds_datatype s) = true ->
  exists d, MFBlock_data_factory s enable path data = Some d
            /\ d_structure d = s /\ d_enabled d = enable /\ d_path d = path.
Proof.
  unfold MFBlock_data_factory.
  destruct (ds_datatype s); simpl; intros H; try discriminate;
    try (destruct (is_none data)); eexists; repeat split; reflexivity.
Qed.

(** C8 (amended): [data_factory] returns a dataset exactly for the kinds it
    has a branch for; for every other kind it returns [None], and it never
    raises. *)
Theorem data_factory_None_iff_unsupported
    (s : MFDataStructure) (enable : bool) (path : Path) (data : PyVal) :
  MFBlock_data_factory s enable path data = None <->
  supported_kind (ds_datatype s) = false.
Proof.
  split.
  - intros H. destruct (supported_kind (ds_datatype s)) eqn:E; [|reflexivity].
    destruct (data_factory_supported s enable path data E) as (d & Hd & _).
    congruence.
  - unfold MFBlock_data_factory. destruct (ds_datatype s); simpl; intros H;
      try discriminate; reflexivity.
Qed.

(** *** Header comparison *)

(** C3 (counterexample): a header with no data items, and a header whose
    first argument is a string, are both reported as duplicates of a header
    with another token. *)
Lemma is_same_header_untyped_or_text_is_duplicate :
  MFBlockHeader_is_same_header (parsed_header "options" ["a"]) (parsed_header "options" ["b"])
    = Ok true /\
  MFBlockHeader_is_same_header (labelled_header "north") (labelled_header "south") = Ok true.
Proof. split; reflexivity. Qed.

Lemma numeric_type_cases (t : PyType) :
  (PyType_eqb t ty_int || PyType_eqb t ty_float = true
   /\ (t = ty_int \/ t = ty_float))
  \/ (PyType_eqb t ty_int || PyType_eqb t ty_float = false
      /\ t <> ty_int /\ t <> ty_float).
Proof. destruct t; simpl; [left|left|right|right]; intuition discriminate. Qed.

(** C3 (amended): [is_same_header] answers "not a duplicate" exactly when
    the first argument is numeric and the two first raw tokens differ; it
    answers "duplicate" when the header has no data items, when the other
    header has no raw tokens, when the first argument is typed and not
    numeric, and when it is numeric and the first raw tokens are equal. *)
Theorem is_same_header_answers (self_ other : MFBlockHeader) :
  (MFBlockHeader_is_same_header self_ other = Ok false <->
     numeric_first_argument self_ /\
     exists s t, first_token self_ s /\ first_token other t /\ s <> t)
  /\
  (MFBlockHeader_is_same_header self_ other = Ok true <->
     bh_data_items self_ = [] \/ bh_variable_strings other = [] \/
     other_first_argument self_ \/
     (numeric_first_argument self_ /\
      exists s, first_token self_ s /\ first_token other s)).
Proof.
  unfold MFBlockHeader_is_same_header, numeric_first_argument, other_first_argument,
    first_token.
  destruct (bh_data_items self_) as [|[d|] items] eqn:Ed;
    [ | destruct (bh_variable_strings other) as [|t ts] eqn:Eo;
        [ | destruct (ds_data_item_structures (d_structure d)) as [|dis diss] eqn:Es;
            [ | destruct (numeric_type_cases (dis_type_obj dis)) as [[Hb Hn]|[Hb [Hi Hf]]];
                rewrite Hb;
                [ destruct (bh_variable_strings self_) as [|s ss] eqn:Ev;
                  [ | destruct (String.eqb_spec s t) as [->|Hne] ] | ] ] ]
    | destruct (bh_variable_strings other) as [|t ts] eqn:Eo ].
  all: split; split; intros H; break_hyps; auto.
  all: try (rewrite Es in *; break_hyps).
  all: try solve [right; right; right; split;
                  [exists d, items, dis, diss; auto
                  | eexists; split; eexists; reflexivity]].
  all: try solve [split;
                  [exists d, items, dis, diss; auto
                  | exists s, t; repeat split; try (eexists; reflexivity); assumption]].
  all: try solve [right; right; left; exists d, items, dis, diss; auto].
Qed.

(** *** Validity of a block *)

Lemma datasets_check_None_or_False (datasets : list (Seg * option MFData))
    (v : option bool) :
  datasets_check datasets = Ok v -> v = None \/ v = Some false.
Proof.
  induction datasets as [|[k [d|]] rest IH]; simpl; intros H.
  - inversion H; auto.
  - destruct (negb (ds_optional (d_structure d)) && negb (d_enabled d)).
    + inversion H; auto.
    + rewrite andb_false_r in H. auto.
  - discriminate.
Qed.

Lemma data_items_check_None_or_False (X : Externals) (items : list (option MFData))
    (v : option bool) :
  data_items_check X items = Ok v -> v = None \/ v = Some false.
Proof.
  induction items as [|[d|] rest IH]; simpl; intros H.
  - inversion H; auto.
  - destruct (negb (ds_optional (d_structure d)) && negb (d_enabled d)).
    + inversion H; auto.
    + destruct (d_enabled d && negb (data_is_valid X d)).
      * inversion H; auto.
      * auto.
  - discriminate.
Qed.

Lemma headers_check_None_or_False (X : Externals) (headers : list MFBlockHeader)
    (v : option bool) :
  headers_check X headers = Ok v -> v = None \/ v = Some false.
Proof.
  induction headers as [|h rest IH]; simpl; intros H.
  - inversion H; auto.
  - destruct (data_items_check X (bh_data_items h)) as [[u|]| |] eqn:E;
      try discriminate; auto.
    inversion H; subst. apply (data_items_check_None_or_False _ _ E).
Qed.

Lemma MFBlock_is_valid_None_or_False (X : Externals) (b : MFBlock) (v : option bool) :
  MFBlock_is_valid X b = Ok v -> v = None \/ v = Some false.
Proof.
  unfold MFBlock_is_valid.
  destruct (datasets_check (b_datasets b)) as [[u|]| |] eqn:E; intros H;
    try discriminate.
  - inversion H; subst. apply (datasets_check_None_or_False _ E).
  - apply (headers_check_None_or_False _ _ H).
Qed.

Lemma datasets_check_all_enabled (X : Externals) (datasets : list (Seg * option MFData)) :
  Forall (fun kv => enabled_and_valid X (snd kv)) datasets ->
  datasets_check datasets = Ok None.
Proof.
  induction 1 as [|[k d] rest H _ IH]; simpl; [reflexivity|].
  simpl in H. destruct H as (d' & -> & He & _).
  rewrite He. simpl. rewrite andb_false_r. exact IH.
Qed.

Lemma data_items_check_all_enabled (X : Externals) (items : list (option MFData)) :
  Forall (enabled_and_valid X) items -> data_items_check X items = Ok None.
Proof.
  induction 1 as [|d rest (d' & -> & He & Hv) _ IH]; simpl; [reflexivity|].
  rewrite He, Hv. simpl. rewrite andb_false_r. exact IH.
Qed.

Lemma headers_check_all_enabled (X : Externals) (headers : list MFBlockHeader) :
  Forall (fun h => Forall (enabled_and_valid X) (bh_data_items h)) headers ->
  headers_check X headers = Ok None.
Proof.
  induction 1 as [|h rest Hh _ IH]; simpl; [reflexivity|].
  rewrite (data_items_check_all_enabled Hh). exact IH.
Qed.

(** C10: for a block in which every dataset and every header data item is
    enabled and valid, [MFBlock.is_valid()] returns [None]; and for any
    block at all it never returns [True]: whatever it returns is false when
    tested for truth. *)
Theorem MFBlock_is_valid_returns_None (X : Externals) (b : MFBlock) :
  all_enabled_and_valid X b ->
  MFBlock_is_valid X b = Ok None /\
  (forall b', MFBlock_is_valid X b' <> Ok (Some true)) /\
  (forall b' v, MFBlock_is_valid X b' = Ok v -> truthy v = false).
Proof.
  intros [Hd Hh]. repeat split.
  - unfold MFBlock_is_valid.
    rewrite (datasets_check_all_enabled Hd). apply (headers_check_all_enabled Hh).
  - intros b' H. destruct (MFBlock_is_valid_None_or_False _ _ H); discriminate.
  - intros b' v H. destruct (MFBlock_is_valid_None_or_False _ _ H); subst; reflexivity.
Qed.

(** A witness of C10: the loaded [period] block. *)
Lemma MFBlock_is_valid_returns_None_witness :
  MFBlock_is_valid spec_externals period_block_loaded = Ok None /\
  (forall b', MFBlock_is_valid spec_externals b' <> Ok (Some true)) /\
  (forall b' v, MFBlock_is_valid spec_externals b' = Ok v -> truthy v = false).
Proof.
  apply (@MFBlock_is_valid_returns_None spec_externals period_block_loaded).
  split.
  - constructor.
  - repeat constructor; eexists; repeat split; reflexivity.
Defined.

(** *** Abandoned loads *)

Lemma same_header_in_found (hdr : MFBlockHeader)
    (before : list MFBlockHeader) (h : MFBlockHeader) (after : list MFBlockHeader) :
  Forall (fun h' => MFBlockHeader_is_same_header h' hdr = Ok false) before ->
  MFBlockHeader_is_same_header h hdr = Ok true ->
  same_header_in (before ++ h :: after) hdr = Ok true.
Proof.
  intros Hb Hh. induction Hb as [|h' rest Hf _ IH]; simpl.
  - rewrite Hh. reflexivity.
  - rewrite Hf. exact IH.
Qed.

(** C4: when the header is short of raw tokens, or the block was loaded
    before and the scan of its headers finds a duplicate of the new header,
    [load] returns normally, having printed one warning and nothing else:
    the block is the block it was (headers, datasets, keywords, [enabled],
    [loaded], external file name), no file was read, and the store is
    untouched. *)
Theorem load_abandons (X : Externals) (fuel : nat) (b : MFBlock)
    (block_header : MFBlockHeader) (fd : nat) (w : World) :
  short_header b block_header \/ duplicate_found b block_header ->
  exists warning,
    MFBlock_load X fuel block_header fd (b, w) = (Ok tt, (b, printed warning w)).
Proof.
  intros H. unfold MFBlock_load, bind, self, gets. simpl.
  destruct (Nat.ltb (List.length (bh_variable_strings block_header))
              (bs_number_non_optional_block_header_data (b_structure b))) eqn:Es.
  - eexists. reflexivity.
  - destruct H as [H | (Hl & before & h & after & Hb & Hf & Hh)].
    + apply Nat.ltb_lt in H. congruence.
    + rewrite Hl, Hb, (@same_header_in_found block_header before h after Hf Hh). simpl.
      eexists. reflexivity.
Qed.

(** A witness of C4: period 2 comes again for the loaded [period] block. *)
Lemma load_abandons_witness :
  exists warning,
    MFBlock_load spec_externals 10 (parsed_header "period" ["2"]) 0
      (period_block_loaded, empty_world)
    = (Ok tt, (period_block_loaded, printed warning empty_world)).
Proof.
  apply (@load_abandons spec_externals 10 period_block_loaded
           (parsed_header "period" ["2"]) 0 empty_world).
  right. split; [reflexivity|].
  exists [period_header "1" 0], (period_header "2" 1), [].
  split; [reflexivity|]. split; [|reflexivity].
  constructor; [reflexivity|constructor].
Defined.

(** *** Validity of a package *)

Lemma blocks_valid_never_False (X : Externals) (blocks : list (string * MFBlock))
    (s : MFPackage * World) :
  fst (blocks_valid X blocks s) <> Ok false.
Proof.
  induction blocks as [|[key block] rest IH]; simpl.
  - discriminate.
  - unfold bind, gets, lift_result, ret. simpl.
    destruct (Nat.ltb 0 (bs_number_non_optional_data (b_structure block))
              && negb (b_enabled block)).
    + destruct (MFBlock_is_allowed X block (snd s)) as [[|]| |]; simpl;
        try discriminate.
      rewrite andb_false_r. apply IH.
    + simpl. rewrite andb_false_r. apply IH.
Qed.

(** [MFPackage.is_valid()] never returns [False]: each [return False] of the
    source comes after [block.block_header.name], which raises, and the test
    before the second one reads the method [block.is_valid] without calling
    it. *)
Lemma MFPackage_is_valid_never_False (X : Externals) (s : MFPackage * World) :
  fst (MFPackage_is_valid X s) <> Ok false.
Proof.
  unfold MFPackage_is_valid, bind, self, gets. simpl. apply blocks_valid_never_False.
Qed.

(** C1 (the code at the failing input): the package has a block with a
    non-optional dataset that is switched off and allowed; [is_valid()]
    raises [AttributeError] where the claim has it return [False], and
    [write] raises the same error, not a write exception, after it opened
    the package file, which it leaves open. *)
Theorem MFPackage_is_valid_raises_when_block_off :
  (exists block,
      assoc_lookup String.eqb "dimensions" (pk_blocks (fst switched_off)) = Some block /\
      bs_number_non_optional_data (b_structure block) = 1 /\
      b_enabled block = false /\
      MFBlock_is_allowed spec_externals block (snd switched_off) = Ok true) /\
  fst (MFPackage_is_valid spec_externals switched_off)
    = Raise (AttributeError "MFBlock" "block_header") /\
  fst (MFPackage_write spec_externals copy_relative_paths switched_off)
    = Raise (AttributeError "MFBlock" "block_header") /\
  files_closed (snd (snd (MFPackage_write spec_externals copy_relative_paths switched_off)))
    = [("model.dis", false)].
Proof.
  split; [|vm_compute; repeat split; reflexivity].
  eexists. split; [vm_compute; reflexivity|]. vm_compute. repeat split; reflexivity.
Qed.

(** *** Keys of repeating blocks *)

(** C7 (the code at the failing input): a file with the stress periods [1]
    and [01] loads without a warning; the repeating block then has two
    headers, and both report the transient key 0, a key
    [_header_exists] finds. *)
Theorem load_keeps_two_headers_of_one_key :
  fst two_periods_loaded = Ok true /\
  w_stdout (snd (snd two_periods_loaded)) = [] /\
  exists block,
    block_of "period" two_periods_loaded = Some block /\
    bs_repeating (b_structure block) = true /\
    map bh_variable_strings (b_block_headers block) = [["1"]; ["01"]] /\
    transient_keys spec_externals block = [Ok (VInt 0); Ok (VInt 0)] /\
    MFBlock__header_exists spec_externals block (VInt 0) = Ok true.
Proof.
  split; [vm_compute; reflexivity|]. split; [vm_compute; reflexivity|].
  eexists. split; [vm_compute; reflexivity|]. vm_compute. repeat split; reflexivity.
Qed.

(** *** External files *)

(** C9 (the code at the failing input): after a block that reads its
    contents from [sub.txt] was loaded, the package file is closed and the
    file object of [sub.txt] is still open. Writing closes the external file
    it opens when nothing raises; when a dataset's [get_file_entry] raises,
    the external file it opened stays open too. *)
Theorem load_leaves_external_file_open :
  fst external_loaded = Ok true /\
  files_closed (snd (snd external_loaded)) = [("model.dis", true); ("sub.txt", false)] /\
  fst (external_written spec_externals) = Ok tt /\
  files_closed (snd (snd (external_written spec_externals)))
    = [("model.dis", true); ("sub.txt", false); ("model.dis", true); ("sub.txt", true)] /\
  fst (external_written raising_externals) = Raise (MFDataException "get_file_entry") /\
  files_closed (snd (snd (external_written raising_externals)))
    = [("model.dis", true); ("sub.txt", false); ("model.dis", false); ("sub.txt", false)].
Proof. vm_compute. repeat split; reflexivity. Qed.

(** *** The read-as-arrays guard *)


Lemma index_last_snoc {A} (what : string) (xs : list A) (x : A) :
  index_last what (xs ++ [x]) = Ok x.
Proof. unfold index_last. rewrite rev_app_distr. reflexivity. Qed.


(** *** Keywords and comments of a block of several datasets *)






(** *** The one-based header key *)

(** [str(z)] has no blanks and [int(str(z))] is [z]. *)
Lemma digits_no_blank (d : Decimal.uint) : no_blank (NilEmpty.string_of_uint d) = true.
Proof. induction d; simpl; auto. Qed.

Lemma str_of_int_no_blank (z : Z) : no_blank (str_of_int z) = true.
Proof.
  unfold str_of_int, NilZero.string_of_int, NilZero.string_of_uint.
  destruct (Z.to_int z) as [d|d]; destruct d; simpl; auto using digits_no_blank.
Qed.

Lemma str_of_int_nonempty (z : Z) : str_of_int z <> EmptyString.
Proof.
  unfold str_of_int, NilZero.string_of_int, NilZero.string_of_uint.
  destruct (Z.to_int z) as [d|d]; destruct d; simpl; discriminate.
Qed.

Lemma rstrip_no_blank (s : string) :
  no_blank s = true -> s <> EmptyString -> rstrip (s ++ nl)%string = s.
Proof.
  induction s as [|c s IH]; intros Hb Hne; [congruence|].
  simpl in Hb. apply andb_true_iff in Hb. destruct Hb as [Hc Hs].
  apply negb_true_iff in Hc.
  destruct s as [|c' s'].
  - simpl. rewrite Hc. reflexivity.
  - change (rstrip ((String c (String c' s')) ++ nl)%string)
      with (match rstrip (String c' s' ++ nl)%string with
            | EmptyString => if is_space c then EmptyString else String c EmptyString
            | r => String c r
            end).
    rewrite IH by (auto; discriminate). reflexivity.
Qed.

Lemma rstrip_entry (s : string) :
  no_blank s = true -> s <> EmptyString -> rstrip (" " ++ s ++ nl)%string = (" " ++ s)%string.
Proof.
  intros Hb Hne.
  change (rstrip (" " ++ s ++ nl)%string)
    with (match rstrip (s ++ nl)%string with
          | EmptyString => if is_space " " then EmptyString else String " " EmptyString
          | r => String " " r
          end).
  rewrite rstrip_no_blank by auto.
  destruct s; [congruence | reflexivity].
Qed.

Lemma rstrip_no_blank_id (s : string) : no_blank s = true -> rstrip s = s.
Proof.
  induction s as [|c s IH]; simpl; [reflexivity|].
  intros H. apply andb_true_iff in H. destruct H as [Hc Hs].
  rewrite (IH Hs). apply negb_true_iff in Hc. rewrite Hc.
  destruct s; reflexivity.
Qed.

Lemma strip_token (t : string) : no_blank t = true -> strip t = t.
Proof.
  intros H. unfold strip.
  assert (L : lstrip t = t).
  { destruct t as [|c t]; [reflexivity|]. simpl in *.
    apply andb_true_iff in H. destruct H as [Hc _].
    apply negb_true_iff in Hc. rewrite Hc. reflexivity. }
  rewrite L. apply rstrip_no_blank_id. exact H.
Qed.

Lemma digits_grouped (d : Decimal.uint) :
  digit_groups true (NilEmpty.string_of_uint d) = true.
Proof. induction d; simpl; auto. Qed.

Lemma digits_without_underscores (d : Decimal.uint) :
  without_underscores (NilEmpty.string_of_uint d) = NilEmpty.string_of_uint d.
Proof. induction d; simpl; congruence. Qed.

(** [int] reads the digits that [str] wrote. *)
Lemma py_digits_read (d : Decimal.uint) (negative : bool) :
  d <> Decimal.Nil ->
  (if digit_groups false (NilEmpty.string_of_uint d)
   then match NilEmpty.uint_of_string (without_underscores (NilEmpty.string_of_uint d)) with
        | Some d' => Some (if negative then Decimal.Neg d' else Decimal.Pos d')
        | None => None
        end
   else None)
  = Some (if negative then Decimal.Neg d else Decimal.Pos d).
Proof.
  intros Hn.
  assert (G : digit_groups false (NilEmpty.string_of_uint d) = true).
  { destruct d; try congruence; simpl; apply digits_grouped. }
  rewrite G, digits_without_underscores, NilEmpty.usu. reflexivity.
Qed.

Lemma py_int_str_of_int (z : Z) : py_int (str_of_int z) = Ok z.
Proof.
  unfold py_int. rewrite (@strip_token (str_of_int z) (str_of_int_no_blank z)).
  pose proof (DecimalZ.of_to z) as Hz.
  assert (Hn : forall d, Z.to_int z = Decimal.Pos d \/ Z.to_int z = Decimal.Neg d ->
                         d <> Decimal.Nil).
  { intros d H Hd. subst d. destruct z; simpl in H; destruct H as [H|H];
      try discriminate; inversion H as [H']; revert H';
      apply DecimalPos.Unsigned.to_uint_nonnil. }
  unfold str_of_int, NilZero.string_of_int, NilZero.string_of_uint.
  destruct (Z.to_int z) as [d|d] eqn:E.
  - pose proof (@py_digits_read d false (Hn d (or_introl eq_refl))) as R.
    destruct d; try (exfalso; apply (Hn _ (or_introl eq_refl)); reflexivity);
      cbn [Ascii.eqb Bool.eqb fst snd NilEmpty.string_of_uint] in *;
      match type of R with
      | (if ?g then _ else _) = _ =>
          destruct g; [|discriminate R];
          match type of R with
          | match ?u with Some _ => _ | None => _ end = _ =>
              destruct u; [|discriminate R]; injection R as R'; rewrite R', Hz;
              reflexivity
          end
      end.
  - pose proof (@py_digits_read d true (Hn d (or_intror eq_refl))) as R.
    assert (Hd : match d with
                 | Decimal.Nil => "0"
                 | _ => NilEmpty.string_of_uint d
                 end = NilEmpty.string_of_uint d).
    { destruct d; try reflexivity. exfalso. apply (Hn _ (or_intror eq_refl)). reflexivity. }
    rewrite Hd. cbn [Ascii.eqb Bool.eqb fst snd append].
    match type of R with
    | (if ?g then _ else _) = _ =>
        destruct g; [|discriminate R];
        match type of R with
        | match ?u with Some _ => _ | None => _ end = _ =>
            destruct u; [|discriminate R]; injection R as R'; rewrite R', Hz;
            reflexivity
        end
    end.
Qed.


Lemma nth_error_replace_nth {A} (l : list A) (n : nat) (x y : A) :
  nth_error l n = Some y -> nth_error (replace_nth n x l) n = Some x.
Proof.
  revert n; induction l as [|a l IH]; intros [|n]; simpl; try discriminate; auto.
Qed.

Lemma written_more_nil (f : File) : f_closed f = false -> written_more f [] = f.
Proof. destruct f; simpl; intros ->. unfold written_more; simpl. rewrite app_nil_r. reflexivity. Qed.

Lemma fd_write_more (fd : nat) (s : string) (w : World) (f : File) (ss : list string) :
  nth_error (w_files w) fd = Some (written_more f ss) ->
  exists w',
    fd_write fd s w = (Ok tt, w') /\
    nth_error (w_files w') fd = Some (written_more f (ss ++ [s])) /\
    w_comments w' = w_comments w /\ w_comments_on w' = w_comments_on w.
Proof.
  intros Hf.
  exists (set_w_files (replace_nth fd (written_more f (ss ++ [s])) (w_files w)) w).
  split; [|split; [|split]]; try reflexivity.
  - unfold fd_write, bind, file_of, set_file, modify. rewrite Hf. simpl.
    unfold written_more. simpl. rewrite <- app_assoc. reflexivity.
  - simpl. eapply nth_error_replace_nth. exact Hf.
Qed.

Lemma register_keywords (s : MFDataStructure) (keywords : list PyKey) (b : MFBlock) (w : World) :
  exists b',
    for_each keywords (fun keyword =>
      update_self (fun b : MFBlock =>
        set_b_datasets_keyword
          (assoc_set PyKey_eqb keyword s (b_datasets_keyword b)) b)) (b, w)
    = (Ok tt, (b', w)) /\
    b_block_headers b' = b_block_headers b.
Proof.
  revert b; induction keywords as [|k ks IH]; intros b; simpl.
  - exists b. split; reflexivity.
  - unfold bind, update_self, modify. simpl.
    destruct (IH (set_b_datasets_keyword
                    (assoc_set PyKey_eqb k s (b_datasets_keyword b)) b)) as (b' & E & Hh).
    exists b'. split; [exact E | exact Hh].
Qed.

Lemma header_initial_val_index (s : MFDataStructure) (z : Z) (more : list string) :
  one_based_index s ->
  header_initial_val s (Some (str_of_int z :: more)) = Ok (VInt (z - 1)).
Proof.
  intros (Ht & (rest & Hr) & _). unfold header_initial_val.
  rewrite Ht, Hr, py_int_str_of_int. reflexivity.
Qed.

Lemma data_factory_index (s : MFDataStructure) (path : Path) (v : PyVal) :
  one_based_index s ->
  MFBlock_data_factory s true path v = Some (new_data MFScalar s v true path).
Proof.
  intros (_ & _ & [Hd|Hd]); unfold MFBlock_data_factory; rewrite Hd; reflexivity.
Qed.

Lemma new_dataset_builds_index (b : MFBlock) (w : World) (s : MFDataStructure)
    (before : list MFBlockHeader) (h : MFBlockHeader) (z : Z) (more : list string) :
  one_based_index s ->
  b_block_headers b = before ++ [h] ->
  exists b',
    MFBlock__new_dataset (ds_name s) s true (Some (str_of_int z :: more)) (b, w)
    = (Ok tt, (b', w)) /\
    b_block_headers b'
    = before ++ [set_bh_data_items
                   (bh_data_items h
                    ++ [Some (new_data MFScalar s (VInt (z - 1)) true
                                (b_path b ++ [SegS (ds_name s)]))]) h].
Proof.
  intros Hs Hb.
  unfold MFBlock__new_dataset, bind, self, gets, lift_result, update_self, modify.
  cbv beta iota. cbn [fst snd].
  rewrite (@header_initial_val_index s z more Hs), Hb, index_last_snoc.
  rewrite (@data_factory_index s _ _ Hs).
  match goal with
  | |- context [for_each ?ks ?body (?b0, w)] =>
      destruct (register_keywords s ks b0 w) as (b' & E & Hh)
  end.
  exists b'. split.
  - exact E.
  - rewrite Hh. unfold update_last_header. simpl. rewrite Hb, rev_app_distr. simpl.
    rewrite rev_involutive. reflexivity.
Qed.

Lemma comment_text_at (c : nat) (t : CommentText) (w : World) :
  option_map c_text (nth_error (w_comments w) c) = Some t ->
  comment_text c w = (Ok t, w).
Proof.
  unfold comment_text. destruct (nth_error (w_comments w) c); simpl; intros H;
    inversion H; reflexivity.
Qed.

Lemma write_header_index (X : Externals) (h : MFBlockHeader) (s : MFDataStructure)
    (path : Path) (c : nat) (t : CommentText) (z : Z) (fd : nat) (f : File) (w : World) :
  (forall d args, data_get_file_entry X d args = spec_data_get_file_entry d args) ->
  ds_type s = "integer" ->
  bh_comment_path h = None -> bh_comment h = Some c ->
  bh_data_items h = [Some (new_data MFScalar s (VInt (z - 1)) true path)] ->
  option_map c_text (nth_error (w_comments w) c) = Some t ->
  nth_error (w_files w) fd = Some f -> f_closed f = false ->
  exists w',
    MFBlockHeader_write_header X h fd w = (Ok tt, w') /\
    nth_error (w_files w') fd
    = Some (written_more f ([("BEGIN " ++ bh_name h)%string; (" " ++ str_of_int z)%string]
                            ++ header_tail X (w_comments_on w) t)).
Proof.
  intros HX Ht Hp Hc Hd Hw Hf Hcl.
  rewrite <- (@written_more_nil f Hcl) in Hf.
  destruct (@fd_write_more fd ("BEGIN " ++ bh_name h)%string w f [] Hf)
    as (w1 & E1 & F1 & C1 & O1).
  destruct (@fd_write_more fd (" " ++ str_of_int z)%string w1 f _ F1)
    as (w2 & E2 & F2 & C2 & O2).
  assert (Hg : MFBlockHeader_get_comment h = ret c).
  { unfold MFBlockHeader_get_comment. rewrite Hp, Hc. reflexivity. }
  assert (He : data_get_file_entry X (new_data MFScalar s (VInt (z - 1)) true path)
                 (values_only_args true)
               = Ok (" " ++ str_of_int z ++ nl)%string).
  { rewrite HX. unfold spec_data_get_file_entry. simpl.
    replace (z - 1 + 1)%Z with z by lia. reflexivity. }
  assert (T2 : comment_text c w2 = (Ok t, w2)).
  { apply comment_text_at. rewrite C2, C1. exact Hw. }
  unfold MFBlockHeader_write_header. rewrite Hd, Hg.
  unfold is_MFScalar. cbn [d_class new_data d_structure]. rewrite Ht.
  cbn [String.eqb Ascii.eqb Bool.eqb]. cbv beta iota.
  rewrite He.
  unfold bind at 1. rewrite E1.
  unfold bind at 1. unfold bind at 1. unfold bind at 1. unfold lift_result.
  rewrite (@rstrip_entry (str_of_int z) (@str_of_int_no_blank z) (@str_of_int_nonempty z)).
  rewrite E2. cbn [for_each]. unfold ret at 1.
  unfold bind at 1. unfold ret at 1.
  unfold bind at 1. rewrite T2.
  unfold header_tail.
  destruct (text_truthy t).
  - destruct (@fd_write_more fd " " w2 f _ F2) as (w3 & E3 & F3 & C3 & O3).
    assert (T3 : comment_text c w3 = (Ok t, w3)).
    { apply comment_text_at. rewrite C3, C2, C1. exact Hw. }
    destruct (@fd_write_more fd (comment_render X (w_comments_on w) t None) w3 f _ F3)
      as (w4 & E4 & F4 & C4 & O4).
    destruct (@fd_write_more fd nl w4 f _ F4) as (w5 & E5 & F5 & C5 & O5).
    exists w5. split.
    + unfold bind at 1. unfold bind at 1. rewrite E3.
      unfold bind at 1. unfold ret at 1.
      unfold MFComment_write, bind, gets. rewrite T3, O3, O2, O1, E4, E5. reflexivity.
    + rewrite F5. simpl. rewrite <- ?app_assoc. reflexivity.
  - destruct (@fd_write_more fd nl w2 f _ F2) as (w3 & E3 & F3 & C3 & O3).
    exists w3. split.
    + unfold bind, ret. rewrite E3. reflexivity.
    + rewrite F3. simpl. rewrite <- ?app_assoc. reflexivity.
Qed.

(** C2: in a repeating block whose header variable is an integer record of
    one field (the 1-based index), a header whose first token is the decimal
    text of [z] (the token [1] for [z = 1]) gets from [_new_dataset] the
    scalar [z - 1] as its data item ([0] for the token [1]), and
    [write_header] writes that header back as [BEGIN name], a blank and the
    decimal text of [z] again, then the comment, if it has text, and the
    newline. The entry of the scalar is the one of [spec_data_get_file_entry]. *)
Theorem header_key_round_trips (X : Externals) (b : MFBlock) (w : World)
    (s : MFDataStructure) (before : list MFBlockHeader) (h : MFBlockHeader)
    (c : nat) (t : CommentText) (z : Z) (more : list string) (fd : nat) (f : File) :
  (forall d args, data_get_file_entry X d args = spec_data_get_file_entry d args) ->
  one_based_index s ->
  b_block_headers b = before ++ [h] ->
  fresh_header h c ->
  bh_variable_strings h = str_of_int z :: more ->
  option_map c_text (nth_error (w_comments w) c) = Some t ->
  nth_error (w_files w) fd = Some f ->
  f_closed f = false ->
  exists b' h' w',
    MFBlock__new_dataset (ds_name s) s true (Some (bh_variable_strings h)) (b, w)
    = (Ok tt, (b', w)) /\
    b_block_headers b' = before ++ [h'] /\
    bh_data_items h'
    = [Some (new_data MFScalar s (VInt (z - 1)) true (b_path b ++ [SegS (ds_name s)]))] /\
    MFBlockHeader_write_header X h' fd w = (Ok tt, w') /\
    nth_error (w_files w') fd
    = Some (written_more f ([("BEGIN " ++ bh_name h)%string; (" " ++ str_of_int z)%string]
                            ++ header_tail X (w_comments_on w) t)).
Proof.
  intros HX Hs Hb (Hp & Hc & Hd) Hv Hw Hf Hcl.
  destruct (@new_dataset_builds_index b w s before h z more Hs Hb) as (b' & E & Hh).
  rewrite Hd in Hh. simpl in Hh.
  set (d := new_data MFScalar s (VInt (z - 1)) true (b_path b ++ [SegS (ds_name s)])) in *.
  destruct (@write_header_index X (set_bh_data_items [Some d] h) s
              (b_path b ++ [SegS (ds_name s)]) c t z fd f w HX (proj1 Hs) Hp Hc eq_refl
              Hw Hf Hcl) as (w' & Ew & Fw).
  exists b', (set_bh_data_items [Some d] h), w'.
  rewrite Hv. repeat split; auto.
Qed.

(** A witness of C2: the header [BEGIN period 1] of the [period] block is
    stored with the key 0 and written back as [BEGIN period 1]. *)
Lemma header_key_round_trips_witness :
  exists b' h' w',
    MFBlock__new_dataset "iper" iper true (Some ["1"]) period_1_appended
    = (Ok tt, (b', snd period_1_appended)) /\
    b_block_headers b' = [h'] /\
    bh_data_items h'
    = [Some (new_data MFScalar iper (VInt 0) true (period_path ++ [SegS "iper"]))] /\
    MFBlockHeader_write_header spec_externals h' 0 (snd period_1_appended) = (Ok tt, w') /\
    option_map file_text (nth_error (w_files w') 0) = Some ("BEGIN period 1" ++ nl)%string.
Proof.
  destruct (@header_key_round_trips spec_externals (fst period_1_appended)
              (snd period_1_appended) iper []
              {| bh_name := "period"; bh_variable_strings := ["1"];
                 bh_comment := Some 3; bh_comment_path := None; bh_data_items := [] |}
              3 (TStr "") 1 [] 0
              {| f_name := "out.wel"; f_unread := []; f_written := []; f_closed := false |})
    as (b' & h' & w' & E & Hh & Hd & Ew & Fw).
  - reflexivity.
  - split; [reflexivity|]. split; [exists []; reflexivity | left; reflexivity].
  - reflexivity.
  - repeat split.
  - reflexivity.
  - reflexivity.
  - reflexivity.
  - reflexivity.
  - exists b', h', w'. split; [exact E|]. split; [exact Hh|]. split; [exact Hd|].
    split; [exact Ew|]. rewrite Fw. reflexivity.
Defined.

(** *** Strings and tokens *)

Lemma str_app_nil_r (s : string) : (s ++ "")%string = s.
Proof. induction s as [|c s IH]; simpl; [reflexivity | rewrite IH; reflexivity]. Qed.

Lemma str_app_assoc (s t u : string) : ((s ++ t) ++ u)%string = (s ++ t ++ u)%string.
Proof. induction s as [|c s IH]; simpl; [reflexivity | rewrite IH; reflexivity]. Qed.

Lemma no_blank_app (s t : string) :
  no_blank (s ++ t)%string = no_blank s && no_blank t.
Proof.
  induction s as [|c s IH]; simpl; [reflexivity|].
  rewrite IH, andb_assoc. reflexivity.
Qed.

Lemma split_from_tokens (s cur : string) :
  no_blank cur = true ->
  Forall (fun t => no_blank t = true /\ t <> EmptyString) (split_from cur s).
Proof.
  revert cur; induction s as [|c s IH]; intros cur Hc; simpl.
  - destruct cur; [constructor|]. constructor; [|constructor]. split; [exact Hc|discriminate].
  - destruct (is_space c) eqn:Hs.
    + destruct cur.
      * apply IH. reflexivity.
      * constructor; [split; [exact Hc|discriminate]|]. apply IH. reflexivity.
    + apply IH. rewrite no_blank_app, Hc. simpl. rewrite Hs. reflexivity.
Qed.

Lemma split_tokens (s : string) :
  Forall (fun t => no_blank t = true /\ t <> EmptyString) (split s).
Proof. apply split_from_tokens. reflexivity. Qed.

Lemma header_entries_tokens (X : Externals) (entries : list string) :
  Forall (fun t => no_blank t = true /\ t <> EmptyString) entries ->
  forall vars text,
    header_entries X entries false vars text
    = Ok (vars ++ before_comment X entries,
          (text ++ blank_before_each (from_comment X entries))%string).
Proof.
  assert (Hc : forall entries : list string,
             Forall (fun t => no_blank t = true /\ t <> EmptyString) entries ->
             forall vars text,
               header_entries X entries true vars text
               = Ok (vars, (text ++ blank_before_each entries)%string)).
  { induction 1 as [|e es [Hb Hn] _ IH]; intros vars text; simpl.
    - rewrite str_app_nil_r. reflexivity.
    - rewrite (@strip_token e Hb). destruct e as [|c e]; [congruence|].
      rewrite IH. rewrite !str_app_assoc. reflexivity. }
  induction 1 as [|e es [Hb Hn] Hes IH]; intros vars text; simpl.
  - rewrite app_nil_r. rewrite str_app_nil_r. reflexivity.
  - rewrite (@strip_token e Hb). destruct e as [|c e]; [congruence|]. simpl.
    destruct (is_comment X (CA_str (String c EmptyString)) false).
    + rewrite (Hc es Hes). simpl. rewrite app_nil_r.
      rewrite !str_app_assoc. reflexivity.
    + rewrite IH. rewrite <- app_assoc. reflexivity.
Qed.

Lemma replace_nth_last {A} (l : list A) (x y : A) :
  replace_nth (List.length l) x (l ++ [y]) = l ++ [x].
Proof. induction l as [|a l IH]; simpl; [reflexivity | rewrite IH; reflexivity]. Qed.

(** *** Block header lines *)

Lemma header_line_tokens (X : Externals) (line : string) (path : Path) (w : World)
    (keyword name : string) (entries : list string) :
  split (strip line) = keyword :: name :: entries ->
  MFPackage__get_block_header_info X line path w
  = (Ok {| bh_name := name;
           bh_variable_strings := before_comment X entries;
           bh_comment := Some (List.length (w_comments w));
           bh_comment_path := None;
           bh_data_items := [] |},
     with_comment (TStr (blank_before_each (from_comment X entries))) w).
Proof.
  intros Hs.
  pose proof (split_tokens (strip line)) as Ht. rewrite Hs in Ht.
  inversion Ht as [|? ? _ Ht1]; subst. inversion Ht1 as [|? ? _ Ht2]; subst.
  unfold MFPackage__get_block_header_info. rewrite Hs.
  unfold bind, lift_result, MFComment_new, index. simpl.
  destruct entries as [|e es].
  - reflexivity.
  - rewrite (@header_entries_tokens X (e :: es) Ht2 [] ""). cbn [fst snd app].
    unfold comment_set_text, modify, MFBlockHeader_init, ret, with_comment.
    cbn [w_comments set_w_comments].
    rewrite replace_nth_last. destruct w; reflexivity.
Qed.

(** X1: a header line of at least two tokens always parses: the second
    token is the name, the tokens after it up to the first one whose first
    character starts a comment are the variable strings, and the rest is
    the text of the header's comment, a blank before each token. The header
    is not connected to the store and has no data items. *)
Theorem block_header_info_parsed (X : Externals) (line : string) (path : Path) (w : World)
    (keyword name : string) (entries : list string) :
  split (strip line) = keyword :: name :: entries ->
  MFPackage__get_block_header_info X line path w
  = (Ok {| bh_name := name;
           bh_variable_strings := before_comment X entries;
           bh_comment := Some (List.length (w_comments w));
           bh_comment_path := None;
           bh_data_items := [] |},
     with_comment (TStr (blank_before_each (from_comment X entries))) w).
Proof. exact (@header_line_tokens X line path w keyword name entries). Qed.

Lemma block_header_info_parsed_witness :
  MFPackage__get_block_header_info spec_externals "BEGIN period 1 # first" [SegS "sim"]
    empty_world
  = (Ok {| bh_name := "period"; bh_variable_strings := ["1"]; bh_comment := Some 0;
           bh_comment_path := None; bh_data_items := [] |},
     with_comment (TStr " # first") empty_world).
Proof.
  apply (@block_header_info_parsed spec_externals "BEGIN period 1 # first" [SegS "sim"]
           empty_world "BEGIN" "period" ["1"; "#"; "first"]).
  reflexivity.
Defined.

(** X2: a header line with fewer than two tokens raises [IndexError]
    before anything is changed, and no line makes [_get_block_header_info]
    raise [MFFileParseException]: the test for a missing name comes after
    the name was read. *)
Theorem block_header_info_without_name (X : Externals) :
  (forall line path w,
      List.length (split (strip line)) < 2 ->
      MFPackage__get_block_header_info X line path w
      = (Raise (IndexError "arr_clean_line"), w))
  /\
  (forall line path w msg,
      fst (MFPackage__get_block_header_info X line path w)
      <> Raise (MFFileParseException msg)).
Proof.
  assert (H1 : forall line path w,
             List.length (split (strip line)) < 2 ->
             MFPackage__get_block_header_info X line path w
             = (Raise (IndexError "arr_clean_line"), w)).
  { intros line path w Hl. unfold MFPackage__get_block_header_info.
    destruct (split (strip line)) as [|a [|b r]]; simpl in Hl; try lia; reflexivity. }
  split; [exact H1|].
  intros line path w msg.
  destruct (split (strip line)) as [|a [|b r]] eqn:Hs.
  - rewrite H1 by (rewrite Hs; simpl; lia). discriminate.
  - rewrite H1 by (rewrite Hs; simpl; lia). discriminate.
  - rewrite (@header_line_tokens X line path w a b r Hs). discriminate.
Qed.

Lemma block_header_info_without_name_witness :
  MFPackage__get_block_header_info spec_externals "BEGIN" [SegS "sim"] empty_world
  = (Raise (IndexError "arr_clean_line"), empty_world).
Proof.
  apply (proj1 (block_header_info_without_name spec_externals)). simpl. lia.
Defined.

(** *** A package file that is not there *)

(** X3: when the file of the package does not exist, [load] raises
    [NameError]: the handler of [OSError] names [errno], which the module
    never imports. Nothing is printed and the package is as before. *)
Theorem load_of_missing_file (X : Externals) (fuel : nat) (p : MFPackage) (w : World) :
  assoc_lookup String.eqb (pk_file_path p) (w_disk w) = None ->
  MFPackage_load X fuel (p, w) = (Raise (NameError "errno"), (p, w)).
Proof.
  intros H. unfold MFPackage_load, bind, self, gets, try_except, in_world, open_r.
  simpl. rewrite H. reflexivity.
Qed.

Lemma load_of_missing_file_witness :
  MFPackage_load spec_externals 10 (package_of "wel" "model.wel" wel_structure [], empty_world)
  = (Raise (NameError "errno"), (package_of "wel" "model.wel" wel_structure [], empty_world)).
Proof. apply load_of_missing_file. reflexivity. Defined.

(** *** Validity of a package *)

(** X4: [MFPackage.is_valid()] returns [True], and leaves [last_error] as
    it was, for every package none of whose blocks is a required block
    that is missing, whatever [MFBlock.is_valid()] would answer for the
    blocks: the method tests the bound method [block.is_valid] and never
    calls it. *)
Theorem package_is_valid_ignores_block_validity (X : Externals) (p : MFPackage) (w : World) :
  Forall (fun kv => not_missing X w (snd kv)) (pk_blocks p) ->
  MFPackage_is_valid X (p, w) = (Ok true, (p, w)).
Proof.
  unfold MFPackage_is_valid, bind, self, gets. cbn [fst].
  generalize (pk_blocks p) as blocks.
  induction 1 as [|[k b] rest Hb _ IH]; [reflexivity|].
  cbn [blocks_valid snd] in *.
  assert (Hm : (if Nat.ltb 0 (bs_number_non_optional_data (b_structure b))
                   && negb (b_enabled b)
                then w0 <- gets snd ;; lift_result (MFBlock_is_allowed X b w0)
                else ret false) (p, w) = (Ok false, (p, w))).
  { destruct Hb as [H|[H|H]].
    - rewrite H. reflexivity.
    - rewrite H, andb_false_r. reflexivity.
    - destruct (Nat.ltb 0 (bs_number_non_optional_data (b_structure b))
                && negb (b_enabled b)); [|reflexivity].
      unfold bind, gets, lift_result. cbn [snd]. rewrite H. reflexivity. }
  unfold bind at 1. rewrite Hm.
  unfold bind at 1. unfold lift_result at 1.
  change (MFBlock_getattr b "is_valid") with (@Ok BlockAttr (attr_method "is_valid")).
  cbn [attr_truthy negb]. rewrite andb_false_r. exact IH.
Qed.

Lemma package_is_valid_ignores_block_validity_witness :
  MFBlock_is_valid spec_externals block_with_disabled_data = Ok (Some false) /\
  MFPackage_is_valid spec_externals
    (package_of "dis" "model.dis" wel_structure [("dimensions", block_with_disabled_data)],
     empty_world)
  = (Ok true,
     (package_of "dis" "model.dis" wel_structure [("dimensions", block_with_disabled_data)],
      empty_world)).
Proof.
  split; [reflexivity|].
  apply package_is_valid_ignores_block_validity.
  constructor; [|constructor]. right; left. reflexivity.
Defined.

(** *** Blocks without data *)

Lemma is_empty_without_data (X : Externals) (datasets : list (Seg * option MFData)) :
  Forall (without_data X) datasets -> is_empty_from X datasets = Ok true.
Proof.
  induction 1 as [|[k o] rest (d & Hd & Hn) _ IH]; [reflexivity|].
  simpl in Hd. subst o. simpl.
  destruct (data_has_data X d) as [[|]|]; try exact IH. congruence.
Qed.

(** X5: a block none of whose datasets reports data is not written, unless
    it is named [exchanges] or [options] (in any case): [write] returns
    without a write to any file, and without making a block header. *)
Theorem write_skips_block_without_data (X : Externals) (fd : nat) (a : ExtFileAction)
    (b : MFBlock) (w : World) :
  Forall (without_data X) (b_datasets b) ->
  lower (bs_name (b_structure b)) <> "exchanges" ->
  lower (bs_name (b_structure b)) <> "options" ->
  MFBlock_write X fd a (b, w) = (Ok tt, (b, w)).
Proof.
  intros Hd He Ho. unfold MFBlock_write, bind, self, gets, lift_result. cbn [fst].
  unfold MFBlock_is_empty. rewrite (is_empty_without_data Hd).
  apply String.eqb_neq in He. apply String.eqb_neq in Ho. rewrite He, Ho. reflexivity.
Qed.

Lemma write_skips_block_without_data_witness :
  MFBlock_write spec_externals 0 copy_relative_paths (packagedata_block, empty_world)
  = (Ok tt, (packagedata_block, empty_world)).
Proof.
  apply write_skips_block_without_data.
  - repeat constructor; eexists; (split; [reflexivity | discriminate]).
  - discriminate.
  - discriminate.
Defined.

(** *** Python equality *)

Lemma val_eqb_refl (v : PyVal) : val_eqb v v = true.
Proof.
  revert v. fix IH 1. intros v.
  assert (L : forall xs : list PyVal,
             (fix all_eqb (xs ys : list PyVal) {struct xs} : bool :=
                match xs, ys with
                | [], [] => true
                | x :: xs', y :: ys' => val_eqb x y && all_eqb xs' ys'
                | _, _ => false
                end) xs xs = true).
  { fix IHl 1. intros [|x xs]; [reflexivity|]. rewrite IH, IHl. reflexivity. }
  destruct v; simpl; auto using Z.eqb_refl, String.eqb_refl.
Qed.

Lemma val_eqb_eq (a b : PyVal) : val_eqb a b = true -> a = b.
Proof.
  revert a b. fix IH 1. intros a b.
  assert (L : forall xs ys : list PyVal,
             (fix all_eqb (xs ys : list PyVal) {struct xs} : bool :=
                match xs, ys with
                | [], [] => true
                | x :: xs', y :: ys' => val_eqb x y && all_eqb xs' ys'
                | _, _ => false
                end) xs ys = true -> xs = ys).
  { fix IHl 1. intros [|x xs] [|y ys]; try discriminate; [reflexivity|].
    intros H. apply andb_true_iff in H. destruct H as [H1 H2].
    rewrite (IH x y H1), (IHl xs ys H2). reflexivity. }
  destruct a, b; simpl; try discriminate; intros H;
    try reflexivity;
    try (apply Z.eqb_eq in H; congruence);
    try (apply String.eqb_eq in H; congruence);
    try (apply L in H; congruence).
Qed.

(** *** Headers of repeating blocks *)

Lemma header_exists_in_spec (X : Externals) (comp : list PyVal)
    (headers : list MFBlockHeader) (keys : list PyVal) :
  map (MFBlockHeader_get_transient_key X) headers = map (@Ok PyVal) keys ->
  exists r, header_exists_in X headers comp = Ok r /\
            (r = true <-> exists k, In k comp /\ k <> VNone /\ In k keys).
Proof.
  revert keys; induction headers as [|h hs IH]; intros [|t ts] Hk; try discriminate.
  - exists false. split; [reflexivity|]. split; [discriminate|].
    intros (k & _ & _ & []).
  - simpl in Hk. inversion Hk as [[Ht Hts]]. simpl. rewrite Ht.
    destruct (existsb (fun comp_key => negb (is_none t) && val_eqb t comp_key) comp) eqn:He.
    + exists true. split; [reflexivity|]. split; [|reflexivity]. intros _.
      apply existsb_exists in He. destruct He as (c & Hc & Hb).
      apply andb_true_iff in Hb. destruct Hb as [Hn Hv].
      apply val_eqb_eq in Hv. subst c. exists t. split; [exact Hc|].
      split; [destruct t; simpl in Hn; discriminate | left; reflexivity].
    + destruct (IH ts Hts) as (r & Hr & Hiff). exists r. split; [exact Hr|].
      rewrite Hiff. split.
      * intros (k & H1 & H2 & H3). exists k. split; [exact H1|]. split; [exact H2|]. right; exact H3.
      * intros (k & H1 & H2 & [H3|H3]).
        -- subst k. exfalso.
           assert (existsb (fun comp_key => negb (is_none t) && val_eqb t comp_key) comp
                   = true).
           { apply existsb_exists. exists t. split; [exact H1|].
             rewrite val_eqb_refl. destruct t; simpl; congruence. }
           congruence.
        -- exists k. auto.
Qed.

(** X6: when [get_transient_key()] raises for none of the block's headers,
    [_header_exists(key)] raises nothing, and it returns [True] exactly
    when one of the keys compared (the items of [key] if it is a list,
    else [key]) is not [None] and is the transient key of a header. *)
Theorem header_exists_iff_key_of_header (X : Externals) (b : MFBlock) (key : PyVal)
    (keys : list PyVal) :
  header_keys X b keys ->
  exists r, MFBlock__header_exists X b key = Ok r /\
            (r = true <-> exists k, In k (comp_keys key) /\ k <> VNone /\ In k keys).
Proof. intros H. exact (@header_exists_in_spec X (comp_keys key) _ keys H). Qed.

Lemma header_exists_iff_key_of_header_witness :
  exists r, MFBlock__header_exists spec_externals period_block_loaded (VInt 1) = Ok r /\
            (r = true <-> exists k, In k [VInt 1] /\ k <> VNone /\ In k [VInt 0; VInt 1]).
Proof.
  apply (@header_exists_iff_key_of_header spec_externals period_block_loaded (VInt 1)
           [VInt 0; VInt 1]).
  reflexivity.
Defined.

Lemma build_repeating_header_known (X : Externals) (k : PyVal) (more : list PyVal)
    (b : MFBlock) (w : World) :
  MFBlock__header_exists X b k = Ok true ->
  MFBlock__build_repeating_header X (k :: more) (b, w) = (Ok tt, (b, w)).
Proof.
  intros H. unfold MFBlock__build_repeating_header, bind, self, gets, lift_result.
  cbn [fst index nth_error]. rewrite H. reflexivity.
Qed.

Lemma build_header_variables_sets_items (ss : list MFDataStructure) (path : Path)
    (data : PyVal) (h : MFBlockHeader) :
  exists r items,
    MFBlockHeader_build_header_variables ss path data h = (r, set_bh_data_items items h).
Proof.
  unfold MFBlockHeader_build_header_variables, bind, modify, lift_result, index.
  destruct ss as [|s0 ss]; cbn [nth_error].
  - eexists; exists []. reflexivity.
  - destruct (ds_data_item_structures s0) as [|i0 is0]; cbn [nth_error].
    + eexists; exists []. reflexivity.
    + eexists; eexists. unfold set_bh_data_items. cbn. reflexivity.
Qed.

Lemma set_block_headers_same (b : MFBlock) : set_b_block_headers (b_block_headers b) b = b.
Proof. destruct b; reflexivity. Qed.

Lemma update_last_header_snoc (f : MFBlockHeader -> MFBlockHeader) (b : MFBlock)
    (before : list MFBlockHeader) (h : MFBlockHeader) :
  b_block_headers b = before ++ [h] ->
  update_last_header f b = set_b_block_headers (before ++ [f h]) b.
Proof.
  intros H. unfold update_last_header. rewrite H, rev_app_distr. simpl.
  rewrite rev_involutive. reflexivity.
Qed.

Lemma on_last_header_build (ss : list MFDataStructure) (path : Path) (data : PyVal)
    (b : MFBlock) (w : World) (before : list MFBlockHeader) (h : MFBlockHeader) :
  b_block_headers b = before ++ [h] ->
  exists r items,
    on_last_header (MFBlockHeader_build_header_variables ss path data) (b, w)
    = (r, (set_b_block_headers (before ++ [set_bh_data_items items h]) b, w)).
Proof.
  intros H. unfold on_last_header. cbn [fst snd]. rewrite H, rev_app_distr. cbn [rev app].
  destruct (build_header_variables_sets_items ss path data h) as (r & items & E).
  rewrite E. exists r, items. rewrite (@update_last_header_snoc _ b before h H).
  reflexivity.
Qed.

Lemma build_repeating_header_tail (X : Externals)
    (header_data : list PyVal) (b : MFBlock) (w : World)
    (before : list MFBlockHeader) (last : MFBlockHeader)
    (r : result unit) (b' : MFBlock) (w' : World) :
  b_block_headers b = before ++ [last] ->
  MFBlock__build_repeating_header X header_data (b, w) = (r, (b', w')) ->
  exists tail,
    b' = set_b_block_headers (before ++ tail) b /\
    (tail = [last] \/
     (exists items, tail = [set_bh_data_items items last]) \/
     (exists h, tail = [last; h])).
Proof.
  intros Hb.
  assert (Same : forall (r0 : result unit),
             (r0, (b, w)) = (r, (b', w')) ->
             exists tail,
               b' = set_b_block_headers (before ++ tail) b /\
               (tail = [last] \/
                (exists items, tail = [set_bh_data_items items last]) \/
                (exists h, tail = [last; h]))).
  { intros r0 E. inversion E; subst. exists [last]. split; [|left; reflexivity].
    rewrite <- Hb. symmetry. apply set_block_headers_same. }
  unfold MFBlock__build_repeating_header, bind, self, gets, lift_result. cbn [fst].
  destruct (index "header_data" header_data 0) as [key| |]; try apply Same.
  destruct (MFBlock__header_exists X b key) as [[|]| |]; try apply Same.
  rewrite Hb, index_last_snoc.
  destruct (bh_data_items last) as [|[d|] [|more]] eqn:Hi; unfold ret, raise;
    try apply Same.
  all: try (destruct (@on_last_header_build (bs_block_header_structure (b_structure b))
                        (b_path b ++ [SegI (List.length (before ++ [last]))])
                        (VList header_data) b w before last Hb) as (r1 & items & E);
            rewrite E; intros E'; inversion E'; subst;
            exists [set_bh_data_items items last]; split;
            [reflexivity | right; left; exists items; reflexivity]).
  destruct (negb (is_none (data_get_data X d))).
  - unfold in_world, MFComment_new, MFBlockHeader_init, bind, mfdata_set, update_self,
      modify, ret. cbn [fst snd].
    match goal with
    | |- on_last_header ?m (?b1, ?w1) = _ -> _ =>
        assert (Hb1 : b_block_headers b1 = (before ++ [last]) ++
                        [{| bh_name := bs_name (b_structure b); bh_variable_strings := [];
                            bh_comment := None;
                            bh_comment_path :=
                              Some ((b_path b ++ [SegI (List.length (before ++ [last]) + 1)])
                                    ++ [SegS "blk_hdr_comment"]);
                            bh_data_items := [] |}])
          by (cbn; rewrite Hb; reflexivity);
        destruct (@on_last_header_build (bs_block_header_structure (b_structure b))
                    (b_path b ++ [SegI (List.length (before ++ [last]) + 1)])
                    (VList header_data) b1 w1 _ _ Hb1) as (r1 & items & E)
    end.
    rewrite E. intros E'. inversion E'; subst. eexists [last; _]. split.
    + rewrite <- app_assoc. reflexivity.
    + right; right. eexists. reflexivity.
  - destruct (@on_last_header_build (bs_block_header_structure (b_structure b))
                (b_path b ++ [SegI (List.length (before ++ [last]))])
                (VList header_data) b w before last Hb) as (r1 & items & E).
    rewrite E. intros E'. inversion E'; subst.
    exists [set_bh_data_items items last]. split;
      [reflexivity | right; left; exists items; reflexivity].
Qed.

(** X8: [_build_repeating_header] changes nothing of the block but its
    list of headers, and of that list nothing before the last header: the
    last header gets new data items, or one header is added after it. This
    holds also when the call raises. *)
Theorem build_repeating_header_keeps_earlier_headers (X : Externals)
    (header_data : list PyVal) (b : MFBlock) (w : World)
    (before : list MFBlockHeader) (last : MFBlockHeader)
    (r : result unit) (b' : MFBlock) (w' : World) :
  b_block_headers b = before ++ [last] ->
  MFBlock__build_repeating_header X header_data (b, w) = (r, (b', w')) ->
  exists tail,
    b' = set_b_block_headers (before ++ tail) b /\
    (tail = [last] \/
     (exists items, tail = [set_bh_data_items items last]) \/
     (exists h, tail = [last; h])).
Proof.
  exact (@build_repeating_header_tail X header_data b w before last r b' w').
Qed.

Lemma build_repeating_header_keeps_earlier_headers_witness :
  exists tail,
    fst (snd (MFBlock__build_repeating_header spec_externals [VInt 5]
                (period_block_loaded, empty_world)))
    = set_b_block_headers ([period_header "1" 0] ++ tail) period_block_loaded /\
    (tail = [period_header "2" 1] \/
     (exists items, tail = [set_bh_data_items items (period_header "2" 1)]) \/
     (exists h, tail = [period_header "2" 1; h])).
Proof.
  apply (@build_repeating_header_keeps_earlier_headers spec_externals [VInt 5]
           period_block_loaded empty_world [period_header "1" 0] (period_header "2" 1)
           (fst (MFBlock__build_repeating_header spec_externals [VInt 5]
                   (period_block_loaded, empty_world)))
           _
           (snd (snd (MFBlock__build_repeating_header spec_externals [VInt 5]
                        (period_block_loaded, empty_world))))).
  - reflexivity.
  - reflexivity.
Defined.

(** *** The transient key of a header *)

Lemma transient_key_of_keywords (X : Externals) (kws rest : list (option MFData)) :
  Forall keyword_item kws ->
  transient_key_of X (kws ++ rest) = transient_key_of X rest.
Proof.
  induction 1 as [|o kws (d & -> & Hk) _ IH]; [reflexivity|].
  simpl. rewrite Hk. simpl. exact IH.
Qed.

(** X9: [get_transient_key()] passes over the data items of type
    [keyword]: it returns [None] when the header has no others, and
    otherwise what [get_data()] of the first other item returns, or, when
    that is a recarray, the field of its first row at the structure's
    first non-keyword index. Items after that one are not looked at. *)
Theorem get_transient_key_passes_keywords (X : Externals) (h : MFBlockHeader)
    (kws : list (option MFData)) :
  Forall keyword_item kws ->
  (bh_data_items h = kws -> MFBlockHeader_get_transient_key X h = Ok VNone)
  /\
  (forall d rest,
      bh_data_items h = kws ++ Some d :: rest ->
      ds_type (d_structure d) <> "keyword" ->
      (forall rows, data_get_data X d <> VRecarray rows) ->
      MFBlockHeader_get_transient_key X h = Ok (data_get_data X d))
  /\
  (forall d rest fields rows key_index v,
      bh_data_items h = kws ++ Some d :: rest ->
      ds_type (d_structure d) <> "keyword" ->
      data_get_data X d = VRecarray (VTuple fields :: rows) ->
      ds_first_non_keyword_index (d_structure d) = Some key_index ->
      nth_error fields key_index = Some v ->
      MFBlockHeader_get_transient_key X h = Ok v).
Proof.
  intros Hk. unfold MFBlockHeader_get_transient_key. split; [|split].
  - intros ->. rewrite <- (app_nil_r kws), (@transient_key_of_keywords X kws [] Hk).
    reflexivity.
  - intros d rest -> Hd Hr. rewrite (@transient_key_of_keywords X kws _ Hk). simpl.
    apply String.eqb_neq in Hd. rewrite Hd. simpl.
    destruct (data_get_data X d) eqn:E; try reflexivity.
    exfalso. exact (Hr _ eq_refl).
  - intros d rest fields rows key_index v -> Hd Hr Hi Hn.
    rewrite (@transient_key_of_keywords X kws _ Hk). simpl.
    apply String.eqb_neq in Hd. rewrite Hd. simpl. rewrite Hr, Hi, Hn. reflexivity.
Qed.

Lemma get_transient_key_passes_keywords_witness :
  MFBlockHeader_get_transient_key spec_externals
    (set_bh_data_items
       [Some (new_data MFScalar (keyword_scalar "steady-state") VNone true period_path);
        Some (new_data MFScalar iper (VInt 4) true period_path);
        Some (new_data MFScalar iper (VInt 7) true period_path)]
       (parsed_header "period" []))
  = Ok (VInt 4).
Proof.
  apply (proj1 (proj2 (@get_transient_key_passes_keywords spec_externals _
                         [Some (new_data MFScalar (keyword_scalar "steady-state") VNone true
                                  period_path)]
                         ltac:(repeat constructor; eexists; split; reflexivity)))
           (new_data MFScalar iper (VInt 4) true period_path)
           [Some (new_data MFScalar iper (VInt 7) true period_path)]).
  - reflexivity.
  - discriminate.
  - discriminate.
Defined.

(** *** Dictionaries *)

Lemma Seg_eqb_eq (a b : Seg) : Seg_eqb a b = true <-> a = b.
Proof.
  destruct a, b; simpl; split; intros H; try discriminate; try congruence.
  - apply String.eqb_eq in H. congruence.
  - inversion H. apply String.eqb_refl.
  - apply Nat.eqb_eq in H. congruence.
  - inversion H. apply Nat.eqb_refl.
Qed.

Lemma Path_eqb_eq (p q : Path) : Path_eqb p q = true <-> p = q.
Proof.
  revert q; induction p as [|a p IH]; intros [|b q]; simpl; split; intros H;
    try discriminate; try reflexivity.
  - apply andb_true_iff in H. destruct H as [H1 H2].
    apply Seg_eqb_eq in H1. apply IH in H2. congruence.
  - inversion H; subst. apply andb_true_iff. split; [apply Seg_eqb_eq | apply IH]; reflexivity.
Qed.

Lemma PyKey_eqb_eq (a b : PyKey) : PyKey_eqb a b = true <-> a = b.
Proof.
  destruct a, b; simpl; split; intros H; try discriminate; try congruence.
  - destruct (list_eq_dec string_dec ks ks0); congruence.
  - inversion H; subst. destruct (list_eq_dec string_dec ks0 ks0); congruence.
  - apply String.eqb_eq in H. congruence.
  - inversion H. apply String.eqb_refl.
Qed.

Section Assoc.

Variables K V : Type.
Variable eqb : K -> K -> bool.
Hypothesis eqb_eq : forall a b, eqb a b = true <-> a = b.

Lemma assoc_lookup_set_same (k : K) (v : V) (l : list (K * V)) :
  assoc_lookup eqb k (assoc_set eqb k v l) = Some v.
Proof.
  assert (R : eqb k k = true) by (apply eqb_eq; reflexivity).
  induction l as [|[k' v'] l IH]; simpl; [rewrite R; reflexivity|].
  destruct (eqb k k') eqn:E; simpl; [rewrite R; reflexivity|].
  rewrite E. exact IH.
Qed.

Lemma assoc_lookup_set_other (k k' : K) (v : V) (l : list (K * V)) :
  k <> k' -> assoc_lookup eqb k (assoc_set eqb k' v l) = assoc_lookup eqb k l.
Proof.
  intros Hn.
  assert (N : eqb k k' = false).
  { destruct (eqb k k') eqn:E; [|reflexivity]. apply eqb_eq in E. contradiction. }
  induction l as [|[k2 v2] l IH]; simpl; [rewrite N; reflexivity|].
  destruct (eqb k' k2) eqn:E; simpl.
  - apply eqb_eq in E. subst k2. rewrite N. reflexivity.
  - destruct (eqb k k2); [reflexivity | exact IH].
Qed.

Lemma assoc_mem_set (k k' : K) (v : V) (l : list (K * V)) :
  assoc_mem eqb k (assoc_set eqb k' v l) = eqb k k' || assoc_mem eqb k l.
Proof.
  unfold assoc_mem. destruct (eqb k k') eqn:E.
  - apply eqb_eq in E. subst k'. rewrite assoc_lookup_set_same. reflexivity.
  - rewrite assoc_lookup_set_other; [reflexivity|].
    intros ->. rewrite (proj2 (eqb_eq k' k') eq_refl) in E. discriminate.
Qed.

End Assoc.

(** *** Making a block *)

Lemma set_datasets_keyword_same (b : MFBlock) :
  set_b_datasets_keyword (b_datasets_keyword b) b = b.
Proof. destruct b; reflexivity. Qed.

Lemma keywords_loop (s : MFDataStructure) (ks : list PyKey) (b : MFBlock) (w : World) :
  for_each ks (fun keyword =>
    update_self (fun b : MFBlock =>
      set_b_datasets_keyword
        (assoc_set PyKey_eqb keyword s (b_datasets_keyword b)) b)) (b, w)
  = (Ok tt,
     (set_b_datasets_keyword
        (fold_left (fun acc keyword => assoc_set PyKey_eqb keyword s acc) ks
           (b_datasets_keyword b)) b, w)).
Proof.
  revert b; induction ks as [|k ks IH]; intros b; simpl.
  - rewrite set_datasets_keyword_same. reflexivity.
  - unfold bind, update_self, modify. cbn [fst snd]. rewrite IH. reflexivity.
Qed.

Lemma new_dataset_for_header (key : string) (s : MFDataStructure) (b : MFBlock) (w : World)
    (before : list MFBlockHeader) (h : MFBlockHeader) :
  b_block_headers b = before ++ [h] ->
  MFBlock__new_dataset key s true None (b, w)
  = (Ok tt,
     (set_b_datasets_keyword (with_keywords_of s (b_datasets_keyword b))
        (set_b_block_headers
           (before ++ [set_bh_data_items
                         (bh_data_items h
                          ++ [MFBlock_data_factory s true (b_path b ++ [SegS key]) VNone]) h])
           b), w)).
Proof.
  intros Hb. unfold MFBlock__new_dataset, bind, self, gets, lift_result.
  cbn [fst snd header_initial_val]. rewrite Hb, index_last_snoc.
  unfold update_self at 1. unfold modify at 1. cbn [fst snd].
  rewrite (@update_last_header_snoc _ b before h Hb).
  match goal with
  | |- context [for_each ?ks ?body (?b0, w)] => rewrite (@keywords_loop s ks b0 w)
  end.
  reflexivity.
Qed.

Lemma dataset_keywords_loop (dss : list (string * MFDataStructure)) (b : MFBlock) (w : World) :
  for_each dss (fun kv =>
    for_each (ds_keywords (snd kv)) (fun keyword =>
      update_self (fun b : MFBlock =>
        set_b_datasets_keyword
          (assoc_set PyKey_eqb keyword (snd kv) (b_datasets_keyword b)) b))) (b, w)
  = (Ok tt,
     (set_b_datasets_keyword
        (fold_left (fun acc kv => with_keywords_of (snd kv) acc) dss (b_datasets_keyword b))
        b, w)).
Proof.
  revert b; induction dss as [|kv dss IH]; intros b; simpl.
  - rewrite set_datasets_keyword_same. reflexivity.
  - unfold bind. rewrite keywords_loop, IH. reflexivity.
Qed.

Lemma header_variables_loop (hs : list MFDataStructure) (b : MFBlock) (w : World)
    (before : list MFBlockHeader) (h : MFBlockHeader) :
  b_block_headers b = before ++ [h] ->
  for_each hs (fun dataset => MFBlock__new_dataset (ds_name dataset) dataset true None) (b, w)
  = (Ok tt,
     (set_b_datasets_keyword
        (fold_left (fun acc s => with_keywords_of s acc) hs (b_datasets_keyword b))
        (set_b_block_headers
           (before ++ [set_bh_data_items
                         (bh_data_items h
                          ++ map (fun s => MFBlock_data_factory s true
                                             (b_path b ++ [SegS (ds_name s)]) VNone) hs) h])
           b), w)).
Proof.
  revert b h; induction hs as [|s hs IH]; intros b h Hb; simpl.
  - rewrite app_nil_r.
    assert (E : set_bh_data_items (bh_data_items h) h = h) by (destruct h; reflexivity).
    rewrite E, <- Hb. destruct b; reflexivity.
  - unfold bind. rewrite (@new_dataset_for_header (ds_name s) s b w before h Hb).
    rewrite (IH _ (set_bh_data_items
                     (bh_data_items h
                      ++ [MFBlock_data_factory s true (b_path b ++ [SegS (ds_name s)]) VNone])
                     h)) by reflexivity.
    cbn. rewrite <- app_assoc. reflexivity.
Qed.

Lemma structure_init_result (b : MFBlock) (w : World)
    (before : list MFBlockHeader) (h : MFBlockHeader) :
  b_block_headers b = before ++ [h] ->
  MFBlock__structure_init (b, w)
  = (Ok tt,
     (set_b_datasets_keyword
        (fold_left (fun acc s => with_keywords_of s acc)
           (bs_block_header_structure (b_structure b))
           (fold_left (fun acc kv => with_keywords_of (snd kv) acc)
              (bs_data_structures (b_structure b)) (b_datasets_keyword b)))
        (set_b_block_headers
           (before ++ [set_bh_data_items
                         (bh_data_items h
                          ++ map (fun s => MFBlock_data_factory s true
                                             (b_path b ++ [SegS (ds_name s)]) VNone)
                               (bs_block_header_structure (b_structure b))) h])
           b), w)).
Proof.
  intros Hb. unfold MFBlock__structure_init, bind, self, gets. cbn [fst].
  rewrite dataset_keywords_loop.
  rewrite (@header_variables_loop _ _ w before h) by exact Hb.
  reflexivity.
Qed.

Lemma block_init_result (st : MFBlockStructure) (path : Path) (model_type : string)
    (cp : option ContainerPackage) (w : World) :
  MFBlock_init st path model_type cp w
  = (Ok {| b_structure := st; b_path := path;
           b_block_headers :=
             [{| bh_name := bs_name st; bh_variable_strings := [];
                 bh_comment := None;
                 bh_comment_path := Some (path ++ [SegS "blk_hdr_comment"]);
                 bh_data_items :=
                   map (fun s => MFBlock_data_factory s true (path ++ [SegS (ds_name s)]) VNone)
                     (bs_block_header_structure st) |}];
           b_datasets := [];
           b_datasets_keyword :=
             fold_left (fun acc s => with_keywords_of s acc) (bs_block_header_structure st)
               (fold_left (fun acc kv => with_keywords_of (snd kv) acc)
                  (bs_data_structures st) []);
           b_blk_trailing_comment_path := path ++ [SegS "blk_trailing_comment"];
           b_blk_post_comment_path := path ++ [SegS "blk_post_comment"];
           b_enabled := Nat.ltb 0 (bs_number_non_optional_data st);
           b_loaded := false; b_external_file_name := None;
           b_container_package := cp; b_model_type := model_type |},
     ensure_comment (path ++ [SegS "blk_post_comment"]) (TStr nl)
       (ensure_comment (path ++ [SegS "blk_trailing_comment"]) (TStr "")
          (with_stored_comment (path ++ [SegS "blk_hdr_comment"]) (TStr "") w))).
Proof.
  unfold MFBlock_init.
  unfold bind at 1. unfold MFComment_new at 1.
  unfold bind at 1. unfold MFBlockHeader_init at 1. unfold bind at 1.
  unfold mfdata_set at 1. unfold modify at 1. unfold ret at 1.
  change (set_w_mfdata
            (assoc_set Path_eqb (path ++ [SegS "blk_hdr_comment"])
               (SComment (List.length (w_comments w)))
               (w_mfdata (set_w_comments (w_comments w ++ [{| c_text := TStr "" |}]) w)))
            (set_w_comments (w_comments w ++ [{| c_text := TStr "" |}]) w))
    with (with_stored_comment (path ++ [SegS "blk_hdr_comment"]) (TStr "") w).
  set (w1 := with_stored_comment (path ++ [SegS "blk_hdr_comment"]) (TStr "") w).
  unfold bind at 1. unfold mfdata_mem at 1. unfold gets at 1.
  assert (E1 : forall (p : Path) (t : CommentText) (w0 : World),
             ((if assoc_mem Path_eqb p (w_mfdata w0) then ret tt
               else c <- MFComment_new t ;; mfdata_set p (SComment c)) w0)
             = (Ok tt, ensure_comment p t w0)).
  { intros p t w0. unfold ensure_comment.
    destruct (assoc_mem Path_eqb p (w_mfdata w0)); reflexivity. }
  unfold bind at 1. rewrite E1.
  set (w2 := ensure_comment (path ++ [SegS "blk_trailing_comment"]) (TStr "") w1).
  unfold bind at 1. unfold mfdata_mem at 1. unfold gets at 1.
  unfold bind at 1. rewrite E1.
  set (w3 := ensure_comment (path ++ [SegS "blk_post_comment"]) (TStr nl) w2).
  unfold bind, call_on.
  match goal with
  | |- context [MFBlock__structure_init (?b0, w3)] =>
      rewrite (@structure_init_result b0 w3 [] _ (eq_refl : b_block_headers b0 = [] ++ [_]))
  end.
  reflexivity.
Qed.

Lemma mem_with_keywords_of (k : PyKey) (s : MFDataStructure)
    (acc : list (PyKey * MFDataStructure)) :
  assoc_mem PyKey_eqb k (with_keywords_of s acc) = true
  <-> In k (ds_keywords s) \/ assoc_mem PyKey_eqb k acc = true.
Proof.
  unfold with_keywords_of. revert acc.
  induction (ds_keywords s) as [|k' ks IH]; intros acc; simpl.
  - tauto.
  - rewrite IH, (@assoc_mem_set _ _ PyKey_eqb PyKey_eqb_eq), orb_true_iff, PyKey_eqb_eq.
    split; intros [H|H]; auto; destruct H; auto.
Qed.

Lemma mem_keywords_fold {A} (f : A -> MFDataStructure) (k : PyKey) (xs : list A)
    (acc : list (PyKey * MFDataStructure)) :
  assoc_mem PyKey_eqb k (fold_left (fun acc x => with_keywords_of (f x) acc) xs acc) = true
  <-> (exists x, In x xs /\ In k (ds_keywords (f x))) \/ assoc_mem PyKey_eqb k acc = true.
Proof.
  revert acc; induction xs as [|x xs IH]; intros acc; simpl.
  - split; [auto | intros [(x & [] & _)|H]; exact H].
  - rewrite IH, mem_with_keywords_of. split.
    + intros [(y & Hy & Hk)|[H|H]]; eauto.
    + intros [(y & [<-|Hy] & Hk)|H]; eauto.
Qed.

(** X10: [MFBlock.__init__] raises nothing. The block it makes has the
    structure and the path it was given, no datasets, one header named
    after the structure with one data item for each header variable of the
    schema (made by [data_factory] with no data), is not loaded, and is
    enabled exactly when the schema has non-optional data; its
    [datasets_keyword] has exactly the keywords of the schema's datasets
    and header variables. *)
Theorem block_init_state (st : MFBlockStructure) (path : Path) (model_type : string)
    (cp : option ContainerPackage) (w : World) :
  exists b w',
    MFBlock_init st path model_type cp w = (Ok b, w') /\
    b_structure b = st /\ b_path b = path /\ b_datasets b = [] /\
    b_enabled b = Nat.ltb 0 (bs_number_non_optional_data st) /\
    b_loaded b = false /\ b_external_file_name b = None /\
    (exists h,
        b_block_headers b = [h] /\ bh_name h = bs_name st /\ bh_variable_strings h = [] /\
        bh_data_items h
        = map (fun s => MFBlock_data_factory s true (path ++ [SegS (ds_name s)]) VNone)
            (bs_block_header_structure st)) /\
    (forall keyword,
        assoc_mem PyKey_eqb keyword (b_datasets_keyword b) = true
        <-> exists s, In s (structures_of st) /\ In keyword (ds_keywords s)).
Proof.
  eexists. eexists. split; [apply block_init_result|].
  cbn [b_structure b_path b_datasets b_enabled b_loaded b_external_file_name
       b_block_headers b_datasets_keyword].
  repeat (split; [reflexivity|]).
  split.
  - eexists. split; [reflexivity|]. repeat split.
  - intros keyword. rewrite !mem_keywords_fold. unfold structures_of. split.
    + intros [(s & Hs & Hk)|[(kv & Hkv & Hk)|H]].
      * exists s. split; [apply in_or_app; right; exact Hs | exact Hk].
      * exists (snd kv). split; [apply in_or_app; left; apply in_map; exact Hkv | exact Hk].
      * discriminate.
    + intros (s & Hs & Hk). apply in_app_or in Hs. destruct Hs as [Hs|Hs].
      * apply in_map_iff in Hs. destruct Hs as (kv & <- & Hkv).
        right; left. exists kv. split; assumption.
      * left. exists s. split; assumption.
Qed.

Lemma more_comments_refl (w : World) : more_comments w w.
Proof. split; [exists []; rewrite app_nil_r; reflexivity | repeat split]. Qed.

Lemma more_comments_trans (a b c : World) :
  more_comments a b -> more_comments b c -> more_comments a c.
Proof.
  intros ((e1 & H1) & F1 & D1 & S1 & C1) ((e2 & H2) & F2 & D2 & S2 & C2).
  split; [exists (e1 ++ e2); rewrite H2, H1, app_assoc; reflexivity|].
  repeat split; congruence.
Qed.

Lemma more_comments_stored (p : Path) (t : CommentText) (w : World) :
  more_comments w (with_stored_comment p t w).
Proof. split; [eexists; reflexivity | repeat split]. Qed.

Lemma more_comments_ensure (p : Path) (t : CommentText) (w : World) :
  more_comments w (ensure_comment p t w).
Proof.
  unfold ensure_comment. destruct (assoc_mem Path_eqb p (w_mfdata w));
    [apply more_comments_refl | apply more_comments_stored].
Qed.

Lemma comment_at_more (p : Path) (t : CommentText) (w w' : World) :
  comment_at p t w -> more_comments w w' ->
  assoc_lookup Path_eqb p (w_mfdata w') = assoc_lookup Path_eqb p (w_mfdata w) ->
  comment_at p t w'.
Proof.
  intros (c & Hl & Hn) ((e & He) & _) Hs. exists c. split; [congruence|].
  rewrite He. rewrite nth_error_app1; [exact Hn|].
  apply nth_error_Some. congruence.
Qed.

Lemma comment_at_stored (p : Path) (t : CommentText) (w : World) :
  comment_at p t (with_stored_comment p t w).
Proof.
  exists (List.length (w_comments w)). split.
  - apply (@assoc_lookup_set_same _ _ Path_eqb Path_eqb_eq).
  - simpl. rewrite nth_error_app2 by lia. rewrite Nat.sub_diag. reflexivity.
Qed.

Lemma lookup_ensure_other (p q : Path) (t : CommentText) (w : World) :
  q <> p ->
  assoc_lookup Path_eqb q (w_mfdata (ensure_comment p t w))
  = assoc_lookup Path_eqb q (w_mfdata w).
Proof.
  intros H. unfold ensure_comment.
  destruct (assoc_mem Path_eqb p (w_mfdata w)); [reflexivity|].
  simpl. apply (@assoc_lookup_set_other _ _ Path_eqb Path_eqb_eq). exact H.
Qed.

Lemma ensure_comment_known (p : Path) (t : CommentText) (w : World) (o : StoreObj) :
  assoc_lookup Path_eqb p (w_mfdata w) = Some o ->
  ensure_comment p t w = w.
Proof. intros H. unfold ensure_comment, assoc_mem. rewrite H. reflexivity. Qed.

Lemma ensure_comment_unknown (p : Path) (t : CommentText) (w : World) :
  assoc_lookup Path_eqb p (w_mfdata w) = None ->
  ensure_comment p t w = with_stored_comment p t w.
Proof. intros H. unfold ensure_comment, assoc_mem. rewrite H. reflexivity. Qed.

Lemma sibling_paths (path : Path) (a b : string) :
  a <> b -> path ++ [SegS a] <> path ++ [SegS b].
Proof. intros H E. apply app_inv_head in E. congruence. Qed.

(** X11: [MFBlock.__init__] puts the block's comments into the store: the
    header's comment is a new one without text, whatever the store had at
    its path; the trailing comment and the post-block comment are kept
    when the store has something at their paths, and otherwise are new
    ones, without text and with a newline as text. The comment objects
    that were there, the files and the output stay as they are. *)
Theorem block_init_comments (st : MFBlockStructure) (path : Path) (model_type : string)
    (cp : option ContainerPackage) (w : World) :
  exists b w',
    MFBlock_init st path model_type cp w = (Ok b, w') /\
    more_comments w w' /\
    comment_at (path ++ [SegS "blk_hdr_comment"]) (TStr "") w' /\
    (forall o, assoc_lookup Path_eqb (path ++ [SegS "blk_trailing_comment"]) (w_mfdata w)
               = Some o ->
               assoc_lookup Path_eqb (path ++ [SegS "blk_trailing_comment"]) (w_mfdata w')
               = Some o) /\
    (assoc_lookup Path_eqb (path ++ [SegS "blk_trailing_comment"]) (w_mfdata w) = None ->
     comment_at (path ++ [SegS "blk_trailing_comment"]) (TStr "") w') /\
    (forall o, assoc_lookup Path_eqb (path ++ [SegS "blk_post_comment"]) (w_mfdata w)
               = Some o ->
               assoc_lookup Path_eqb (path ++ [SegS "blk_post_comment"]) (w_mfdata w')
               = Some o) /\
    (assoc_lookup Path_eqb (path ++ [SegS "blk_post_comment"]) (w_mfdata w) = None ->
     comment_at (path ++ [SegS "blk_post_comment"]) (TStr nl) w').
Proof.
  eexists. eexists. split; [apply block_init_result|].
  set (hdr := path ++ [SegS "blk_hdr_comment"]).
  set (trailing := path ++ [SegS "blk_trailing_comment"]).
  set (post := path ++ [SegS "blk_post_comment"]).
  set (w1 := with_stored_comment hdr (TStr "") w).
  set (w2 := ensure_comment trailing (TStr "") w1).
  set (w3 := ensure_comment post (TStr nl) w2).
  assert (Nth : trailing <> hdr) by (apply sibling_paths; discriminate).
  assert (Nph : post <> hdr) by (apply sibling_paths; discriminate).
  assert (Npt : post <> trailing) by (apply sibling_paths; discriminate).
  assert (M1 : more_comments w w1) by apply more_comments_stored.
  assert (M2 : more_comments w1 w2) by apply more_comments_ensure.
  assert (M3 : more_comments w2 w3) by apply more_comments_ensure.
  assert (L1 : forall q, q <> hdr ->
             assoc_lookup Path_eqb q (w_mfdata w1) = assoc_lookup Path_eqb q (w_mfdata w)).
  { intros q Hq. simpl. apply (@assoc_lookup_set_other _ _ Path_eqb Path_eqb_eq). exact Hq. }
  split; [exact (more_comments_trans M1 (more_comments_trans M2 M3))|].
  split.
  { apply (@comment_at_more hdr (TStr "") w1 w3).
    - apply comment_at_stored.
    - exact (more_comments_trans M2 M3).
    - unfold w3, w2. rewrite !lookup_ensure_other by congruence. reflexivity. }
  split.
  { intros o Ho. unfold w3. rewrite lookup_ensure_other by congruence.
    unfold w2. rewrite (@ensure_comment_known trailing (TStr "") w1 o).
    - rewrite L1 by exact Nth. exact Ho.
    - rewrite L1 by exact Nth. exact Ho. }
  split.
  { intros Hn. apply (@comment_at_more trailing (TStr "") w2 w3).
    - unfold w2. rewrite ensure_comment_unknown by (rewrite L1 by exact Nth; exact Hn).
      apply comment_at_stored.
    - exact M3.
    - unfold w3. rewrite lookup_ensure_other by congruence. reflexivity. }
  assert (L2 : assoc_lookup Path_eqb post (w_mfdata w2)
               = assoc_lookup Path_eqb post (w_mfdata w)).
  { unfold w2. rewrite lookup_ensure_other by exact Npt. apply L1. exact Nph. }
  split.
  { intros o Ho. unfold w3. rewrite (@ensure_comment_known post (TStr nl) w2 o).
    - rewrite L2. exact Ho.
    - rewrite L2. exact Ho. }
  { intros Hn. unfold w3. rewrite ensure_comment_unknown by (rewrite L2; exact Hn).
    apply comment_at_stored. }
Qed.

(** *** The number of header variables *)

Lemma slices_make_list {A} (n : Z) (xs : list A) : slice_to n xs ++ slice_from n xs = xs.
Proof. unfold slice_to, slice_from. destruct (0 <=? n)%Z; apply firstn_skipn. Qed.

Lemma slice_from_slice_to {A} (n : Z) (xs : list A) :
  (0 <= n)%Z -> slice_from n (slice_to n xs) = [].
Proof.
  intros H. unfold slice_to, slice_from. apply Z.leb_le in H. rewrite H.
  apply skipn_all2. apply firstn_le_length.
Qed.

Lemma slice_to_slice_to {A} (n : Z) (xs : list A) :
  (0 <= n)%Z -> slice_to n (slice_to n xs) = slice_to n xs.
Proof.
  intros H. unfold slice_to. apply Z.leb_le in H. rewrite H.
  rewrite firstn_firstn, Nat.min_id. reflexivity.
Qed.

Lemma get_comment_of_header (h : MFBlockHeader) (w : World) (c : nat) :
  header_comment h w c -> MFBlockHeader_get_comment h w = (Ok c, w).
Proof.
  unfold header_comment, MFBlockHeader_get_comment.
  destruct (bh_comment_path h) as [p|]; intros H.
  - unfold bind, mfdata_get. rewrite H. reflexivity.
  - rewrite H. reflexivity.
Qed.

Lemma nth_error_replace_same {A} (l : list A) (n : nat) (x y : A) :
  nth_error l n = Some y -> nth_error (replace_nth n x l) n = Some x.
Proof.
  revert n; induction l as [|a l IH]; intros [|n]; simpl; try discriminate; auto.
Qed.

Lemma replace_nth_twice {A} (l : list A) (n : nat) (x y : A) :
  replace_nth n x (replace_nth n y l) = replace_nth n x l.
Proof.
  revert n; induction l as [|a l IH]; intros [|n]; simpl; try reflexivity.
  rewrite IH. reflexivity.
Qed.

Lemma set_number_of_variables_runs (n : Z) (h : MFBlockHeader) (w : World)
    (c : nat) (t : string) :
  header_comment h w c ->
  text_of c w = Some (TStr t) ->
  MFBlockHeader_set_number_of_variables n (h, w)
  = (Ok tt,
     ({| bh_name := bh_name h;
         bh_variable_strings := slice_to n (bh_variable_strings h);
         bh_comment := bh_comment h; bh_comment_path := bh_comment_path h;
         bh_data_items := bh_data_items h |},
      set_w_comments
        (replace_nth c
           {| c_text := TStr (join " " (slice_from n (bh_variable_strings h)) ++ t)%string |}
           (w_comments w)) w)).
Proof.
  intros Hc Ht. unfold text_of in Ht.
  destruct (nth_error (w_comments w) c) as [[t1]|] eqn:En; [|discriminate].
  simpl in Ht. inversion Ht; subst t1.
  unfold MFBlockHeader_set_number_of_variables, bind, self, gets, in_world,
    lift_result, update_self, modify, comment_set_text, comment_text.
  cbn [fst snd]. rewrite (@get_comment_of_header h w c Hc). cbn [fst snd].
  rewrite En. cbn [fst snd c_text str_plus_text].
  rewrite (@get_comment_of_header h w c Hc). reflexivity.
Qed.

(** X12: [set_number_of_variables(n)] loses no token: the header keeps
    [variable_strings[:n]], and the tokens [variable_strings[n:]], joined
    by blanks, are put in front of the text of the header's comment (with
    nothing between the last token and the text); name and data items are
    as before. For [n >= 0] a second call with the same [n] changes
    nothing. *)
Theorem set_number_of_variables_moves_tokens (n : Z) (h : MFBlockHeader) (w : World)
    (c : nat) (t : string) :
  header_comment h w c ->
  text_of c w = Some (TStr t) ->
  exists h' w',
    MFBlockHeader_set_number_of_variables n (h, w) = (Ok tt, (h', w')) /\
    bh_variable_strings h' = slice_to n (bh_variable_strings h) /\
    bh_variable_strings h' ++ slice_from n (bh_variable_strings h) = bh_variable_strings h /\
    text_of c w'
    = Some (TStr (join " " (slice_from n (bh_variable_strings h)) ++ t)%string) /\
    bh_name h' = bh_name h /\ bh_data_items h' = bh_data_items h /\
    ((0 <= n)%Z ->
     MFBlockHeader_set_number_of_variables n (h', w') = (Ok tt, (h', w'))).
Proof.
  intros Hc Ht.
  assert (En : exists t1, nth_error (w_comments w) c = Some {| c_text := TStr t1 |} /\ t1 = t).
  { unfold text_of in Ht.
    destruct (nth_error (w_comments w) c) as [[t1]|]; [|discriminate].
    simpl in Ht. inversion Ht; subst. exists t. split; reflexivity. }
  destruct En as (t1 & En & ->).
  eexists. eexists. split; [apply (@set_number_of_variables_runs n h w c t Hc Ht)|].
  cbn [bh_variable_strings bh_name bh_data_items].
  split; [reflexivity|]. split; [apply slices_make_list|].
  assert (Ht' : text_of c
                  (set_w_comments
                     (replace_nth c
                        {| c_text := TStr (join " " (slice_from n (bh_variable_strings h))
                                           ++ t)%string |}
                        (w_comments w)) w)
                = Some (TStr (join " " (slice_from n (bh_variable_strings h)) ++ t)%string)).
  { unfold text_of. cbn [w_comments set_w_comments].
    rewrite (@nth_error_replace_same _ (w_comments w) c _ _ En). reflexivity. }
  split; [exact Ht'|].
  split; [reflexivity|]. split; [reflexivity|].
  intros Hn.
  rewrite (@set_number_of_variables_runs n _ _ c
             (join " " (slice_from n (bh_variable_strings h)) ++ t)%string).
  - cbn [bh_variable_strings bh_name bh_comment bh_comment_path bh_data_items
         w_comments set_w_comments].
    rewrite (@slice_from_slice_to _ n (bh_variable_strings h) Hn).
    rewrite (@slice_to_slice_to _ n (bh_variable_strings h) Hn). cbn [join append].
    rewrite replace_nth_twice. destruct w; reflexivity.
  - unfold header_comment in *. cbn [bh_comment_path bh_comment w_mfdata set_w_comments].
    destruct (bh_comment_path h); exact Hc.
  - exact Ht'.
Qed.

Lemma set_number_of_variables_moves_tokens_witness :
  exists h' w',
    MFBlockHeader_set_number_of_variables 1
      ({| bh_name := "period"; bh_variable_strings := ["1"; "extra"; "text"];
          bh_comment := Some 0; bh_comment_path := None; bh_data_items := [] |},
       with_comment (TStr "# note") empty_world)
    = (Ok tt, (h', w')) /\
    bh_variable_strings h' = ["1"] /\
    text_of 0 w' = Some (TStr "extra text# note").
Proof.
  destruct (@set_number_of_variables_moves_tokens 1
              {| bh_name := "period"; bh_variable_strings := ["1"; "extra"; "text"];
                 bh_comment := Some 0; bh_comment_path := None; bh_data_items := [] |}
              (with_comment (TStr "# note") empty_world) 0 "# note")
    as (h' & w' & E & Hv & _ & Ht & _).
  - reflexivity.
  - reflexivity.
  - exists h', w'. split; [exact E|]. split; [exact Hv | exact Ht].
Defined.

(** *** The end of the file *)

Lemma readline_at_end (fd : nat) (w : World) :
  unread_lines fd [] w -> readline fd w = (Ok EmptyString, w).
Proof.
  intros (f & Hf & Hc & Hu). unfold readline, bind, file_of.
  rewrite Hf, Hc, Hu. reflexivity.
Qed.

Lemma skip_initial_comments_at_end (X : Externals) (fd : nat) (w : World) :
  is_comment X (CA_str EmptyString) true = true ->
  unread_lines fd [] w ->
  forall fuel initial_comment,
    skip_initial_comments X fuel fd EmptyString initial_comment w = (Timeout, w).
Proof.
  intros Hc Hw. induction fuel as [|fuel IH]; intros ic; [reflexivity|].
  simpl. rewrite Hc. unfold bind. rewrite (@readline_at_end fd w Hw). apply IH.
Qed.

(** X13: when the file ends right after a block's header, [load] does not
    return: at the end of the file [readline] gives the empty string,
    which [is_comment] takes for comment text when empty lines count, so
    the loop over the leading comment lines never ends. Stated for a block
    without header variables in a package that does not read arrays as
    arrays, whose header [load] accepts: whatever the number of steps
    allowed, the loop has not ended. *)
Theorem load_at_end_of_file_never_returns (X : Externals) (fd : nat)
    (block_header : MFBlockHeader) (b : MFBlock) (w : World) :
  is_comment X (CA_str EmptyString) true = true ->
  header_accepted b block_header ->
  plain_block b ->
  unread_lines fd [] w ->
  forall fuel, fst (MFBlock_load X fuel block_header fd (b, w)) = Timeout.
Proof.
  intros Hc (Hn & Hl) (Hs & cp & Hcp & Hr) Hw fuel.
  unfold MFBlock_load. unfold bind at 1. unfold self at 1, gets at 1. cbn [fst].
  apply Nat.ltb_ge in Hn. rewrite Hn.
  assert (Hd : (if b_loaded b
                then lift_result (same_header_in (b_block_headers b) block_header)
                else ret false) (b, w) = (Ok false, (b, w))).
  { destruct Hl as [Hl|Hl].
    - rewrite Hl. reflexivity.
    - destruct (b_loaded b); [|reflexivity]. unfold lift_result. rewrite Hl. reflexivity. }
  unfold bind at 1. rewrite Hd.
  rewrite Hs, Hcp, Hr.
  unfold bind, update_self, modify, ret. cbn [fst snd].
  assert (Hb : forall (b1 : MFBlock),
             fst (load_body X fuel fd (b1, w)) = Timeout).
  { intros b1. unfold load_body, bind, in_world. cbn [fst snd].
    rewrite (@readline_at_end fd w Hw).
    rewrite (@skip_initial_comments_at_end X fd w Hc Hw). reflexivity. }
  destruct (b_loaded b); cbv beta iota; cbn [fst snd].
  - match goal with
    | |- context [load_body X fuel fd (?b1, w)] =>
        pose proof (Hb b1) as Hb1; destruct (load_body X fuel fd (b1, w)) as [r s]
    end.
    simpl in Hb1. subst r. reflexivity.
  - match goal with
    | |- context [load_body X fuel fd (?b1, w)] =>
        pose proof (Hb b1) as Hb1; destruct (load_body X fuel fd (b1, w)) as [r s]
    end.
    simpl in Hb1. subst r. reflexivity.
Qed.

Lemma load_at_end_of_file_never_returns_witness :
  fst (MFBlock_load spec_externals 1000 (parsed_header "options" []) 0
         (options_block, at_end_of_file)) = Timeout.
Proof.
  apply (@load_at_end_of_file_never_returns spec_externals 0 (parsed_header "options" [])
           options_block at_end_of_file).
  - reflexivity.
  - split; [simpl; lia | left; reflexivity].
  - split; [reflexivity|]. eexists. split; reflexivity.
  - eexists. split; [reflexivity|]. split; reflexivity.
Defined.

(** *** Text outside the blocks *)

Lemma str_nonempty_line (l : string) : str_nonempty (l ++ nl) = true.
Proof. destruct l; reflexivity. Qed.

Lemma readline_next (fd : nat) (l : string) (rest : list string) (w : World) :
  unread_lines fd (l :: rest) w ->
  exists w1,
    readline fd w = (Ok (l ++ nl)%string, w1) /\
    unread_lines fd rest w1 /\
    w_mfdata w1 = w_mfdata w /\ w_comments w1 = w_comments w /\
    w_stdout w1 = w_stdout w.
Proof.
  intros (f & Hf & Hc & Hu).
  exists (set_w_files
            (replace_nth fd {| f_name := f_name f; f_unread := rest;
                               f_written := f_written f; f_closed := false |}
               (w_files w)) w).
  split.
  - unfold readline, bind, file_of, set_file, modify, ret. rewrite Hf, Hc, Hu. reflexivity.
  - split; [|repeat split].
    exists {| f_name := f_name f; f_unread := rest;
              f_written := f_written f; f_closed := false |}.
    split; [|split; reflexivity]. cbn [w_files set_w_files].
    exact (@nth_error_replace_same _ (w_files w) fd _ f Hf).
Qed.

Lemma store_comment_before_blocks (p : MFPackage) (w : World) (c : nat) (t line : string) :
  assoc_lookup Path_eqb (pk_path p ++ [SegS "pkg_hdr_comments"]) (w_mfdata w)
  = Some (SComment c) ->
  text_of c w = Some (TStr t) ->
  exists w2,
    MFPackage__store_comment line false (p, w) = (Ok tt, (p, w2)) /\
    w_files w2 = w_files w /\ w_mfdata w2 = w_mfdata w /\
    text_of c w2 = Some (TStr (t ++ line)%string) /\
    w_stdout w2 = w_stdout w.
Proof.
  intros Hl Ht. unfold text_of in Ht.
  destruct (nth_error (w_comments w) c) as [[t1]|] eqn:En; [|discriminate].
  simpl in Ht. inversion Ht; subst t1.
  exists (set_w_comments
            (replace_nth c {| c_text := TStr (t ++ line)%string |} (w_comments w)) w).
  split.
  - unfold MFPackage__store_comment, bind, self, gets, in_world, mfdata_get, comment_of,
      comment_text, comment_set_text, modify, ret.
    cbn [fst snd]. rewrite Hl. cbn [fst snd]. rewrite En. reflexivity.
  - split; [reflexivity|]. split; [reflexivity|]. split; [|reflexivity].
    unfold text_of. cbn [w_comments set_w_comments].
    rewrite (@nth_error_replace_same _ (w_comments w) c _ _ En). reflexivity.
Qed.

Lemma unread_lines_same_files (fd : nat) (lines : list string) (w w' : World) :
  w_files w' = w_files w -> unread_lines fd lines w -> unread_lines fd lines w'.
Proof. intros E (f & Hf & H). exists f. rewrite E. split; assumption. Qed.

Lemma text_of_same_comments (c : nat) (w w' : World) :
  w_comments w' = w_comments w -> text_of c w' = text_of c w.
Proof. intros E. unfold text_of. rewrite E. reflexivity. Qed.

Lemma stray_lines_loop (X : Externals) (fd : nat) (max_blocks : option nat)
    (blocks_read : nat) (p : MFPackage) (c : nat) (lines : list string) :
  Forall (fun l => starts_no_block X (l ++ nl)) lines ->
  forall fuel w t,
    List.length lines < fuel ->
    unread_lines fd lines w ->
    assoc_lookup Path_eqb (pk_path p ++ [SegS "pkg_hdr_comments"]) (w_mfdata w)
    = Some (SComment c) ->
    text_of c w = Some (TStr t) ->
    exists w',
      load_blocks_loop X fuel fd max_blocks blocks_read false (p, w) = (Ok tt, (p, w')) /\
      unread_lines fd [] w' /\
      w_mfdata w' = w_mfdata w /\
      text_of c w' = Some (TStr (t ++ stored_text X lines)%string) /\
      w_stdout w' = w_stdout w.
Proof.
  induction 1 as [|l rest Hl _ IH]; intros fuel w t Hf Hu Hp Ht.
  - destruct fuel as [|fuel]; [simpl in Hf; lia|].
    cbn [load_blocks_loop]. unfold bind at 1. unfold in_world at 1. cbn [fst snd].
    rewrite (@readline_at_end fd w Hu).
    change (strip EmptyString) with EmptyString.
    destruct (is_comment X (CA_str EmptyString) true).
    + destruct (@store_comment_before_blocks p w c t EmptyString Hp Ht)
        as (w2 & E & F2 & M2 & T2 & S2).
      unfold bind. rewrite E. cbn [str_nonempty]. exists w2.
      split; [reflexivity|].
      split; [exact (@unread_lines_same_files fd [] w w2 F2 Hu)|].
      split; [exact M2|]. split; [|exact S2].
      rewrite T2. cbn [stored_text]. reflexivity.
    + cbn. exists w. split; [reflexivity|]. split; [exact Hu|]. split; [reflexivity|].
      split; [|reflexivity]. rewrite Ht. cbn [stored_text]. rewrite str_app_nil_r.
      reflexivity.
  - destruct fuel as [|fuel]; [simpl in Hf; lia|].
    destruct (@readline_next fd l rest w Hu) as (w1 & E1 & U1 & M1 & C1 & S1).
    assert (Hp1 : assoc_lookup Path_eqb (pk_path p ++ [SegS "pkg_hdr_comments"]) (w_mfdata w1)
                  = Some (SComment c)) by (rewrite M1; exact Hp).
    assert (Ht1 : text_of c w1 = Some (TStr t))
      by (rewrite (@text_of_same_comments c w w1 C1); exact Ht).
    assert (Stored : forall (w2 : World),
               MFPackage__store_comment (l ++ nl)%string false (p, w1) = (Ok tt, (p, w2)) ->
               w_files w2 = w_files w1 -> w_mfdata w2 = w_mfdata w1 ->
               text_of c w2 = Some (TStr (t ++ (l ++ nl))%string) ->
               w_stdout w2 = w_stdout w1 ->
               stored_line X (l ++ nl) = true ->
               exists w',
                 load_blocks_loop X fuel fd max_blocks blocks_read false (p, w2)
                 = (Ok tt, (p, w')) /\
                 unread_lines fd [] w' /\ w_mfdata w' = w_mfdata w /\
                 text_of c w' = Some (TStr (t ++ stored_text X (l :: rest))%string) /\
                 w_stdout w' = w_stdout w).
    { intros w2 _ F2 M2 T2 S2 Hst.
      destruct (IH fuel w2 (t ++ (l ++ nl))%string) as (w' & E' & U' & M' & T' & S').
      - simpl in Hf. lia.
      - exact (@unread_lines_same_files fd rest w1 w2 F2 U1).
      - rewrite M2. exact Hp1.
      - exact T2.
      - exists w'. split; [exact E'|]. split; [exact U'|].
        split; [congruence|]. split; [|congruence].
        rewrite T'. cbn [stored_text]. rewrite Hst. rewrite !str_app_assoc. reflexivity. }
    cbn [load_blocks_loop]. unfold bind at 1. unfold in_world at 1. cbn [fst snd].
    rewrite E1. cbv beta iota. rewrite str_nonempty_line.
    destruct (@store_comment_before_blocks p w1 c t (l ++ nl)%string Hp1 Ht1)
      as (w2 & E2 & F2 & M2 & T2 & S2).
    destruct (is_comment X (CA_str (strip (l ++ nl))) true) eqn:Hc.
    + unfold bind at 1. rewrite E2.
      apply (Stored w2 E2 F2 M2 T2 S2). unfold stored_line. rewrite Hc. reflexivity.
    + destruct Hl as [Hl|Hl]; [congruence|].
      unfold begins_block in Hl. rewrite Hl.
      destruct (negb (Nat.eqb (String.length (strip (l ++ nl))) 0
                      || (Nat.ltb 2 (String.length (l ++ nl)) && is_END (l ++ nl))))
        eqn:Hk.
      * unfold bind at 1. rewrite E2.
        apply (Stored w2 E2 F2 M2 T2 S2). unfold stored_line. rewrite Hc. exact Hk.
      * unfold bind at 1. unfold ret at 1.
        destruct (IH fuel w1 t) as (w' & E' & U' & M' & T' & S'); auto.
        { simpl in Hf. lia. }
        exists w'. split; [exact E'|]. split; [exact U'|].
        split; [congruence|]. split; [|congruence].
        rewrite T'. cbn [stored_text]. unfold stored_line. rewrite Hc, Hk. reflexivity.
Qed.

(** X14: text outside the blocks is kept. When no line of the file starts
    a block, [_load_blocks] reads the file to its end, raises nothing and
    prints nothing, leaves the blocks of the package as they are, and the
    package's header comment in the store holds, in the order of the file
    and each with its newline, the lines that are comment text and the
    other lines that are not blank and do not start with [END]. *)
Theorem text_outside_blocks_is_kept (X : Externals) (fd : nat) (max_blocks : option nat)
    (p : MFPackage) (w : World) (lines : list string) (fuel : nat) :
  Forall (fun l => starts_no_block X (l ++ nl)) lines ->
  unread_lines fd lines w ->
  List.length lines < fuel ->
  exists p' w',
    MFPackage__load_blocks X fuel fd max_blocks (p, w) = (Ok tt, (p', w')) /\
    pk_blocks p' = pk_blocks p /\
    comment_at (pk_path p ++ [SegS "pkg_hdr_comments"]) (TStr (stored_text X lines)) w' /\
    unread_lines fd [] w' /\
    w_stdout w' = w_stdout w.
Proof.
  intros Hl Hu Hf.
  unfold MFPackage__load_blocks, bind, self, gets, in_world, MFComment_new, mfdata_set,
    update_self, modify.
  cbn [fst snd].
  set (c := List.length (w_comments w)).
  match goal with
  | |- context [load_blocks_loop X fuel fd max_blocks 0 false (?p1, ?w0)] =>
      destruct (@stray_lines_loop X fd max_blocks 0 p1 c lines Hl fuel w0 EmptyString Hf)
        as (w' & E & U & M & T & S)
  end.
  - destruct Hu as (f & H). exists f. exact H.
  - cbn [pk_path set_pk_post_block_comments w_mfdata set_w_mfdata set_w_comments].
    apply (@assoc_lookup_set_same _ _ Path_eqb Path_eqb_eq).
  - unfold text_of. cbn [w_comments set_w_comments set_w_mfdata].
    rewrite nth_error_app1 by (rewrite length_app; simpl; unfold c; lia).
    rewrite nth_error_app2 by (unfold c; lia).
    unfold c. rewrite Nat.sub_diag. reflexivity.
  - eexists. exists w'. split; [exact E|]. split; [reflexivity|].
    split; [|split; [exact U | exact S]].
    exists c. split.
    + rewrite M. cbn [pk_path set_pk_post_block_comments w_mfdata set_w_mfdata
                       set_w_comments].
      apply (@assoc_lookup_set_same _ _ Path_eqb Path_eqb_eq).
    + unfold text_of in T. destruct (nth_error (w_comments w') c) as [[t1]|]; [|discriminate].
      simpl in T. inversion T. reflexivity.
Qed.

Lemma text_outside_blocks_is_kept_witness :
  exists p' w',
    MFPackage__load_blocks spec_externals 10 0 None
      (package_of "wel" "model.wel" wel_structure [],
       snd (open_r "model.wel"
              (with_file "model.wel" ["# made by hand"; "stray text"; "END of it"]
                 empty_world)))
    = (Ok tt, (p', w')) /\
    comment_at [SegS "sim"; SegS "wel"; SegS "pkg_hdr_comments"]
      (TStr ("# made by hand" ++ nl ++ "stray text" ++ nl)) w'.
Proof.
  destruct (@text_outside_blocks_is_kept spec_externals 0 None
              (package_of "wel" "model.wel" wel_structure [])
              (snd (open_r "model.wel"
                      (with_file "model.wel" ["# made by hand"; "stray text"; "END of it"]
                         empty_world)))
              ["# made by hand"; "stray text"; "END of it"] 10)
    as (p' & w' & E & _ & C & _).
  - repeat constructor; (left; reflexivity) || (right; reflexivity).
  - eexists. split; [reflexivity|]. split; reflexivity.
  - simpl. lia.
  - exists p', w'. split; [exact E | exact C].
Defined.

(** *** Adding a dataset *)

Lemma str_eqb_eq (a b : string) : String.eqb a b = true <-> a = b.
Proof. apply String.eqb_eq. Qed.

Lemma build_repeating_header_sets_headers (X : Externals) (header_data : list PyVal)
    (b : MFBlock) (w : World) (r : result unit) (b' : MFBlock) (w' : World) :
  MFBlock__build_repeating_header X header_data (b, w) = (r, (b', w')) ->
  exists hs, b' = set_b_block_headers hs b.
Proof.
  destruct (b_block_headers b) as [|h0 hs0] eqn:Hb using rev_ind.
  - unfold MFBlock__build_repeating_header, bind, self, gets, lift_result. cbn [fst].
    assert (Same : forall r0 : result unit,
               (r0, (b, w)) = (r, (b', w')) -> exists hs, b' = set_b_block_headers hs b).
    { intros r0 E. inversion E; subst. exists (b_block_headers b').
      symmetry. apply set_block_headers_same. }
    destruct (index "header_data" header_data 0) as [key| |]; try apply Same.
    destruct (MFBlock__header_exists X b key) as [[|]| |]; try apply Same.
    rewrite Hb. apply Same.
  - intros E.
    destruct (@build_repeating_header_tail X header_data b w hs0 h0 r b' w' Hb E)
      as (tail & -> & _).
    eexists. reflexivity.
Qed.

Lemma set_block_headers_twice (hs hs' : list MFBlockHeader) (b : MFBlock) :
  set_b_block_headers hs' (set_b_block_headers hs b) = set_b_block_headers hs' b.
Proof. reflexivity. Qed.

Lemma build_repeating_headers_set_headers (X : Externals) (items : list PyVal) :
  forall (b : MFBlock) (w : World) (r : result unit) (b' : MFBlock) (w' : World),
    for_each items (fun item =>
      match item with
      | VTuple (index :: _) => MFBlock__build_repeating_header X [index]
      | _ => ret tt
      end) (b, w) = (r, (b', w')) ->
    exists hs, b' = set_b_block_headers hs b.
Proof.
  induction items as [|item items IH]; intros b w r b' w' E.
  - inversion E; subst. exists (b_block_headers b'). symmetry. apply set_block_headers_same.
  - cbn [for_each] in E. unfold bind at 1 in E.
    set (step := match item with
                 | VTuple (index :: _) => MFBlock__build_repeating_header X [index]
                 | _ => ret tt
                 end) in E.
    assert (Hstep : forall r1 b1 w1, step (b, w) = (r1, (b1, w1)) ->
                                     exists hs, b1 = set_b_block_headers hs b).
    { intros r1 b1 w1 E1. unfold step in E1.
      destruct item as [| | |[|index xs]| | | |];
        try (inversion E1; subst; exists (b_block_headers b1); symmetry;
             apply set_block_headers_same).
      exact (@build_repeating_header_sets_headers X [index] b w r1 b1 w1 E1). }
    destruct (step (b, w)) as [r1 [b1 w1]] eqn:E1.
    destruct (Hstep r1 b1 w1 eq_refl) as (hs1 & H1).
    destruct r1 as [[]| |].
    + destruct (IH b1 w1 r b' w' E) as (hs & ->). subst b1. exists hs. reflexivity.
    + inversion E; subst. exists hs1. reflexivity.
    + inversion E; subst. exists hs1. reflexivity.
Qed.

Lemma add_dataset_sets_dataset (X : Externals) (s : MFDataStructure) (data : PyVal)
    (var_path : Path) (name : Seg) (b : MFBlock) (w : World)
    (r : result (option MFData)) (b' : MFBlock) (w' : World) :
  index_last "var_path" var_path = Ok name ->
  MFBlock_add_dataset X s data var_path (b, w) = (r, (b', w')) ->
  (exists hs,
      b' = set_b_block_headers hs
             (set_b_datasets
                (assoc_set Seg_eqb name (MFBlock_data_factory s true var_path data)
                   (b_datasets b)) b))
  /\ (forall d, r = Ok d -> d = MFBlock_data_factory s true var_path data).
Proof.
  intros Hn. unfold MFBlock_add_dataset.
  unfold bind at 1. unfold lift_result at 1. rewrite Hn.
  unfold bind at 1. unfold update_self at 1, modify at 1. cbn [fst snd].
  unfold bind at 1. unfold in_world at 1, mfdata_set at 1, modify at 1. cbn [fst snd].
  set (b1 := set_b_datasets
               (assoc_set Seg_eqb name (MFBlock_data_factory s true var_path data)
                  (b_datasets b)) b).
  set (w1 := set_w_mfdata _ w).
  unfold bind at 1.
  set (headers := match ds_datatype s with
                  | dt_list_transient | dt_list_multiple | dt_array_transient =>
                      match data with
                      | VDict items =>
                          for_each items (fun item =>
                            match item with
                            | VTuple (index :: _) => MFBlock__build_repeating_header X [index]
                            | _ => ret tt
                            end)
                      | VList _ => MFBlock__build_repeating_header X [VInt 0]
                      | VNone => ret tt
                      | _ =>
                          match ds_datatype s with
                          | dt_list_multiple => ret tt
                          | _ => MFBlock__build_repeating_header X [VList [VInt 0]]
                          end
                      end
                  | _ => ret tt
                  end).
  assert (Hh : forall r2 b2 w2, headers (b1, w1) = (r2, (b2, w2)) ->
                                exists hs, b2 = set_b_block_headers hs b1).
  { intros r2 b2 w2 E2. unfold headers in E2.
    assert (Hret : forall (r0 : result unit),
               ret tt (b1, w1) = (r2, (b2, w2)) -> exists hs, b2 = set_b_block_headers hs b1)
      by (intros _ E; inversion E; eexists; symmetry; apply set_block_headers_same).
    destruct (ds_datatype s); try (apply (Hret r2); exact E2);
      destruct data;
      try (apply (Hret r2); exact E2);
      try (exact (@build_repeating_header_sets_headers X _ b1 w1 r2 b2 w2 E2));
      try (exact (@build_repeating_headers_set_headers X _ b1 w1 r2 b2 w2 E2)). }
  destruct (headers (b1, w1)) as [r2 [b2 w2]] eqn:E2.
  pose proof (Hh r2 b2 w2 eq_refl) as H2.
  destruct r2 as [[]| |]; intros E; inversion E; subst; (split; [exact H2|]);
    intros d Hd; inversion Hd; reflexivity.
Qed.

(** *** Building the data of a package *)

Lemma build_in_skips (X : Externals) (var_name : string) (data : PyVal)
    (model_type : string) (auxiliary_data : option (list (list string)))
    (aux_structure : MFDataStructure)
    (pre rest : list (string * MFBlockStructure)) :
  Forall (lacks_variable var_name) pre ->
  build_in X (pre ++ rest) var_name data model_type auxiliary_data aux_structure
  = build_in X rest var_name data model_type auxiliary_data aux_structure.
Proof.
  induction 1 as [|[k st] pre H _ IH]; [reflexivity|].
  unfold lacks_variable in H. cbn [snd] in H. cbn [app build_in]. rewrite H. exact IH.
Qed.

(** X15: [build_mfdata] of a name that no block of the package's schema
    has raises [MFDataException] with a message that names the variable
    and the package type, and changes nothing. *)
Theorem build_mfdata_of_unknown_variable (X : Externals) (var_name : string) (data : PyVal)
    (model_type : string) (auxiliary_data : option (list (list string)))
    (aux_structure : MFDataStructure) (p : MFPackage) (w : World) :
  Forall (lacks_variable var_name) (ps_blocks (pk_structure p)) ->
  MFPackage_build_mfdata X var_name data model_type auxiliary_data aux_structure (p, w)
  = (Raise (MFDataException
              ("Unable to find variable " ++ dq ++ var_name ++ dq ++ " in package "
               ++ dq ++ pk_package_type p ++ dq ++ ".")%string),
     (p, w)).
Proof.
  intros H. unfold MFPackage_build_mfdata, bind, self, gets. cbn [fst].
  rewrite <- (app_nil_r (ps_blocks (pk_structure p))).
  rewrite (@build_in_skips X var_name data model_type auxiliary_data aux_structure
             (ps_blocks (pk_structure p)) [] H).
  reflexivity.
Qed.

Lemma build_mfdata_of_unknown_variable_witness :
  MFPackage_build_mfdata spec_externals "maxbound" VNone "gwf" None plain_aux
    (wel_package, empty_world)
  = (Raise (MFDataException
              ("Unable to find variable " ++ dq ++ "maxbound" ++ dq ++ " in package "
               ++ dq ++ "wel" ++ dq ++ ".")%string),
     (wel_package, empty_world)).
Proof.
  apply (@build_mfdata_of_unknown_variable spec_externals "maxbound" VNone "gwf" None
           plain_aux wel_package empty_world).
  repeat constructor.
Defined.

Lemma on_block_add_dataset (X : Externals) (s : MFDataStructure) (data : PyVal)
    (path : Path) (var_name name : string) (p : MFPackage) (w : World) (b0 : MFBlock)
    (r : result (option MFData)) (p' : MFPackage) (w' : World) :
  assoc_lookup String.eqb name (pk_blocks p) = Some b0 ->
  on_block name (MFBlock_add_dataset X s data (path ++ [SegS var_name])) (p, w)
  = (r, (p', w')) ->
  block_with_dataset p' name var_name
    (MFBlock_data_factory s true (path ++ [SegS var_name]) data) (b_datasets b0)
  /\ (forall d, r = Ok d -> d = MFBlock_data_factory s true (path ++ [SegS var_name]) data)
  /\ (forall k, k <> name ->
                assoc_lookup String.eqb k (pk_blocks p')
                = assoc_lookup String.eqb k (pk_blocks p)).
Proof.
  intros Hb. unfold on_block. cbn [fst snd]. rewrite Hb.
  destruct (MFBlock_add_dataset X s data (path ++ [SegS var_name]) (b0, w))
    as [r1 [b1 w1]] eqn:E1.
  destruct (@add_dataset_sets_dataset X s data (path ++ [SegS var_name]) (SegS var_name)
              b0 w r1 b1 w1 (index_last_snoc "var_path" path (SegS var_name)) E1)
    as ((hs & Hb1) & Hd).
  intros E. inversion E; subst r p' w'. clear E.
  split; [|split].
  - exists b1. split.
    + cbn [pk_blocks set_pk_blocks]. apply (@assoc_lookup_set_same _ _ String.eqb str_eqb_eq).
    + rewrite Hb1. cbn [b_datasets set_b_block_headers set_b_datasets]. split.
      * apply (@assoc_lookup_set_same _ _ Seg_eqb Seg_eqb_eq).
      * intros other Ho. apply (@assoc_lookup_set_other _ _ Seg_eqb Seg_eqb_eq). exact Ho.
  - exact Hd.
  - intros k Hk. cbn [pk_blocks set_pk_blocks].
    apply (@assoc_lookup_set_other _ _ String.eqb str_eqb_eq). exact Hk.
Qed.

(** X16: [build_mfdata] puts the dataset into the first block of the
    schema that has a dataset of that name. The package then has a block
    under the name of that block's structure in which the dataset of that
    name is what [data_factory] made for the path of the package, the key
    of the block in the schema and the name; the block's datasets of other
    names are the ones it had (none, when the block was made by this
    call), the blocks of other names are untouched, and a returned value
    is that dataset. This holds also when the call raises while it builds
    block headers. *)
Theorem build_mfdata_puts_dataset (X : Externals) (var_name : string) (data : PyVal)
    (model_type : string) (auxiliary_data : option (list (list string)))
    (aux_structure : MFDataStructure) (p : MFPackage) (w : World)
    (key : string) (st : MFBlockStructure) (s : MFDataStructure)
    (r : result (option MFData)) (p' : MFPackage) (w' : World) :
  first_block_with p var_name key st s ->
  MFPackage_build_mfdata X var_name data model_type auxiliary_data aux_structure (p, w)
  = (r, (p', w')) ->
  block_with_dataset p' (bs_name st) var_name
    (MFBlock_data_factory s true (pk_path p ++ [SegS key; SegS var_name]) data)
    (datasets_of_block p (bs_name st))
  /\ (forall d, r = Ok d ->
                d = MFBlock_data_factory s true (pk_path p ++ [SegS key; SegS var_name]) data)
  /\ (forall k, k <> bs_name st ->
                assoc_lookup String.eqb k (pk_blocks p')
                = assoc_lookup String.eqb k (pk_blocks p)).
Proof.
  intros (pre & post & Hps & Hpre & Hs).
  unfold MFPackage_build_mfdata. unfold bind at 1. unfold self at 1, gets at 1. cbn [fst].
  rewrite Hps.
  rewrite (@build_in_skips X var_name data model_type auxiliary_data aux_structure
             pre ((key, st) :: post) Hpre).
  cbn [build_in]. rewrite Hs.
  replace (pk_path p ++ [SegS key; SegS var_name])
    with ((pk_path p ++ [SegS key]) ++ [SegS var_name])
    by (rewrite <- app_assoc; reflexivity).
  unfold bind, self, gets, update_self, modify, in_world, ret. cbn [fst snd].
  replace (pk_path p ++ [SegS key; SegS var_name])
    with ((pk_path p ++ [SegS key]) ++ [SegS var_name])
    by (rewrite <- app_assoc; reflexivity).
  unfold datasets_of_block, blocks_mem, assoc_mem.
  destruct (assoc_lookup String.eqb (bs_name st) (pk_blocks p)) as [b0|] eqn:Hb0.
  - destruct (on_block (bs_name st)
                (MFBlock_add_dataset X s data ((pk_path p ++ [SegS key]) ++ [SegS var_name]))
                (p, w)) as [r1 [p1 w1]] eqn:E1.
    destruct (@on_block_add_dataset X s data (pk_path p ++ [SegS key]) var_name
                (bs_name st) p w b0 r1 p1 w1 Hb0 E1) as (H1 & H2 & H3).
    destruct r1 as [d| |]; intros E; inversion E; subst; (split; [exact H1|]); split;
      try exact H3; intros d' Hd'; try discriminate.
    inversion Hd'; subst. apply H2. reflexivity.
  - rewrite block_init_result. cbn [fst snd].
    match goal with
    | |- context [on_block _ _ (?p0, ?w0)] => set (pi := p0); set (wi := w0)
    end.
    destruct (on_block (bs_name st)
                (MFBlock_add_dataset X s data ((pk_path p ++ [SegS key]) ++ [SegS var_name]))
                (pi, wi)) as [r1 [p1 w1]] eqn:E1.
    match type of E1 with
    | context [MFBlock_add_dataset] =>
        destruct (@on_block_add_dataset X s data (pk_path p ++ [SegS key]) var_name
                    (bs_name st) pi wi _ r1 p1 w1
                    (@assoc_lookup_set_same _ _ String.eqb str_eqb_eq (bs_name st) _
                       (pk_blocks p)) E1) as (H1 & H2 & H3)
    end.
    assert (H3' : forall k, k <> bs_name st ->
                assoc_lookup String.eqb k (pk_blocks p1)
                = assoc_lookup String.eqb k (pk_blocks p)).
    { intros k Hk. rewrite (H3 k Hk). unfold pi. cbn [pk_blocks set_pk_blocks].
      apply (@assoc_lookup_set_other _ _ String.eqb str_eqb_eq). exact Hk. }
    destruct r1 as [d| |]; intros E; inversion E; subst; (split; [exact H1|]); split;
      try exact H3'; intros d' Hd'; try discriminate.
    inversion Hd'; subst. apply H2. reflexivity.
Qed.

Lemma build_mfdata_puts_dataset_witness :
  block_with_dataset
    (fst (snd (MFPackage_build_mfdata spec_externals "stress_period_data" VNone "gwf" None
                 plain_aux (wel_package, empty_world))))
    "period" "stress_period_data"
    (MFBlock_data_factory stress_period_data true
       [SegS "sim"; SegS "wel"; SegS "period"; SegS "stress_period_data"] VNone)
    []
  /\ fst (MFPackage_build_mfdata spec_externals "stress_period_data" VNone "gwf" None
            plain_aux (wel_package, empty_world))
     = Ok (MFBlock_data_factory stress_period_data true
             [SegS "sim"; SegS "wel"; SegS "period"; SegS "stress_period_data"] VNone).
Proof.
  destruct (@build_mfdata_puts_dataset spec_externals "stress_period_data" VNone "gwf" None
              plain_aux wel_package empty_world "period" period_structure stress_period_data
              (fst (MFPackage_build_mfdata spec_externals "stress_period_data" VNone "gwf"
                      None plain_aux (wel_package, empty_world)))
              (fst (snd (MFPackage_build_mfdata spec_externals "stress_period_data" VNone
                           "gwf" None plain_aux (wel_package, empty_world))))
              (snd (snd (MFPackage_build_mfdata spec_externals "stress_period_data" VNone
                           "gwf" None plain_aux (wel_package, empty_world)))))
    as (H1 & _ & _).
  - exists [], []. split; [reflexivity|]. split; [constructor | reflexivity].
  - reflexivity.
  - split; [exact H1 | reflexivity].
Defined.

(** *** Header lines written and read back *)

Lemma split_from_token (t s cur : string) :
  no_blank t = true ->
  split_from cur (t ++ s) = split_from (cur ++ t) s.
Proof.
  revert cur; induction t as [|c t IH]; intros cur H; simpl.
  - rewrite str_app_nil_r. reflexivity.
  - simpl in H. apply andb_true_iff in H. destruct H as [Hc Ht].
    apply negb_true_iff in Hc. rewrite Hc. rewrite (IH _ Ht).
    rewrite str_app_assoc. reflexivity.
Qed.

Lemma split_from_blank (cur s : string) :
  cur <> EmptyString ->
  split_from cur (" " ++ s) = cur :: split_from EmptyString s.
Proof. intros H. simpl. destruct cur; [congruence | reflexivity]. Qed.

Lemma split_token_then (t s : string) :
  no_blank t = true -> t <> EmptyString ->
  split_from EmptyString (t ++ " " ++ s) = t :: split_from EmptyString s.
Proof.
  intros Hb Hn. rewrite (@split_from_token t (" " ++ s) EmptyString Hb).
  apply split_from_blank. exact Hn.
Qed.

Lemma split_last_token (t : string) :
  no_blank t = true -> t <> EmptyString ->
  split_from EmptyString t = [t].
Proof.
  intros Hb Hn. rewrite <- (str_app_nil_r t) at 1.
  rewrite (@split_from_token t EmptyString EmptyString Hb). simpl.
  destruct t; [congruence | reflexivity].
Qed.

Lemma rstrip_after (a r : string) :
  rstrip r <> EmptyString -> rstrip (a ++ r) = (a ++ rstrip r)%string.
Proof.
  intros H. induction a as [|c a IH]; [reflexivity|].
  simpl. rewrite IH. destruct (a ++ rstrip r)%string eqn:E; [|reflexivity].
  destruct a; simpl in E; [congruence | discriminate].
Qed.

Lemma strip_line (a s : string) :
  no_blank s = true -> s <> EmptyString ->
  strip ("BEGIN " ++ a ++ s ++ nl) = ("BEGIN " ++ a ++ s)%string.
Proof.
  intros Hb Hn. unfold strip.
  change (lstrip ("BEGIN " ++ a ++ s ++ nl)) with ("BEGIN " ++ a ++ s ++ nl)%string.
  change ("BEGIN " ++ a ++ s ++ nl)%string with (("BEGIN " ++ a) ++ s ++ nl)%string.
  rewrite rstrip_after; rewrite (@rstrip_no_blank s Hb Hn); [reflexivity | exact Hn].
Qed.

Lemma fd_write_keeps (fd : nat) (s : string) (w : World) (f : File) (ss : list string) :
  nth_error (w_files w) fd = Some (written_more f ss) ->
  exists w',
    fd_write fd s w = (Ok tt, w') /\
    nth_error (w_files w') fd = Some (written_more f (ss ++ [s])) /\
    w_comments w' = w_comments w /\ w_comments_on w' = w_comments_on w /\
    w_mfdata w' = w_mfdata w.
Proof.
  intros Hf.
  exists (set_w_files (replace_nth fd (written_more f (ss ++ [s])) (w_files w)) w).
  split; [|split; [|split; [|split]]]; try reflexivity.
  - unfold fd_write, bind, file_of, set_file, modify. rewrite Hf. simpl.
    unfold written_more. simpl. rewrite <- app_assoc. reflexivity.
  - simpl. exact (@nth_error_replace_same _ (w_files w) fd _ _ Hf).
Qed.

Lemma header_comment_same_store (h : MFBlockHeader) (w w' : World) (c : nat) :
  w_mfdata w' = w_mfdata w -> header_comment h w c -> header_comment h w' c.
Proof. unfold header_comment. intros E. rewrite E. auto. Qed.

Lemma write_header_without_items (X : Externals) (h : MFBlockHeader) (fd : nat)
    (w : World) (c : nat) (f : File) :
  bh_data_items h = [] ->
  header_comment h w c ->
  text_of c w = Some (TStr EmptyString) ->
  nth_error (w_files w) fd = Some f -> f_closed f = false ->
  exists w',
    MFBlockHeader_write_header X h fd w = (Ok tt, w') /\
    nth_error (w_files w') fd = Some (written_more f [("BEGIN " ++ bh_name h)%string; nl]).
Proof.
  intros Hi Hc Ht Hf Hcl.
  rewrite <- (@written_more_nil f Hcl) in Hf.
  destruct (@fd_write_keeps fd ("BEGIN " ++ bh_name h)%string w f [] Hf)
    as (w1 & E1 & F1 & C1 & O1 & M1).
  destruct (@fd_write_keeps fd nl w1 f _ F1) as (w2 & E2 & F2 & C2 & O2 & M2).
  exists w2. split; [|exact F2].
  unfold MFBlockHeader_write_header. rewrite Hi.
  unfold bind at 1. rewrite E1. unfold bind at 1. unfold ret at 1.
  unfold bind at 1.
  rewrite (@get_comment_of_header h w1 c (@header_comment_same_store h w w1 c M1 Hc)).
  unfold bind at 1.
  assert (T1 : comment_text c w1 = (Ok (TStr EmptyString), w1)).
  { apply comment_text_at. rewrite C1. exact Ht. }
  rewrite T1. cbn [text_truthy str_nonempty]. unfold bind, ret. rewrite E2. reflexivity.
Qed.

(** X17: a header without arguments and without comment text is read
    back as it was written. For a header whose name has no blank
    [write_header] writes [BEGIN], a blank, the name and a newline, and
    [_get_block_header_info] makes of that line a header of the same name,
    with no variable strings and a comment without text. *)
Theorem header_without_arguments_is_read_back (X : Externals) (h : MFBlockHeader)
    (fd : nat) (w : World) (c : nat) (f : File) :
  bh_data_items h = [] ->
  header_comment h w c ->
  text_of c w = Some (TStr EmptyString) ->
  nth_error (w_files w) fd = Some f -> f_closed f = false ->
  no_blank (bh_name h) = true -> bh_name h <> EmptyString ->
  (exists w',
      MFBlockHeader_write_header X h fd w = (Ok tt, w') /\
      nth_error (w_files w') fd
      = Some (written_more f [("BEGIN " ++ bh_name h)%string; nl]))
  /\
  (forall path w0,
      MFPackage__get_block_header_info X ("BEGIN " ++ bh_name h ++ nl) path w0
      = (Ok {| bh_name := bh_name h; bh_variable_strings := [];
               bh_comment := Some (List.length (w_comments w0));
               bh_comment_path := None; bh_data_items := [] |},
         with_comment (TStr EmptyString) w0)).
Proof.
  intros Hi Hc Ht Hf Hcl Hb Hn. split.
  - exact (@write_header_without_items X h fd w c f Hi Hc Ht Hf Hcl).
  - intros path w0.
    apply (@header_line_tokens X ("BEGIN " ++ bh_name h ++ nl) path w0 "BEGIN"
             (bh_name h) []).
    change ("BEGIN " ++ bh_name h ++ nl)%string
      with ("BEGIN " ++ EmptyString ++ bh_name h ++ nl)%string.
    rewrite (@strip_line EmptyString (bh_name h) Hb Hn).
    change (split ("BEGIN " ++ EmptyString ++ bh_name h))
      with (split_from EmptyString ("BEGIN" ++ " " ++ bh_name h)).
    rewrite (@split_token_then "BEGIN" (bh_name h) eq_refl) by discriminate.
    rewrite (@split_last_token (bh_name h) Hb Hn). reflexivity.
Qed.

Lemma header_without_arguments_is_read_back_witness :
  (exists w',
      MFBlockHeader_write_header spec_externals
        {| bh_name := "options"; bh_variable_strings := []; bh_comment := Some 3;
           bh_comment_path := None; bh_data_items := [] |} 0 (snd period_1_appended)
      = (Ok tt, w') /\
      option_map file_text (nth_error (w_files w') 0) = Some ("BEGIN options" ++ nl)%string)
  /\
  fst (MFPackage__get_block_header_info spec_externals ("BEGIN options" ++ nl) [SegS "sim"]
         empty_world)
  = Ok {| bh_name := "options"; bh_variable_strings := []; bh_comment := Some 0;
          bh_comment_path := None; bh_data_items := [] |}.
Proof.
  destruct (@header_without_arguments_is_read_back spec_externals
              {| bh_name := "options"; bh_variable_strings := []; bh_comment := Some 3;
                 bh_comment_path := None; bh_data_items := [] |}
              0 (snd period_1_appended) 3
              {| f_name := "out.wel"; f_unread := []; f_written := []; f_closed := false |})
    as ((w' & E & F) & P); try reflexivity; try discriminate.
  split.
  - exists w'. split; [exact E|]. rewrite F. reflexivity.
  - exact (f_equal fst (P [SegS "sim"] empty_world)).
Defined.

(** X18: the key of a repeating block is read back as it was written.
    For a header whose data item is the integer scalar [z - 1], whose name
    has no blank and whose comment has no text, [write_header] writes
    [BEGIN], the name and the decimal text of [z], and
    [_get_block_header_info] makes of that line a header of the same name
    whose only variable string is the decimal text of [z], provided
    [is_comment] does not take the first character of a number for the
    start of a comment. The entry of the scalar is the one of
    [spec_data_get_file_entry]. *)
Theorem keyed_header_is_read_back (X : Externals) (h : MFBlockHeader)
    (s : MFDataStructure) (path : Path) (c : nat) (z : Z) (fd : nat) (f : File) (w : World) :
  (forall d args, data_get_file_entry X d args = spec_data_get_file_entry d args) ->
  ds_type s = "integer" ->
  bh_comment_path h = None -> bh_comment h = Some c ->
  bh_data_items h = [Some (new_data MFScalar s (VInt (z - 1)) true path)] ->
  text_of c w = Some (TStr EmptyString) ->
  nth_error (w_files w) fd = Some f -> f_closed f = false ->
  no_blank (bh_name h) = true -> bh_name h <> EmptyString ->
  opens_comment X (str_of_int z) = false ->
  (exists w',
      MFBlockHeader_write_header X h fd w = (Ok tt, w') /\
      nth_error (w_files w') fd
      = Some (written_more f [("BEGIN " ++ bh_name h)%string;
                              (" " ++ str_of_int z)%string; nl]))
  /\
  (forall path0 w0,
      MFPackage__get_block_header_info X
        ("BEGIN " ++ bh_name h ++ " " ++ str_of_int z ++ nl) path0 w0
      = (Ok {| bh_name := bh_name h; bh_variable_strings := [str_of_int z];
               bh_comment := Some (List.length (w_comments w0));
               bh_comment_path := None; bh_data_items := [] |},
         with_comment (TStr EmptyString) w0)).
Proof.
  intros HX Hty Hp Hc Hi Ht Hf Hcl Hb Hn Ho. split.
  - exact (@write_header_index X h s path c (TStr EmptyString) z fd f w
             HX Hty Hp Hc Hi Ht Hf Hcl).
  - intros path0 w0.
    assert (Hs : split (strip ("BEGIN " ++ bh_name h ++ " " ++ str_of_int z ++ nl))
                 = ["BEGIN"; bh_name h; str_of_int z]).
    { replace ("BEGIN " ++ bh_name h ++ " " ++ str_of_int z ++ nl)%string
        with ("BEGIN " ++ (bh_name h ++ " ") ++ str_of_int z ++ nl)%string
        by (rewrite str_app_assoc; reflexivity).
      rewrite (@strip_line (bh_name h ++ " ") (str_of_int z)
                 (str_of_int_no_blank z) (@str_of_int_nonempty z)).
      rewrite str_app_assoc.
      change (split ("BEGIN " ++ bh_name h ++ " " ++ str_of_int z))
        with (split_from EmptyString ("BEGIN" ++ " " ++ bh_name h ++ " " ++ str_of_int z)).
      rewrite (@split_token_then "BEGIN" _ eq_refl) by discriminate.
      rewrite (@split_token_then (bh_name h) _ Hb Hn).
      rewrite (@split_last_token (str_of_int z) (str_of_int_no_blank z)
                 (@str_of_int_nonempty z)).
      reflexivity. }
    rewrite (@header_line_tokens X _ path0 w0 "BEGIN" (bh_name h) [str_of_int z] Hs).
    cbn [before_comment from_comment]. rewrite Ho. reflexivity.
Qed.

Lemma keyed_header_is_read_back_witness :
  (exists w',
      MFBlockHeader_write_header spec_externals
        {| bh_name := "period"; bh_variable_strings := ["1"]; bh_comment := Some 3;
           bh_comment_path := None;
           bh_data_items := [Some (new_data MFScalar iper (VInt 0) true period_path)] |}
        0 (snd period_1_appended)
      = (Ok tt, w') /\
      option_map file_text (nth_error (w_files w') 0) = Some ("BEGIN period 1" ++ nl)%string)
  /\
  fst (MFPackage__get_block_header_info spec_externals ("BEGIN period 1" ++ nl) [SegS "sim"]
         empty_world)
  = Ok {| bh_name := "period"; bh_variable_strings := ["1"]; bh_comment := Some 0;
          bh_comment_path := None; bh_data_items := [] |}.
Proof.
  destruct (@keyed_header_is_read_back spec_externals
              {| bh_name := "period"; bh_variable_strings := ["1"]; bh_comment := Some 3;
                 bh_comment_path := None;
                 bh_data_items := [Some (new_data MFScalar iper (VInt 0) true period_path)] |}
              iper period_path 3 1 0
              {| f_name := "out.wel"; f_unread := []; f_written := []; f_closed := false |}
              (snd period_1_appended))
    as ((w' & E & F) & P); try reflexivity; try discriminate.
  split.
  - exists w'. split; [exact E|]. rewrite F. reflexivity.
  - exact (f_equal fst (P [SegS "sim"] empty_world)).
Defined.

(** *** The activation rule of a block *)

(** X19: for a block whose activation rule is [Exists], [is_allowed()]
    compares the truth of the variable the rule depends on with the rule's
    value, in any case of letters: with the value [true] the block is
    allowed exactly when the variable is there and true, with the value
    [false] exactly when it is missing or false, and with any other value
    the block is never allowed. *)
Theorem is_allowed_under_exists_rule (X : Externals) (b : MFBlock) (w : World)
    (value : string) (more : list string) :
  has_rule b ->
  bs_variable_value_when_active (b_structure b) = "Exists" :: value :: more ->
  MFBlock_is_allowed X b w
  = Ok (if String.eqb (lower value) "true" then dependant_truth X b w
        else if String.eqb (lower value) "false" then negb (dependant_truth X b w)
        else false).
Proof.
  intros (Hne & Hlen) Hv. unfold MFBlock_is_allowed, dependant_truth, dependant_variable.
  destruct (bs_variable_dependant_path (b_structure b)) as [|a [|a2 [|a3 [|a4 vdp]]]] eqn:Hp;
    [congruence| | | |];
    (destruct Hlen as [Hlen|Hlen];
     [try (apply Nat.leb_le in Hlen; cbn [List.length Nat.sub] in Hlen |- *; rewrite Hlen)
     |try (simpl in Hlen; lia)]);
    cbv beta iota zeta; cbn [List.length Nat.leb]; rewrite Hv;
    cbn [String.eqb Ascii.eqb Bool.eqb];
    repeat match goal with
           | |- context [assoc_lookup Path_eqb ?p ?m] =>
               destruct (assoc_lookup Path_eqb p m) as [o|];
               [destruct (store_truthy X o)|]
           end;
    destruct (String.eqb (lower value) "true") eqn:E1;
    destruct (String.eqb (lower value) "false") eqn:E2; try reflexivity;
    apply String.eqb_eq in E1; apply String.eqb_eq in E2; congruence.
Qed.

Lemma is_allowed_under_exists_rule_witness :
  MFBlock_is_allowed spec_externals (ruled_block "True") empty_world = Ok false /\
  MFBlock_is_allowed spec_externals (ruled_block "FALSE") empty_world = Ok true.
Proof.
  split.
  - apply (@is_allowed_under_exists_rule spec_externals (ruled_block "True") empty_world
             "True" []).
    + split; [discriminate | left; simpl; lia].
    + reflexivity.
  - apply (@is_allowed_under_exists_rule spec_externals (ruled_block "FALSE") empty_world
             "FALSE" []).
    + split; [discriminate | left; simpl; lia].
    + reflexivity.
Defined.

(** *** The footer of a block *)

(** X20: [write_footer] writes, after [END name], the entry of the header's
    first data item exactly as [get_file_entry] returns it when that item is
    a scalar: trailing white space is not stripped as [write_header] does, so
    an entry that ends with a newline leaves an empty line after the footer.
    The other data items and the header's comment are not written, and no
    comment is changed. *)
Theorem footer_writes_first_entry_unstripped (X : Externals) (h : MFBlockHeader)
    (d : MFData) (others : list (option MFData)) (e : string)
    (fd : nat) (f : File) (w : World) :
  bh_data_items h = Some d :: others ->
  is_MFScalar X d = true ->
  data_get_file_entry X d
    (values_only_args (String.eqb (ds_type (d_structure d)) "integer")) = Ok e ->
  nth_error (w_files w) fd = Some f -> f_closed f = false ->
  exists w',
    MFBlockHeader_write_footer X h fd w = (Ok tt, w') /\
    nth_error (w_files w') fd
    = Some (written_more f [("END " ++ bh_name h)%string; e; nl]) /\
    w_comments w' = w_comments w.
Proof.
  intros Hd Hs He Hf Hcl.
  rewrite <- (@written_more_nil f Hcl) in Hf.
  destruct (@fd_write_more fd ("END " ++ bh_name h)%string w f [] Hf)
    as (w1 & E1 & F1 & C1 & O1).
  destruct (@fd_write_more fd e w1 f _ F1) as (w2 & E2 & F2 & C2 & O2).
  destruct (@fd_write_more fd nl w2 f _ F2) as (w3 & E3 & F3 & C3 & O3).
  exists w3. split; [|split].
  - unfold MFBlockHeader_write_footer. rewrite Hd, Hs, He.
    unfold bind, lift_result. rewrite E1. cbn [fst snd]. rewrite E2. cbn [fst snd].
    exact E3.
  - exact F3.
  - rewrite C3, C2, C1. reflexivity.
Qed.

Lemma footer_writes_first_entry_unstripped_witness :
  exists w',
    MFBlockHeader_write_footer spec_externals
      {| bh_name := "period"; bh_variable_strings := ["1"]; bh_comment := Some 3;
         bh_comment_path := None;
         bh_data_items := [Some (new_data MFScalar iper (VInt 0) true period_path)] |}
      0 (snd period_1_appended)
    = (Ok tt, w') /\
    option_map file_text (nth_error (w_files w') 0)
    = Some ("END period 1" ++ nl ++ nl)%string.
Proof.
  destruct (@footer_writes_first_entry_unstripped spec_externals
              {| bh_name := "period"; bh_variable_strings := ["1"]; bh_comment := Some 3;
                 bh_comment_path := None;
                 bh_data_items := [Some (new_data MFScalar iper (VInt 0) true period_path)] |}
              (new_data MFScalar iper (VInt 0) true period_path) [] (" 1" ++ nl)%string 0
              {| f_name := "out.wel"; f_unread := []; f_written := []; f_closed := false |}
              (snd period_1_appended))
    as (w' & E & F & _); try reflexivity.
  exists w'. split; [exact E|]. rewrite F. reflexivity.
Defined.

(** *** Another entry of a block that does not repeat *)

Lemma store_comment_after_blocks (p : MFPackage) (w : World) (c : nat) (t line : string) :
  pk_post_block_comments p = Some c ->
  text_of c w = Some (TStr t) ->
  exists w2,
    MFPackage__store_comment line true (p, w) = (Ok tt, (p, w2)) /\
    w_files w2 = w_files w /\ w_mfdata w2 = w_mfdata w /\
    text_of c w2 = Some (TStr (t ++ line)%string) /\
    w_stdout w2 = w_stdout w.
Proof.
  intros Hl Ht. unfold text_of in Ht.
  destruct (nth_error (w_comments w) c) as [[t1]|] eqn:En; [|discriminate].
  simpl in Ht. inversion Ht; subst t1.
  exists (set_w_comments
            (replace_nth c {| c_text := TStr (t ++ line)%string |} (w_comments w)) w).
  split.
  - unfold MFPackage__store_comment, bind, self, gets, in_world,
      comment_text, comment_set_text, modify, ret.
    cbn [fst snd]. rewrite Hl. cbn [fst snd]. rewrite En. reflexivity.
  - split; [reflexivity|]. split; [reflexivity|]. split; [|reflexivity].
    unfold text_of. cbn [w_comments set_w_comments].
    rewrite (@nth_error_replace_same _ (w_comments w) c _ _ En). reflexivity.
Qed.

Lemma lines_after_block_loop (X : Externals) (fd : nat) (max_blocks : option nat)
    (blocks_read : nat) (p : MFPackage) (c : nat) (lines : list string) :
  Forall (fun l => starts_no_block X (l ++ nl)) lines ->
  pk_post_block_comments p = Some c ->
  forall fuel w t,
    List.length lines < fuel ->
    unread_lines fd lines w ->
    text_of c w = Some (TStr t) ->
    exists w',
      load_blocks_loop X fuel fd max_blocks blocks_read true (p, w) = (Ok tt, (p, w')) /\
      unread_lines fd [] w' /\
      w_mfdata w' = w_mfdata w /\
      text_of c w' = Some (TStr (t ++ stored_text X lines)%string) /\
      w_stdout w' = w_stdout w.
Proof.
  intros Hall Hp. induction Hall as [|l rest Hl _ IH]; intros fuel w t Hf Hu Ht.
  - destruct fuel as [|fuel]; [simpl in Hf; lia|].
    cbn [load_blocks_loop]. unfold bind at 1. unfold in_world at 1. cbn [fst snd].
    rewrite (@readline_at_end fd w Hu).
    change (strip EmptyString) with EmptyString.
    destruct (is_comment X (CA_str EmptyString) true).
    + destruct (@store_comment_after_blocks p w c t EmptyString Hp Ht)
        as (w2 & E & F2 & M2 & T2 & S2).
      unfold bind. rewrite E. cbn [str_nonempty]. exists w2.
      split; [reflexivity|].
      split; [exact (@unread_lines_same_files fd [] w w2 F2 Hu)|].
      split; [exact M2|]. split; [|exact S2].
      rewrite T2. cbn [stored_text]. reflexivity.
    + cbn. exists w. split; [reflexivity|]. split; [exact Hu|]. split; [reflexivity|].
      split; [|reflexivity]. rewrite Ht. cbn [stored_text]. rewrite str_app_nil_r.
      reflexivity.
  - destruct fuel as [|fuel]; [simpl in Hf; lia|].
    destruct (@readline_next fd l rest w Hu) as (w1 & E1 & U1 & M1 & C1 & S1).
    assert (Ht1 : text_of c w1 = Some (TStr t))
      by (rewrite (@text_of_same_comments c w w1 C1); exact Ht).
    assert (Stored : forall (w2 : World),
               w_files w2 = w_files w1 -> w_mfdata w2 = w_mfdata w1 ->
               text_of c w2 = Some (TStr (t ++ (l ++ nl))%string) ->
               w_stdout w2 = w_stdout w1 ->
               stored_line X (l ++ nl) = true ->
               exists w',
                 load_blocks_loop X fuel fd max_blocks blocks_read true (p, w2)
                 = (Ok tt, (p, w')) /\
                 unread_lines fd [] w' /\ w_mfdata w' = w_mfdata w /\
                 text_of c w' = Some (TStr (t ++ stored_text X (l :: rest))%string) /\
                 w_stdout w' = w_stdout w).
    { intros w2 F2 M2 T2 S2 Hst.
      destruct (IH fuel w2 (t ++ (l ++ nl))%string) as (w' & E' & U' & M' & T' & S').
      - simpl in Hf. lia.
      - exact (@unread_lines_same_files fd rest w1 w2 F2 U1).
      - exact T2.
      - exists w'. split; [exact E'|]. split; [exact U'|].
        split; [congruence|]. split; [|congruence].
        rewrite T'. cbn [stored_text]. rewrite Hst. rewrite !str_app_assoc. reflexivity. }
    cbn [load_blocks_loop]. unfold bind at 1. unfold in_world at 1. cbn [fst snd].
    rewrite E1. cbv beta iota. rewrite str_nonempty_line.
    destruct (@store_comment_after_blocks p w1 c t (l ++ nl)%string Hp Ht1)
      as (w2 & E2 & F2 & M2 & T2 & S2).
    destruct (is_comment X (CA_str (strip (l ++ nl))) true) eqn:Hc.
    + unfold bind at 1. rewrite E2.
      apply (Stored w2 F2 M2 T2 S2). unfold stored_line. rewrite Hc. reflexivity.
    + destruct Hl as [Hl|Hl]; [congruence|].
      unfold begins_block in Hl. rewrite Hl.
      destruct (negb (Nat.eqb (String.length (strip (l ++ nl))) 0
                      || (Nat.ltb 2 (String.length (l ++ nl)) && is_END (l ++ nl))))
        eqn:Hk.
      * unfold bind at 1. rewrite E2.
        apply (Stored w2 F2 M2 T2 S2). unfold stored_line. rewrite Hc. exact Hk.
      * unfold bind at 1. unfold ret at 1.
        destruct (IH fuel w1 t) as (w' & E' & U' & M' & T' & S'); auto.
        { simpl in Hf. lia. }
        exists w'. split; [exact E'|]. split; [exact U'|].
        split; [congruence|]. split; [|congruence].
        rewrite T'. cbn [stored_text]. unfold stored_line. rewrite Hc, Hk. reflexivity.
Qed.

Lemma repeated_block_step (X : Externals) (fuel : nat) (fd : nat) (max_blocks : option nat)
    (blocks_read : nat) (found_first_block : bool) (p : MFPackage) (w : World)
    (line keyword name : string) (entries rest : list string) :
  unread_lines fd (line :: rest) w ->
  is_comment X (CA_str (strip (line ++ nl))) true = false ->
  begins_block (strip (line ++ nl)) = true ->
  split (strip (line ++ nl)) = keyword :: name :: entries ->
  loaded_once p name ->
  exists w1 c,
    load_blocks_loop X (S fuel) fd max_blocks blocks_read found_first_block (p, w)
    = load_blocks_loop X fuel fd max_blocks blocks_read true
        (set_pk_post_block_comments (Some c) p, w1) /\
    unread_lines fd rest w1 /\
    w_mfdata w1 = w_mfdata w /\
    text_of c w1 = Some (TStr EmptyString) /\
    w_stdout w1 = w_stdout w ++ [multiple_entries_warning name (pk_package_type p)].
Proof.
  intros Hu Hc Hb Hs (Hm & (block & Hk & Hl) & (s & Hst & Hr)).
  destruct (@readline_next fd line rest w Hu) as (w1 & E1 & U1 & M1 & C1 & S1).
  cbn [load_blocks_loop]. unfold bind at 1. unfold in_world at 1. cbn [fst snd].
  rewrite E1. cbv beta iota. rewrite str_nonempty_line. rewrite Hc.
  unfold begins_block in Hb. rewrite Hb.
  unfold bind at 1. unfold self at 1. unfold gets at 1. cbn [fst snd].
  unfold bind at 1. unfold try_except at 1. unfold in_world at 1. cbn [fst snd].
  rewrite (@header_line_tokens X (line ++ nl)%string (pk_path p) w1 keyword name entries Hs).
  cbn [fst snd bh_name]. rewrite Hm.
  unfold bind at 1. unfold ret at 1. cbn [fst snd].
  unfold bind at 1. unfold self at 1. unfold gets at 1. cbn [fst snd].
  rewrite Hk.
  unfold bind at 1. unfold in_world at 1. unfold MFComment_new at 1. cbn [fst snd].
  unfold bind at 1. unfold update_self at 1. unfold modify at 1. cbn [fst snd].
  rewrite Hl. rewrite Hst. rewrite Hr.
  unfold bind at 1. unfold bind at 1. unfold in_world at 1. unfold print at 1.
  unfold modify at 1. cbn [fst snd]. unfold ret at 1. cbn [fst snd].
  eexists. eexists. split; [reflexivity|].
  split; [|split; [|split]].
  - destruct U1 as (f & H). exists f. exact H.
  - cbn. exact M1.
  - unfold text_of, with_comment. cbn [w_comments set_w_comments set_w_stdout].
    rewrite nth_error_app2 by lia. rewrite Nat.sub_diag. reflexivity.
  - cbn. rewrite S1. reflexivity.
Qed.

(** X21: another entry of a block that does not repeat is not loaded. When
    the file starts with the [BEGIN] line of a block the package has loaded
    and whose schema does not repeat, and no later line starts a block,
    [_load_blocks] raises nothing, prints the one warning of multiple
    entries, and leaves the blocks of the package as they were; in the store
    only the package's header comment is set. The lines after the [BEGIN]
    line are read to the end of the file as text outside the blocks and end
    in the package's [post_block_comments]. *)
Theorem repeated_block_is_read_as_text (X : Externals) (fd : nat) (max_blocks : option nat)
    (p : MFPackage) (w : World) (line keyword name : string)
    (entries rest : list string) (fuel : nat) :
  unread_lines fd (line :: rest) w ->
  is_comment X (CA_str (strip (line ++ nl))) true = false ->
  begins_block (strip (line ++ nl)) = true ->
  split (strip (line ++ nl)) = keyword :: name :: entries ->
  loaded_once p name ->
  Forall (fun l => starts_no_block X (l ++ nl)) rest ->
  S (List.length rest) < fuel ->
  exists p' w' c,
    MFPackage__load_blocks X fuel fd max_blocks (p, w) = (Ok tt, (p', w')) /\
    pk_blocks p' = pk_blocks p /\
    w_stdout w' = w_stdout w ++ [multiple_entries_warning name (pk_package_type p)] /\
    pk_post_block_comments p' = Some c /\
    text_of c w' = Some (TStr (stored_text X rest)) /\
    (forall path, path <> pk_path p ++ [SegS "pkg_hdr_comments"] ->
       assoc_lookup Path_eqb path (w_mfdata w') = assoc_lookup Path_eqb path (w_mfdata w)) /\
    unread_lines fd [] w'.
Proof.
  intros Hu Hc Hb Hs Hl Hall Hf.
  destruct fuel as [|fuel]; [lia|].
  unfold MFPackage__load_blocks, bind, self, gets, in_world, MFComment_new, mfdata_set,
    update_self, modify.
  cbn [fst snd].
  match goal with
  | |- context [load_blocks_loop X (S fuel) fd max_blocks 0 false (?p1, ?w0)] =>
      assert (Hu0 : unread_lines fd (line :: rest) w0)
        by (destruct Hu as (f & H); exists f; exact H);
      assert (Hl0 : loaded_once p1 name)
        by (destruct Hl as (Hm & Hk & Hst); split; [exact Hm|]; split;
            [exact Hk | exact Hst]);
      destruct (@repeated_block_step X fuel fd max_blocks 0 false p1 w0
                  line keyword name entries rest Hu0 Hc Hb Hs Hl0)
        as (w1 & c & E1 & U1 & M1 & T1 & S1)
  end.
  rewrite E1.
  destruct (@lines_after_block_loop X fd max_blocks 0
              (set_pk_post_block_comments (Some c)
                 (set_pk_post_block_comments
                    (Some (List.length
                             (w_comments w ++ [{| c_text := TStr EmptyString |}]))) p))
              c rest Hall eq_refl fuel w1 EmptyString)
    as (w' & E & U & M & T & S); [lia | exact U1 | exact T1 |].
  eexists. exists w', c. split; [exact E|].
  split; [reflexivity|]. split; [rewrite S, S1; reflexivity|].
  split; [reflexivity|]. split; [exact T|]. split; [|exact U].
  intros path Hn. rewrite M, M1. cbn [w_mfdata set_w_mfdata set_w_comments].
  apply (@assoc_lookup_set_other _ _ Path_eqb Path_eqb_eq). exact Hn.
Qed.

Lemma repeated_block_is_read_as_text_witness :
  exists p' w' c,
    MFPackage__load_blocks spec_externals 10 0 None
      (options_package,
       snd (open_r "model.rch"
              (with_file "model.rch" ["BEGIN options"; "  PRINT_INPUT"; "END options"]
                 empty_world)))
    = (Ok tt, (p', w')) /\
    pk_blocks p' = pk_blocks options_package /\
    w_stdout w' = [multiple_entries_warning "options" "rch"] /\
    pk_post_block_comments p' = Some c /\
    text_of c w' = Some (TStr ("  PRINT_INPUT" ++ nl)).
Proof.
  destruct (@repeated_block_is_read_as_text spec_externals 0 None options_package
              (snd (open_r "model.rch"
                      (with_file "model.rch"
                         ["BEGIN options"; "  PRINT_INPUT"; "END options"] empty_world)))
              "BEGIN options" "BEGIN" "options" [] ["  PRINT_INPUT"; "END options"] 10)
    as (p' & w' & c & E & B & S & P & T & _).
  - eexists. split; [reflexivity|]. split; reflexivity.
  - reflexivity.
  - reflexivity.
  - reflexivity.
  - split; [reflexivity|]. split.
    + eexists. split; reflexivity.
    + eexists. split; reflexivity.
  - repeat constructor; right; reflexivity.
  - simpl. lia.
  - exists p', w', c. split; [exact E|]. split; [exact B|]. split; [exact S|].
    split; [exact P | exact T].
Defined.

(** *** A block without lines *)

(** X22: a block whose body is empty is loaded. When the line after the
    header is the [END] line, [load] of a block without header variables,
    in a package that does not read arrays as arrays, reads that one line,
    enables the block, marks it loaded and adds the header to its headers,
    which a block not loaded before first forgets; the datasets are left as
    they are, the trailing comment of the block gets an empty list for text,
    and the outcome is that of the closing call of [is_valid()], whose value
    is dropped. *)
Theorem empty_block_is_loaded (X : Externals) (fd : nat) (block_header : MFBlockHeader)
    (b : MFBlock) (w : World) (l : string) (rest : list string) (c : nat) (fuel : nat) :
  header_accepted b block_header ->
  plain_block b ->
  unread_lines fd (l :: rest) w ->
  ends_block X (l ++ nl) ->
  assoc_lookup Path_eqb (b_blk_trailing_comment_path b) (w_mfdata w) = Some (SComment c) ->
  0 < fuel ->
  exists b' w',
    MFBlock_load X fuel block_header fd (b, w) = (dropped (MFBlock_is_valid X b'), (b', w')) /\
    b_enabled b' = true /\ b_loaded b' = true /\
    b_block_headers b'
    = (if b_loaded b then b_block_headers b else []) ++ [block_header] /\
    b_datasets b' = b_datasets b /\
    w_comments w' = replace_nth c {| c_text := TItems [] |} (w_comments w) /\
    w_mfdata w' = w_mfdata w /\
    unread_lines fd rest w'.
Proof.
  intros (Hn & Hl) (Hs & cp & Hcp & Hr) Hu (Hc & first & more & Hsp & He) Ht Hf.
  destruct fuel as [|fuel]; [lia|].
  destruct (@readline_next fd l rest w Hu) as (w1 & E1 & U1 & M1 & C1 & S1).
  unfold MFBlock_load. unfold bind at 1. unfold self at 1, gets at 1. cbn [fst].
  apply Nat.ltb_ge in Hn. rewrite Hn.
  assert (Hd : (if b_loaded b
                then lift_result (same_header_in (b_block_headers b) block_header)
                else ret false) (b, w) = (Ok false, (b, w))).
  { destruct Hl as [Hl|Hl].
    - rewrite Hl. reflexivity.
    - destruct (b_loaded b); [|reflexivity]. unfold lift_result. rewrite Hl. reflexivity. }
  unfold bind at 1. rewrite Hd.
  rewrite Hs, Hcp, Hr.
  assert (Hb : forall (b1 : MFBlock),
             load_body X (S fuel) fd (b1, w) = (Ok (Some []), (b1, w1))).
  { intros b1. unfold load_body. unfold bind at 1. unfold in_world at 1. cbn [fst snd].
    rewrite E1. unfold bind at 1. unfold in_world at 1. cbn [fst snd skip_initial_comments].
    rewrite Hc. unfold ret at 1. cbv beta iota. rewrite Hsp.
    unfold bind, lift_result, index. cbn [nth_error fst snd]. rewrite He. reflexivity. }
  exists (set_b_loaded true
            (set_b_block_headers
               ((if b_loaded b then b_block_headers b else []) ++ [block_header])
               (set_b_enabled true b))).
  exists (set_w_comments (replace_nth c {| c_text := TItems [] |} (w_comments w1)) w1).
  split; [|split; [reflexivity|split; [reflexivity|split; [reflexivity|split;
           [reflexivity|split; [|split]]]]]].
  - unfold bind, update_self, modify, ret. cbn [fst snd].
    destruct (b_loaded b) eqn:Hld; cbv beta iota; cbn [fst snd]; rewrite Hb;
      cbv beta iota; cbn [fst snd]; unfold self, gets, in_world, mfdata_get;
      cbn [fst snd b_blk_trailing_comment_path set_b_block_headers set_b_enabled];
      rewrite M1, Ht; cbn [fst snd]; unfold comment_set_text, modify, lift_result;
      cbn [fst snd]; unfold MFBlock_is_valid, dropped;
      cbn [b_datasets b_block_headers set_b_loaded set_b_block_headers set_b_enabled];
      match goal with
      | |- context [datasets_check ?ds] => destruct (datasets_check ds) as [[v|]| |]
      end; try reflexivity;
      match goal with
      | |- context [headers_check ?hs] => destruct (headers_check hs); reflexivity
      end.
  - cbn. rewrite C1. reflexivity.
  - cbn. exact M1.
  - destruct U1 as (f & H). exists f. exact H.
Qed.

Lemma empty_block_is_loaded_witness :
  exists b' w',
    MFBlock_load spec_externals 5 (parsed_header "options" []) 0
      (options_block, at_end_of_options)
    = (Ok tt, (b', w')) /\
    b_enabled b' = true /\ b_loaded b' = true /\
    b_block_headers b' = [parsed_header "options" []].
Proof.
  destruct (@empty_block_is_loaded spec_externals 0 (parsed_header "options" [])
              options_block at_end_of_options "END options" [] 1 5)
    as (b' & w' & E & En & Ld & Hh & Hd & _).
  - split; [simpl; lia | left; reflexivity].
  - split; [reflexivity|]. eexists. split; reflexivity.
  - eexists. split; [reflexivity|]. split; reflexivity.
  - split; [reflexivity|]. exists "END", ["options"]. split; reflexivity.
  - reflexivity.
  - lia.
  - exists b', w'. split; [|split; [exact En|split; [exact Ld | exact Hh]]].
    rewrite E. unfold MFBlock_is_valid. rewrite Hd, Hh. reflexivity.
Defined.

(** *** One header for a key *)

Lemma header_exists_in_app (X : Externals) (xs ys : list MFBlockHeader)
    (comp : list PyVal) :
  header_exists_in X (xs ++ ys) comp
  = match header_exists_in X xs comp with
    | Ok false => header_exists_in X ys comp
    | r => r
    end.
Proof.
  induction xs as [|h xs IH]; [reflexivity|]. cbn [app header_exists_in].
  destruct (MFBlockHeader_get_transient_key X h) as [t| |]; try reflexivity.
  destruct (existsb _ comp); [reflexivity | exact IH].
Qed.

Lemma header_exists_in_front (X : Externals) (xs ys : list MFBlockHeader)
    (comp : list PyVal) :
  header_exists_in X (xs ++ ys) comp = Ok false -> header_exists_in X xs comp = Ok false.
Proof.
  rewrite header_exists_in_app.
  destruct (header_exists_in X xs comp) as [[|]| |]; congruence.
Qed.

(** The header whose only data item was made of the row of [k] has the
    key [k]. *)
Lemma header_of_key_exists (X : Externals) (s0 : MFDataStructure) (k : PyVal)
    (path : Path) (h : MFBlockHeader) :
  key_is_reported X s0 k ->
  bh_data_items h = [MFBlock_data_factory s0 true path (header_row s0 k)] ->
  header_exists_in X [h] [k] = Ok true.
Proof.
  intros (Hn & Hl & Hr & Hs & Hk & Hg) Hi.
  destruct (@data_factory_supported s0 true path (header_row s0 k) Hs)
    as (d & Hd & Sd & _).
  cbn [header_exists_in]. unfold MFBlockHeader_get_transient_key. rewrite Hi, Hd.
  cbn [transient_key_of]. rewrite Sd.
  destruct (String.eqb (ds_type s0) "keyword") eqn:E;
    [apply String.eqb_eq in E; congruence|].
  cbn [negb]. rewrite (Hg path d Hd).
  pose proof (val_eqb_refl k) as Hv.
  destruct k; cbn [existsb is_none negb andb orb]; rewrite ?Hv; try reflexivity;
    try congruence.
Qed.

Lemma build_header_variables_of_key (s0 : MFDataStructure) (rest : list MFDataStructure)
    (path : Path) (k : PyVal) (h h' : MFBlockHeader) :
  MFBlockHeader_build_header_variables (s0 :: rest) path (VList [k]) h = (Ok tt, h') ->
  h' = set_bh_data_items
         [MFBlock_data_factory s0 true (path ++ [SegS (ds_name s0)]) (header_row s0 k)] h.
Proof.
  unfold MFBlockHeader_build_header_variables, bind, modify, lift_result, index, header_row.
  cbn [nth_error fst snd].
  destruct (ds_data_item_structures s0) as [|dis0 more]; cbn [nth_error]; [discriminate|].
  destruct (String.eqb (dis_type dis0) "keyword"); cbn [app];
    intros H; inversion H; reflexivity.
Qed.

Lemma on_last_header_of_key (s0 : MFDataStructure) (rest : list MFDataStructure)
    (path : Path) (k : PyVal) (b b1 : MFBlock) (w w1 : World)
    (before : list MFBlockHeader) (h : MFBlockHeader) :
  b_block_headers b = before ++ [h] ->
  on_last_header (MFBlockHeader_build_header_variables (s0 :: rest) path (VList [k])) (b, w)
  = (Ok tt, (b1, w1)) ->
  b_block_headers b1
  = before ++ [set_bh_data_items
                 [MFBlock_data_factory s0 true (path ++ [SegS (ds_name s0)])
                    (header_row s0 k)] h].
Proof.
  intros Hb. unfold on_last_header. cbn [fst snd]. rewrite Hb, rev_app_distr. cbn [rev app].
  destruct (MFBlockHeader_build_header_variables (s0 :: rest) path (VList [k]) h)
    as [r h'] eqn:E.
  intros H. inversion H; subst. apply build_header_variables_of_key in E. subst h'.
  rewrite (@update_last_header_snoc _ b before h Hb). reflexivity.
Qed.

(** X7: [_build_repeating_header] gives a key one header. When a call
    with the key [k] returns, [_header_exists(k)] is true of the block it
    leaves, whether the key had a header before, the last header was
    empty and took the key, or a header was added for it; a second call
    with [k] then changes nothing. The key is one that the data object
    made for a header reports back through [get_data()]. *)
Theorem key_gets_one_header (X : Externals) (b : MFBlock) (w : World) (k : PyVal)
    (b1 : MFBlock) (w1 : World) (s0 : MFDataStructure) (rest : list MFDataStructure) :
  bs_block_header_structure (b_structure b) = s0 :: rest ->
  key_is_reported X s0 k ->
  MFBlock__build_repeating_header X [k] (b, w) = (Ok tt, (b1, w1)) ->
  MFBlock__header_exists X b1 k = Ok true /\
  MFBlock__build_repeating_header X [k] (b1, w1) = (Ok tt, (b1, w1)).
Proof.
  intros Hs Hk H.
  assert (Hex : MFBlock__header_exists X b1 k = Ok true);
    [|split; [exact Hex | apply build_repeating_header_known; exact Hex]].
  assert (Hcomp : forall hs, header_exists_in X hs (match k with VList xs => xs | _ => [k] end)
                             = header_exists_in X hs [k]).
  { intros hs. destruct Hk as (_ & Hl & _). destruct k; try reflexivity.
    exfalso. eapply Hl. reflexivity. }
  revert H.
  unfold MFBlock__build_repeating_header, bind, self, gets, lift_result.
  cbn [fst index nth_error].
  destruct (MFBlock__header_exists X b k) as [[|]| |] eqn:He; try discriminate.
  { unfold ret. intros H. inversion H; subst. exact He. }
  destruct (b_block_headers b) as [|x xs] eqn:Hb0; [discriminate|].
  destruct (@exists_last _ (x :: xs)) as (before & last & Hl); [discriminate|].
  rewrite Hl in *. rewrite index_last_snoc. rewrite Hs.
  unfold MFBlock__header_exists in He |- *. rewrite Hb0, Hcomp in He. rewrite Hcomp.
  assert (Fin : forall bs h path,
             header_exists_in X bs [k] = Ok false ->
             header_exists_in X
               (bs ++ [set_bh_data_items
                         [MFBlock_data_factory s0 true path (header_row s0 k)] h]) [k]
             = Ok true).
  { intros bs h path Hf. rewrite header_exists_in_app, Hf.
    apply (@header_of_key_exists X s0 k path _ Hk). reflexivity. }
  destruct (bh_data_items last) as [|[d|] [|more]] eqn:Hi; unfold ret, raise;
    try discriminate.
  all: try (intros H;
            rewrite (@on_last_header_of_key s0 rest _ k b b1 w w1 before last Hb0 H);
            apply Fin; exact (@header_exists_in_front X before [last] [k] He)).
  destruct (negb (is_none (data_get_data X d))).
  - unfold in_world, MFComment_new, MFBlockHeader_init, bind, mfdata_set, update_self,
      modify, ret. cbn [fst snd].
    match goal with
    | |- on_last_header ?m (?b2, ?w2) = _ -> _ =>
        assert (Hb2 : b_block_headers b2 = (before ++ [last]) ++
                        [{| bh_name := bs_name (b_structure b); bh_variable_strings := [];
                            bh_comment := None;
                            bh_comment_path :=
                              Some ((b_path b ++ [SegI (List.length (before ++ [last]) + 1)])
                                    ++ [SegS "blk_hdr_comment"]);
                            bh_data_items := [] |}])
          by (cbn; rewrite Hb0; reflexivity);
        intros H;
        rewrite (@on_last_header_of_key s0 rest _ k b2 b1 w2 w1 _ _ Hb2 H)
    end.
    apply Fin. exact He.
  - intros H. rewrite (@on_last_header_of_key s0 rest _ k b b1 w w1 before last Hb0 H).
    apply Fin. exact (@header_exists_in_front X before [last] [k] He).
Qed.

Lemma key_gets_one_header_witness :
  fst period_5_added = Ok tt /\
  List.length (b_block_headers (fst (snd period_5_added))) = 3 /\
  MFBlock__header_exists spec_externals (fst (snd period_5_added)) (VInt 5) = Ok true /\
  MFBlock__build_repeating_header spec_externals [VInt 5]
    (fst (snd period_5_added), snd (snd period_5_added))
  = (Ok tt, (fst (snd period_5_added), snd (snd period_5_added))).
Proof.
  split; [reflexivity|]. split; [reflexivity|].
  apply (@key_gets_one_header spec_externals period_block_loaded empty_world (VInt 5)
           (fst (snd period_5_added)) (snd (snd period_5_added)) iper []).
  - reflexivity.
  - repeat split; try discriminate.
    intros path d H. cbn in H. inversion H. reflexivity.
  - reflexivity.
Defined.

(** *** The read-as-arrays guard, from the file to the caller *)









(** *** The lines of a block of several datasets *)

Lemma reloaded_refl (b : MFBlock) : reloaded b b.
Proof.
  repeat split; try reflexivity. intros name d H. exists d. repeat split; assumption.
Qed.














